(** * agent_backend: the image-analysis relay and its browser client

    A shallow embedding of [server.js] (the Express relay behind
    [POST /analyze]) and of the browser script ([analyzeImage],
    [fileToBase64], [formatDescription], the view switches), followed by
    the properties of the request/response contract.

    Conventions.
    - A JavaScript string is a [string]; each [ascii] stands for one
      code unit in the range 0..255.
    - A JSON object is a finite map from field names to [jsval]; reading
      a field that is not there gives [JUndefined], as in JavaScript.
    - The body of a request is the JSON object that [express.json]
      parsed, or nothing when the request carried none to parse
      ([req.body] is then [undefined]).
    - The handler runs in a small monad that threads the console and
      upstream-call trace and carries a thrown error to the enclosing
      [catch]. *)

From Stdlib Require Import ZArith Lia List String Ascii DecimalString.
From stdpp Require Import base option gmap strings list.
From Equations Require Import Equations.

Local Open Scope string_scope.
Local Open Scope Z_scope.

(* ================================================================== *)
(** * JavaScript values and string primitives                          *)
(* ================================================================== *)

Module JS.

(** The values a parsed JSON document can put in a field.  A number is
    an integer that JavaScript holds exactly (below 2^53 in magnitude).
    [JObj] stands for a plain object.  An array is truthy like an
    object but has another text under [ToString] (its elements, joined
    by commas): arrays are left out, and the properties below read the
    text of strings only. *)
Inductive jsval : Type :=
| JUndefined
| JNull
| JBool (b : bool)
| JNum (n : Z)
| JStr (s : string)
| JObj.

(** ToBoolean: [undefined], [null], [false], [0] and the empty string
    are falsy, everything else is truthy. *)
Definition truthy (v : jsval) : bool :=
  match v with
  | JUndefined | JNull => false
  | JBool b => b
  | JNum n => negb (n =? 0)
  | JStr s => negb (String.eqb s EmptyString)
  | JObj => true
  end.

(** [a || b] on values. *)
Definition or_else (a b : jsval) : jsval := if truthy a then a else b.

(** Property access [o.k] on a parsed JSON object. *)
Definition get (o : gmap string jsval) (k : string) : jsval :=
  default JUndefined (o !! k).

(** [s.startsWith(p)]. *)
Definition startsWith (s p : string) : bool := String.prefix p s.

(** [s.includes(needle)]: [needle] occurs at some position of [s]. *)
Fixpoint includes (s needle : string) : bool :=
  String.prefix needle s ||
  match s with
  | EmptyString => false
  | String _ rest => includes rest needle
  end.

(** [String(v)], as a template literal or [new Error(v)] applies it: an
    exactly held integer is written in full decimal digits, a plain
    object as [[object Object]]. *)
Definition ToString (v : jsval) : string :=
  match v with
  | JUndefined => "undefined"
  | JNull => "null"
  | JBool true => "true"
  | JBool false => "false"
  | JNum n => NilZero.string_of_int (Z.to_int n)
  | JStr s => s
  | JObj => "[object Object]"
  end.

(** Character classes of the regular expressions: [\s] (which is also
    what [trim] removes), the line terminators that [.] refuses, and
    [\d]. *)
Definition is_whitespace (c : ascii) : bool :=
  let n := nat_of_ascii c in
  ((9 <=? n) && (n <=? 13) || (n =? 32) || (n =? 160))%nat.

Definition is_line_terminator (c : ascii) : bool :=
  let n := nat_of_ascii c in ((n =? 10) || (n =? 13))%nat.

Definition is_digit (c : ascii) : bool :=
  (48 <=? nat_of_ascii c)%nat && (nat_of_ascii c <=? 57)%nat.

Fixpoint dropWhile (f : ascii -> bool) (s : string) : string :=
  match s with
  | EmptyString => EmptyString
  | String c rest => if f c then dropWhile f rest else s
  end.

Definition trimStart (s : string) : string := dropWhile is_whitespace s.

Fixpoint trimEnd (s : string) : string :=
  match s with
  | EmptyString => EmptyString
  | String c rest =>
      match trimEnd rest with
      | EmptyString => if is_whitespace c then EmptyString else String c EmptyString
      | kept => String c kept
      end
  end.

(** [s.trim()]. *)
Definition trim (s : string) : string := trimEnd (trimStart s).

(** [s.split(sep)] for a one-character separator. *)
Fixpoint split (sep : ascii) (s : string) : list string :=
  match s with
  | EmptyString => [EmptyString]
  | String c rest =>
      if Ascii.eqb c sep then EmptyString :: split sep rest
      else match split sep rest with
           | [] => [String c EmptyString]
           | piece :: pieces => String c piece :: pieces
           end
  end.

(** [pieces.join('')]. *)
Definition join (pieces : list string) : string :=
  List.fold_right String.append EmptyString pieces.

End JS.

(* ================================================================== *)
(** * [Date.prototype.toISOString]                                     *)
(* ================================================================== *)

Module Date.

(** The built-in of the language, on the proleptic Gregorian calendar
    in UTC.  A time value is a number of milliseconds since
    1970-01-01T00:00Z; the language keeps it within
    [-8.64e15, 8.64e15]. *)
Definition maxTime : Z := 8640000000000000.
Definition valid (t : Z) : Prop := - maxTime <= t <= maxTime.

Definition msPerDay : Z := 86400000.
Definition Day (t : Z) : Z := t / msPerDay.
Definition HourFromTime (t : Z) : Z := (t / 3600000) mod 24.
Definition MinFromTime (t : Z) : Z := (t / 60000) mod 60.
Definition SecFromTime (t : Z) : Z := (t / 1000) mod 60.
Definition msFromTime (t : Z) : Z := t mod 1000.

(** The civil calendar repeats every 400 years, 146097 days.  Days are
    counted from a 1 March so that the leap day is the last day of its
    year, of its 4-year group and of its century. *)
Definition cycleOf (day : Z) : Z := (day + 719468) / 146097.
Definition dayOfCycle (day : Z) : Z := (day + 719468) mod 146097.

Definition centuryOfCycle (doe : Z) : Z := Z.min (doe / 36524) 3.
Definition dayOfCentury (doe : Z) : Z := doe - 36524 * centuryOfCycle doe.
Definition quadOfCentury (doe : Z) : Z := dayOfCentury doe / 1461.
Definition dayOfQuad (doe : Z) : Z := dayOfCentury doe mod 1461.
Definition yearOfQuad (doe : Z) : Z := Z.min (dayOfQuad doe / 365) 3.
Definition dayOfYear (doe : Z) : Z := dayOfQuad doe - 365 * yearOfQuad doe.
Definition yearOfCycle (doe : Z) : Z :=
  100 * centuryOfCycle doe + 4 * quadOfCentury doe + yearOfQuad doe.

(** Month counted from March (0) to February (11). *)
Definition monthIndex (doe : Z) : Z := (5 * dayOfYear doe + 2) / 153.

Definition monthOfCycleDay (doe : Z) : Z :=
  let mp := monthIndex doe in if mp <? 10 then mp + 3 else mp - 9.
Definition dateOfCycleDay (doe : Z) : Z :=
  dayOfYear doe - (153 * monthIndex doe + 2) / 5 + 1.

Definition MonthFromTime (t : Z) : Z := monthOfCycleDay (dayOfCycle (Day t)).
Definition DateFromTime (t : Z) : Z := dateOfCycleDay (dayOfCycle (Day t)).
Definition YearFromTime (t : Z) : Z :=
  let day := Day t in
  yearOfCycle (dayOfCycle day) + 400 * cycleOf day
  + (if MonthFromTime t <=? 2 then 1 else 0).

(** The same quantities as the language specification words them:
    the day a year starts on, the length of a year, the day within the
    year, and the tables that read the month (0 for January) and the
    day of the month off it. *)
Definition DayFromYear (y : Z) : Z :=
  365 * (y - 1970) + (y - 1969) / 4 - (y - 1901) / 100 + (y - 1601) / 400.

Definition DaysInYear (y : Z) : Z :=
  if negb (y mod 4 =? 0) then 365
  else if negb (y mod 100 =? 0) then 366
  else if negb (y mod 400 =? 0) then 365
  else 366.

Definition InLeapYear (t : Z) : Z := DaysInYear (YearFromTime t) - 365.

Definition DayWithinYear (t : Z) : Z := Day t - DayFromYear (YearFromTime t).

Definition monthTable (leap d : Z) : Z :=
  if d <? 31 then 0 else if d <? 59 + leap then 1
  else if d <? 90 + leap then 2 else if d <? 120 + leap then 3
  else if d <? 151 + leap then 4 else if d <? 181 + leap then 5
  else if d <? 212 + leap then 6 else if d <? 243 + leap then 7
  else if d <? 273 + leap then 8 else if d <? 304 + leap then 9
  else if d <? 334 + leap then 10 else 11.

Definition dateTable (leap d : Z) : Z :=
  match monthTable leap d with
  | 0 => d + 1
  | 1 => d - 30
  | 2 => d - 58 - leap
  | 3 => d - 89 - leap
  | 4 => d - 119 - leap
  | 5 => d - 150 - leap
  | 6 => d - 180 - leap
  | 7 => d - 211 - leap
  | 8 => d - 242 - leap
  | 9 => d - 272 - leap
  | 10 => d - 303 - leap
  | _ => d - 333 - leap
  end.

(** Decimal digits. *)
Definition digit (n : Z) : ascii := ascii_of_nat (48 + Z.to_nat (n mod 10)).

Definition pad2 (n : Z) : string :=
  String (digit (n / 10)) (String (digit n) EmptyString).
Definition pad3 (n : Z) : string :=
  String (digit (n / 100)) (pad2 n).
Definition pad4 (n : Z) : string :=
  String (digit (n / 1000)) (pad3 n).
Definition pad6 (n : Z) : string :=
  String (digit (n / 100000)) (String (digit (n / 10000)) (pad4 n)).

(** Four digits for the years 0..9999, a sign and six digits otherwise. *)
Definition yearString (y : Z) : string :=
  if (0 <=? y) && (y <=? 9999) then pad4 y
  else if y <? 0 then String "-" (pad6 (- y))
  else String "+" (pad6 y).

Definition toISOString (t : Z) : string :=
  yearString (YearFromTime t) ++ "-" ++ pad2 (MonthFromTime t) ++ "-"
  ++ pad2 (DateFromTime t) ++ "T" ++ pad2 (HourFromTime t) ++ ":"
  ++ pad2 (MinFromTime t) ++ ":" ++ pad2 (SecFromTime t) ++ "."
  ++ pad3 (msFromTime t) ++ "Z".

End Date.

(* ================================================================== *)
(** * The relay: [server.js]                                           *)
(* ================================================================== *)

Module Server.
Import JS.

(** What the handler does to the outside world, in order. *)
Inductive event : Type :=
| console_log (line : string)
| console_error (label message : string)
| generateContent (model prompt : string) (data mimeType : jsval).

(** The answer of the external vision model to one call: the generated
    text, or a failure carrying its [message]. *)
Inductive reply : Type :=
| Text (t : string)
| Failure (message : string).

(** The surroundings of one request: [process.env.GEMINI_API_KEY], the
    external model and the wall clock (milliseconds since the epoch). *)
Record Host : Type := {
  GEMINI_API_KEY : option string;
  gemini : string -> string -> jsval -> jsval -> reply;
  now : Z
}.

(** Normal completion, or an exception with its [message]. *)
Inductive completion (A : Type) : Type :=
| Normal (a : A)
| Throw (message : string).
Arguments Normal {A} a.
Arguments Throw {A} message.

Definition Io (A : Type) : Type :=
  Host -> list event -> completion A * list event.

#[export] Instance io_ret : MRet Io :=
  fun A (a : A) _ tr => (Normal a, tr).

#[export] Instance io_bind : MBind Io :=
  fun A B (k : A -> Io B) (m : Io A) h tr =>
    match m h tr with
    | (Normal a, tr') => k a h tr'
    | (Throw msg, tr') => (Throw msg, tr')
    end.

(** [try { body } catch (error) { handler(error.message) }]. *)
Definition try_catch {A} (body : Io A) (handler : string -> Io A) : Io A :=
  fun h tr =>
    match body h tr with
    | (Normal a, tr') => (Normal a, tr')
    | (Throw msg, tr') => handler msg h tr'
    end.

(** [throw] of an error with this [message]. *)
Definition throw {A} (message : string) : Io A := fun _ tr => (Throw message, tr).

Definition emit (e : event) : Io unit := fun _ tr => (Normal tt, (tr ++ [e])%list).

Definition getenv : Io (option string) :=
  fun h tr => (Normal (GEMINI_API_KEY h), tr).

Definition Date_now : Io Z := fun h tr => (Normal (now h), tr).

(** [model.generateContent([prompt, ...imageParts])], then
    [result.response] and [response.text()]: one call to the external
    model, which yields the text or throws. *)
Definition generate (model prompt : string) (data mimeType : jsval) : Io string :=
  fun h tr =>
    let tr' := (tr ++ [generateContent model prompt data mimeType])%list in
    match gemini h model prompt data mimeType with
    | Text t => (Normal t, tr')
    | Failure msg => (Throw msg, tr')
    end.

(** An HTTP response: status code and JSON body. *)
Record Response : Type := {
  status : Z;
  body : gmap string jsval
}.

(** [res.status(code).json(obj)]; [res.json(obj)] alone answers 200. *)
Definition res_status_json (code : Z) (obj : gmap string jsval) : Response :=
  {| status := code; body := obj |}.
Definition res_json (obj : gmap string jsval) : Response :=
  res_status_json 200 obj.

Definition placeholder : string := "your_gemini_api_key_here".

(** [!process.env.GEMINI_API_KEY || process.env.GEMINI_API_KEY === placeholder] *)
Definition key_not_configured (k : option string) : bool :=
  match k with
  | None => true
  | Some s => String.eqb s EmptyString || String.eqb s placeholder
  end.

Definition prompt : string :=
"Analyze this image in detail and provide a comprehensive description. Include:

1. **Main Subject**: What is the primary focus of the image?
2. **Visual Elements**: Describe colors, composition, lighting, and style
3. **Context & Setting**: Where does this appear to be? What's the environment?
4. **Notable Details**: Any interesting or unique aspects worth mentioning
5. **Mood & Atmosphere**: What feeling or emotion does the image convey?

Please provide a well-structured, engaging description that captures all important aspects of the image.".

(** The [catch] block's choice of [errorMessage]. *)
Definition errorMessage (message : string) : string :=
  if includes message "API key" then
    "Invalid API key. Please check your GEMINI_API_KEY in the .env file"
  else if includes message "quota" then
    "API quota exceeded. Please check your Gemini API usage limits"
  else if includes message "SAFETY" then
    "Image content was flagged by safety filters"
  else
    "Failed to analyze image".

(** The message of the [TypeError] that [const { image, mimeType } =
    req.body] throws when [req.body] is [undefined]. *)
Definition cannot_destructure : string :=
  "Cannot destructure property 'image' of 'req.body' as it is undefined.".

(** [app.post('/analyze', async (req, res) => { ... })].  [req.body] is
    the object that [express.json] parsed, or [undefined] ([None]) when
    the request carried no JSON body for it to parse; the destructuring
    is the first statement of the [try] block, so what it throws is
    answered by the [catch]. *)
Definition post_analyze (req_body : option (gmap string jsval)) : Io Response :=
  try_catch
    (match req_body with
     | None => throw cannot_destructure
     | Some req_body =>
     let image := get req_body "image" in
     let mimeType := get req_body "mimeType" in
     if negb (truthy image) then
       mret (res_status_json 400 {[ "error" := JStr "No image provided" ]})
     else
       key ← getenv;
       if key_not_configured key then
         mret (res_status_json 500
                 {[ "error" := JStr "GEMINI_API_KEY not configured. Please add your API key to the .env file" ]})
       else
         emit (console_log "📸 Analyzing image with Gemini AI...");;
         description ← generate "gemini-1.5-flash" prompt image
                          (or_else mimeType (JStr "image/jpeg"));
         emit (console_log "✅ Analysis complete");;
         t ← Date_now;
         mret (res_json (<[ "success" := JBool true ]>
                         (<[ "description" := JStr description ]>
                          {[ "timestamp" := JStr (Date.toISOString t) ]})))
     end)
    (fun message =>
       emit (console_error "❌ Error analyzing image:" message);;
       mret (res_status_json 500
               (<[ "error" := JStr (errorMessage message) ]>
                {[ "details" := JStr message ]}))).

(** One request against a host, starting from an empty trace:
    [serve_request] for any request, [serve] for one whose JSON body
    was parsed. *)
Definition serve_request (h : Host) (req_body : option (gmap string jsval))
  : completion Response * list event :=
  post_analyze req_body h [].

Definition serve (h : Host) (req_body : gmap string jsval)
  : completion Response * list event :=
  serve_request h (Some req_body).

End Server.

(* ================================================================== *)
(** * Base64, as [FileReader.readAsDataURL] writes it                  *)
(* ================================================================== *)

Module Base64.

Definition alphabet : list ascii :=
  list_ascii_of_string
    "ABCDEFGHIJKLMNOPQRSTUVWXYZabcdefghijklmnopqrstuvwxyz0123456789+/".

Definition pad : ascii := "="%char.

(** The character of a six-bit group and back. *)
Definition char_of (n : Z) : ascii := List.nth (Z.to_nat n) alphabet pad.

Fixpoint index_of (c : ascii) (l : list ascii) (i : Z) : option Z :=
  match l with
  | [] => None
  | x :: l' => if Ascii.eqb c x then Some i else index_of c l' (i + 1)
  end.

Definition sextet_of (c : ascii) : option Z := index_of c alphabet 0.

Definition value (b : Byte.byte) : Z := Z.of_N (Byte.to_N b).

Definition byte_of (n : Z) : Byte.byte :=
  match Byte.of_N (Z.to_N n) with
  | Some b => b
  | None => Byte.x00
  end.

(** Three bytes make four characters; one or two trailing bytes are
    completed with zero bits and the group is filled with [=]. *)
Fixpoint encode (bytes : list Byte.byte) : string :=
  match bytes with
  | [] => EmptyString
  | [a] =>
      let a := value a in
      String (char_of (a / 4)) (String (char_of (a mod 4 * 16))
        (String pad (String pad EmptyString)))
  | [a; b] =>
      let a := value a in let b := value b in
      String (char_of (a / 4)) (String (char_of (a mod 4 * 16 + b / 16))
        (String (char_of (b mod 16 * 4)) (String pad EmptyString)))
  | a :: b :: c :: rest =>
      let a := value a in let b := value b in let c := value c in
      String (char_of (a / 4)) (String (char_of (a mod 4 * 16 + b / 16))
        (String (char_of (b mod 16 * 4 + c / 64))
          (String (char_of (c mod 64)) (encode rest))))
  end.

(** Decoding reads four characters at a time; [=] may only close the
    last group. *)
Fixpoint decode (s : string) : option (list Byte.byte) :=
  match s with
  | EmptyString => Some []
  | String c1 (String c2 (String c3 (String c4 rest))) =>
      match sextet_of c1, sextet_of c2 with
      | Some s1, Some s2 =>
          let a := byte_of (s1 * 4 + s2 / 16) in
          if Ascii.eqb c3 pad then
            if Ascii.eqb c4 pad && String.eqb rest EmptyString then Some [a] else None
          else
            match sextet_of c3 with
            | Some s3 =>
                let b := byte_of (s2 mod 16 * 16 + s3 / 4) in
                if Ascii.eqb c4 pad then
                  if String.eqb rest EmptyString then Some [a; b] else None
                else
                  match sextet_of c4, decode rest with
                  | Some s4, Some tail =>
                      Some (a :: b :: byte_of (s3 mod 4 * 64 + s4) :: tail)
                  | _, _ => None
                  end
            | None => None
            end
      | _, _ => None
      end
  | _ => None
  end.

(** One row of the alphabet table: the character of [n] reads back as
    [n] and is neither the filler nor a comma. *)
Definition table_row_ok (n : Z) : bool :=
  match sextet_of (char_of n) with
  | Some m => m =? n
  | None => false
  end
  && negb (Ascii.eqb (char_of n) pad)
  && negb (Ascii.eqb (char_of n) ",").

End Base64.

(* ================================================================== *)
(** * The browser script: rendering the description                    *)
(* ================================================================== *)

Module Markup.
Import JS.

(** The double quote, which the markup below uses around attributes. *)
Definition dq : string := String (ascii_of_nat 34) EmptyString.

(** [p.replace(/^#+\s*/, '')]: at the very start of [p], one or more
    [#] and the white space after them. *)
Definition strip_heading_marker (p : string) : string :=
  if startsWith p "#" then
    dropWhile is_whitespace (dropWhile (Ascii.eqb "#") p)
  else p.

(** [\*\*] at the head of [s]: what follows it. *)
Definition after_stars (s : string) : option string :=
  match s with
  | String c1 (String c2 rest) =>
      if Ascii.eqb c1 "*" && Ascii.eqb c2 "*" then Some rest else None
  | _ => None
  end.

(** [(.*?)\*\*] from the head of [s]: the shortest run of characters
    other than line terminators that is followed by [**], with what
    follows that [**]. *)
Fixpoint closing (s : string) : option (string * string) :=
  match after_stars s with
  | Some rest => Some (EmptyString, rest)
  | None =>
      match s with
      | EmptyString => None
      | String c rest =>
          if is_line_terminator c then None
          else match closing rest with
               | Some (inner, after) => Some (String c inner, after)
               | None => None
               end
      end
  end.

(** [/\*\*(.*?)\*\*/] at the head of [s]: the captured text and what
    follows the match. *)
Definition match_bold (s : string) : option (string * string) :=
  match after_stars s with
  | Some rest => closing rest
  | None => None
  end.

Lemma after_stars_length (s rest : string) :
  after_stars s = Some rest -> (String.length rest < String.length s)%nat.
Proof.
  destruct s as [|c1 [|c2 r]]; simpl; try discriminate.
  destruct (_ && _); [|discriminate]. intros [= <-]. lia.
Qed.

Lemma closing_length (s inner after : string) :
  closing s = Some (inner, after) ->
  (String.length after < String.length s)%nat.
Proof.
  revert inner after. induction s as [|c s IH]; intros inner after.
  - simpl. discriminate.
  - cbn [closing]. destruct (after_stars (String c s)) as [rest|] eqn:E.
    + intros [= <- <-]. apply (after_stars_length _ _ E).
    + destruct (is_line_terminator c); [discriminate|].
      destruct (closing s) as [[i a]|]; [|discriminate].
      intros [= <- <-]. specialize (IH i a eq_refl). simpl. lia.
Qed.

Lemma match_bold_length (s inner after : string) :
  match_bold s = Some (inner, after) ->
  (String.length after < String.length s)%nat.
Proof.
  unfold match_bold. destruct (after_stars s) as [rest|] eqn:E; [|discriminate].
  intros H. apply closing_length in H. apply after_stars_length in E. lia.
Qed.

(** A value together with the equation that names it, for the
    termination proof below. *)
Definition inspect {A : Type} (a : A) : {b : A | a = b} := exist _ a eq_refl.

Definition strong (inner : string) : string :=
  "<strong style=" ++ dq ++ "color: var(--text-primary);" ++ dq ++ ">"
  ++ inner ++ "</strong>".

#[local] Unset Equations With Funext.

(** [p.replace(/\*\*(.*?)\*\*/g, '<strong ...>$1</strong>')]: scan from
    the left; where the expression matches, write the bold span and go
    on after the match; elsewhere copy one character. *)
Equations? replace_bold (s : string) : string by wf (String.length s) lt :=
  replace_bold EmptyString := EmptyString;
  replace_bold (String c rest) with inspect (match_bold (String c rest)) => {
    | exist _ (Some (inner, after)) _ := strong inner ++ replace_bold after;
    | exist _ None _ := String c (replace_bold rest) }.
Proof.
  apply (match_bold_length (String c rest) inner after). assumption.
Qed.

(** [/\*\*(.*?)\*\*/.test(s)]. *)
Fixpoint has_bold_pair (s : string) : bool :=
  match match_bold s with
  | Some _ => true
  | None =>
      match s with
      | EmptyString => false
      | String _ rest => has_bold_pair rest
      end
  end.

(** [/^\d+\./] at the head of [s]: what follows the dot. *)
Definition after_number_dot (s : string) : option string :=
  match s with
  | String c _ =>
      if is_digit c then
        match dropWhile is_digit s with
        | String d rest => if Ascii.eqb d "." then Some rest else None
        | EmptyString => None
        end
      else None
  | EmptyString => None
  end.

(** [p.replace(/^[-*]\s*/, '')] *)
Definition strip_bullet (p : string) : string :=
  match p with
  | String c rest =>
      if Ascii.eqb c "-" || Ascii.eqb c "*" then dropWhile is_whitespace rest
      else p
  | EmptyString => p
  end.

(** [p.replace(/^\d+\.\s*/, '')] *)
Definition strip_number (p : string) : string :=
  match after_number_dot p with
  | Some rest => dropWhile is_whitespace rest
  | None => p
  end.

Definition h4 (heading : string) : string :=
  "<h4 style=" ++ dq
  ++ "color: var(--text-primary); margin-top: 1rem; margin-bottom: 0.5rem; font-weight: 600;"
  ++ dq ++ ">" ++ heading ++ "</h4>".

Definition paragraph (content : string) : string :=
  "<p style=" ++ dq ++ "margin-bottom: 1rem;" ++ dq ++ ">" ++ content ++ "</p>".

Definition li (item : string) : string :=
  "<li style=" ++ dq ++ "margin-left: 1.5rem; margin-bottom: 0.5rem;" ++ dq
  ++ ">" ++ item ++ "</li>".

(** The callback of [paragraphs.map]. *)
Definition formatParagraph (p : string) : string :=
  if startsWith (trim p) "#" then
    let heading := strip_heading_marker p in
    h4 heading
  else if includes p "**" then
    let formatted := replace_bold p in
    paragraph formatted
  else if startsWith (trim p) "-" || startsWith (trim p) "*"
          || bool_decide (is_Some (after_number_dot (trim p))) then
    let item := strip_number (strip_bullet p) in
    li item
  else
    paragraph p.

Definition formatDescription (text : string) : string :=
  let paragraphs :=
    List.filter (fun p => negb (String.eqb (trim p) EmptyString)) (split "010" text) in
  join (List.map formatParagraph paragraphs).

End Markup.

(* ================================================================== *)
(** * The browser script: state, views and the analysis call           *)
(* ================================================================== *)

Module Client.
Import JS Markup.

(** A file picked by the user: its declared MIME type and its bytes. *)
Record File : Type := {
  type : string;
  bytes : list Byte.byte
}.

(** The result of [reader.readAsDataURL(file)] for a file with a
    declared type. *)
Definition readAsDataURL (file : File) : string :=
  "data:" ++ type file ++ ";base64," ++ Base64.encode (bytes file).

(** [reader.result.split(',')[1]]; [None] is [undefined]. *)
Definition base64_of_dataURL (result : string) : option string :=
  List.nth_error (split "," result) 1.

(** What [response.json()] resolves to, or the message it rejects with. *)
Inductive json_result : Type :=
| SyntaxError (message : string)
| Json (o : gmap string jsval).

(** What [fetch] resolves to, or the message it rejects with. *)
Inductive fetch_result : Type :=
| NetworkError (message : string)
| HttpResponse (status : Z) (payload : json_result).

(** The surroundings of the script: whether a file can be read, and the
    network behind [fetch(url, {method: 'POST', body})]. *)
Record Browser : Type := {
  read_fails : File -> bool;
  fetch : string -> gmap string jsval -> fetch_result
}.

(** A value or a thrown object; the latter with its [message], if it
    has one. *)
Inductive outcome (A : Type) : Type :=
| Ok (a : A)
| Thrown (message : option string).
Arguments Ok {A} a.
Arguments Thrown {A} message.

(** The promise of [fileToBase64]: resolved by [reader.onload],
    rejected by [reader.onerror] with the error event, which has no
    [message]. *)
Definition fileToBase64 (b : Browser) (file : File) : outcome (option string) :=
  if read_fails b file then Thrown None
  else Ok (base64_of_dataURL (readAsDataURL file)).

(** [JSON.stringify({image: base64Image, mime_type: type})], as parsed
    on the other side: an [undefined] field is left out. *)
Definition request_body (base64Image : option string) (mime_type : string)
  : gmap string jsval :=
  let fields : gmap string jsval := {[ "mime_type" := JStr mime_type ]} in
  match base64Image with
  | Some image => <[ "image" := JStr image ]> fields
  | None => fields
  end.

(** [response.ok] *)
Definition ok (status : Z) : bool := (200 <=? status) && (status <=? 299).

(** The four sections of the page; [true] is the class [hidden]. *)
Record Sections : Type := {
  uploadSection : bool;
  previewSection : bool;
  resultsSection : bool;
  errorSection : bool
}.

(** The script's two variables and the parts of the document it
    writes. *)
Record Page : Type := {
  selectedImage : option string;
  selectedImageFile : option File;
  hidden : Sections;
  previewImage_src : string;
  errorMessage_textContent : string;
  descriptionContent_innerHTML : string;
  imageInput_value : string;
  analyzeBtn_disabled : bool;
  btn_text_hidden : bool;
  btn_loader_hidden : bool
}.

Definition set_selected (image : option string) (file : option File)
    (p : Page) : Page :=
  {| selectedImage := image; selectedImageFile := file;
     hidden := hidden p; previewImage_src := previewImage_src p;
     errorMessage_textContent := errorMessage_textContent p;
     descriptionContent_innerHTML := descriptionContent_innerHTML p;
     imageInput_value := imageInput_value p;
     analyzeBtn_disabled := analyzeBtn_disabled p;
     btn_text_hidden := btn_text_hidden p;
     btn_loader_hidden := btn_loader_hidden p |}.

Definition set_hidden (s : Sections) (p : Page) : Page :=
  {| selectedImage := selectedImage p; selectedImageFile := selectedImageFile p;
     hidden := s; previewImage_src := previewImage_src p;
     errorMessage_textContent := errorMessage_textContent p;
     descriptionContent_innerHTML := descriptionContent_innerHTML p;
     imageInput_value := imageInput_value p;
     analyzeBtn_disabled := analyzeBtn_disabled p;
     btn_text_hidden := btn_text_hidden p;
     btn_loader_hidden := btn_loader_hidden p |}.

Definition set_previewImage_src (src : string) (p : Page) : Page :=
  {| selectedImage := selectedImage p; selectedImageFile := selectedImageFile p;
     hidden := hidden p; previewImage_src := src;
     errorMessage_textContent := errorMessage_textContent p;
     descriptionContent_innerHTML := descriptionContent_innerHTML p;
     imageInput_value := imageInput_value p;
     analyzeBtn_disabled := analyzeBtn_disabled p;
     btn_text_hidden := btn_text_hidden p;
     btn_loader_hidden := btn_loader_hidden p |}.

Definition set_errorMessage (message : string) (p : Page) : Page :=
  {| selectedImage := selectedImage p; selectedImageFile := selectedImageFile p;
     hidden := hidden p; previewImage_src := previewImage_src p;
     errorMessage_textContent := message;
     descriptionContent_innerHTML := descriptionContent_innerHTML p;
     imageInput_value := imageInput_value p;
     analyzeBtn_disabled := analyzeBtn_disabled p;
     btn_text_hidden := btn_text_hidden p;
     btn_loader_hidden := btn_loader_hidden p |}.

Definition set_description (html : string) (p : Page) : Page :=
  {| selectedImage := selectedImage p; selectedImageFile := selectedImageFile p;
     hidden := hidden p; previewImage_src := previewImage_src p;
     errorMessage_textContent := errorMessage_textContent p;
     descriptionContent_innerHTML := html;
     imageInput_value := imageInput_value p;
     analyzeBtn_disabled := analyzeBtn_disabled p;
     btn_text_hidden := btn_text_hidden p;
     btn_loader_hidden := btn_loader_hidden p |}.

Definition set_imageInput_value (v : string) (p : Page) : Page :=
  {| selectedImage := selectedImage p; selectedImageFile := selectedImageFile p;
     hidden := hidden p; previewImage_src := previewImage_src p;
     errorMessage_textContent := errorMessage_textContent p;
     descriptionContent_innerHTML := descriptionContent_innerHTML p;
     imageInput_value := v;
     analyzeBtn_disabled := analyzeBtn_disabled p;
     btn_text_hidden := btn_text_hidden p;
     btn_loader_hidden := btn_loader_hidden p |}.

Definition set_button (disabled text_hidden loader_hidden : bool)
    (p : Page) : Page :=
  {| selectedImage := selectedImage p; selectedImageFile := selectedImageFile p;
     hidden := hidden p; previewImage_src := previewImage_src p;
     errorMessage_textContent := errorMessage_textContent p;
     descriptionContent_innerHTML := descriptionContent_innerHTML p;
     imageInput_value := imageInput_value p;
     analyzeBtn_disabled := disabled;
     btn_text_hidden := text_hidden;
     btn_loader_hidden := loader_hidden |}.

(** *** UI state management *)

Definition showPreview (p : Page) : Page :=
  set_hidden {| uploadSection := true; previewSection := false;
                resultsSection := true; errorSection := true |} p.

Definition showResults (p : Page) : Page :=
  set_hidden {| uploadSection := true; previewSection := true;
                resultsSection := false; errorSection := true |} p.

Definition showError (message : string) (p : Page) : Page :=
  set_hidden {| uploadSection := true; previewSection := true;
                resultsSection := true; errorSection := false |}
             (set_errorMessage message p).

Definition hideError (p : Page) : Page :=
  set_hidden {| uploadSection := uploadSection (hidden p);
                previewSection := previewSection (hidden p);
                resultsSection := resultsSection (hidden p);
                errorSection := true |} p.

Definition resetApp (p : Page) : Page :=
  set_hidden {| uploadSection := false; previewSection := true;
                resultsSection := true; errorSection := true |}
             (set_imageInput_value EmptyString (set_selected None None p)).

(** The click handler of the retry button. *)
Definition retry (p : Page) : Page := showPreview (hideError p).

(** *** Image handling *)

(** [handleImageFile], with the reader's [onload] run. *)
Definition handleImageFile (b : Browser) (file : File) (p : Page) : Page :=
  let p := set_selected (selectedImage p) (Some file) p in
  if read_fails b file then p
  else
    let result := readAsDataURL file in
    showPreview (set_previewImage_src result
                   (set_selected (Some result) (selectedImageFile p) p)).

(** [handleImageSelect] and the [drop] listener: only a file whose type
    starts with [image/] is taken. *)
Definition handleImageSelect (b : Browser) (file : option File) (p : Page)
  : Page :=
  match file with
  | Some f => if startsWith (type f) "image/" then handleImageFile b f p else p
  | None => p
  end.

(** *** Results display *)

Definition agentBadge (agentUsed : string) : string :=
  "<div style=" ++ dq
  ++ "display: inline-block; padding: 0.5rem 1rem; background: var(--success-gradient); border-radius: 20px; font-size: 0.875rem; font-weight: 600; margin-bottom: 1rem;"
  ++ dq ++ ">🤖 " ++ agentUsed ++ "</div>".

(** [displayResults(description, agentUsed = 'LangChain + Gemini')].
    [formatDescription] calls [text.split], which throws a TypeError
    unless [text] is a string. *)
Definition displayResults (description agentUsed : jsval) (p : Page)
  : outcome Page :=
  match description with
  | JStr text =>
      let formattedDescription := formatDescription text in
      let agentUsed :=
        match agentUsed with
        | JUndefined => "LangChain + Gemini"
        | v => ToString v
        end in
      Ok (showResults
            (set_description (agentBadge agentUsed ++ formattedDescription) p))
  | JUndefined =>
      Thrown (Some "Cannot read properties of undefined (reading 'split')")
  | JNull => Thrown (Some "Cannot read properties of null (reading 'split')")
  | _ => Thrown (Some "text.split is not a function")
  end.

(** *** Image analysis *)

Definition endpoint : string := "http://localhost:8000/analyze".

(** The body of the [try] block. *)
Definition analyze_attempt (b : Browser) (file : File) (p : Page)
  : outcome Page :=
  match fileToBase64 b file with
  | Thrown e => Thrown e
  | Ok base64Image =>
      match fetch b endpoint (request_body base64Image (type file)) with
      | NetworkError message => Thrown (Some message)
      | HttpResponse status payload =>
          if negb (ok status) then
            match payload with
            | SyntaxError message => Thrown (Some message)
            | Json errorData =>
                Thrown (Some (ToString
                  (or_else (get errorData "detail")
                           (JStr "Failed to analyze image"))))
            end
          else
            match payload with
            | SyntaxError message => Thrown (Some message)
            | Json data =>
                displayResults (get data "description") (get data "agent_used") p
            end
      end
  end.

(** [error.message || '...'] *)
Definition message_or (message : option string) (fallback : string) : string :=
  match message with
  | Some m => if String.eqb m EmptyString then fallback else m
  | None => fallback
  end.

Definition analyzeImage (b : Browser) (p : Page) : Page :=
  match selectedImageFile p with
  | None => p
  | Some file =>
      let p := set_button true true false p in
      let p :=
        match analyze_attempt b file p with
        | Ok p' => p'
        | Thrown message =>
            showError
              (message_or message
                 "Failed to analyze the image. Please make sure the server is running and try again.")
              p
        end in
      set_button false false true p
  end.

End Client.

(* ================================================================== *)
(** * Vocabulary of the contract                                       *)
(* ================================================================== *)

Module Contract.
Import JS Server Markup Client.

(** [needle] occurs in [s]. *)
Definition occurs (needle s : string) : Prop :=
  exists pre post, s = pre ++ needle ++ post.

(** The four classes of upstream failure and the message the relay
    shows for each. *)
Inductive error_class : Type :=
| AuthError
| QuotaExceededError
| ContentSafetyError
| UnknownUpstreamError.

Definition userMessage (c : error_class) : string :=
  match c with
  | AuthError =>
      "Invalid API key. Please check your GEMINI_API_KEY in the .env file"
  | QuotaExceededError =>
      "API quota exceeded. Please check your Gemini API usage limits"
  | ContentSafetyError => "Image content was flagged by safety filters"
  | UnknownUpstreamError => "Failed to analyze image"
  end.

(** The wording the specification gives for the same four messages. *)
Definition documented_userMessage (c : error_class) : string :=
  match c with
  | AuthError => "Invalid API key. Please check your API key configuration"
  | QuotaExceededError =>
      "API quota exceeded. Please check your API usage limits"
  | ContentSafetyError => "Image content was flagged by safety filters"
  | UnknownUpstreamError => "Failed to analyze image"
  end.

(** Number of calls to the external model recorded in a trace. *)
Definition upstream_calls (tr : list event) : nat :=
  List.length (List.filter
    (fun e => match e with generateContent _ _ _ _ => true | _ => false end) tr).

(** The two early answers and the arguments of the upstream call. *)
Definition no_image_response : Response :=
  {| status := 400; body := {[ "error" := JStr "No image provided" ]} |}.

Definition not_configured_response : Response :=
  {| status := 500;
     body := {[ "error" := JStr "GEMINI_API_KEY not configured. Please add your API key to the .env file" ]} |}.

(** The answer of the [catch] to a request without a parsed body. *)
Definition no_body_response : Response :=
  {| status := 500;
     body := <[ "error" := JStr "Failed to analyze image" ]>
             {[ "details" := JStr cannot_destructure ]} |}.

Definition upstream_reply (h : Host) (req : gmap string jsval) : reply :=
  gemini h "gemini-1.5-flash" prompt (get req "image")
         (or_else (get req "mimeType") (JStr "image/jpeg")).

Definition upstream_event (req : gmap string jsval) : event :=
  generateContent "gemini-1.5-flash" prompt (get req "image")
                  (or_else (get req "mimeType") (JStr "image/jpeg")).

(** The lines that [formatDescription] renders. *)
Definition paragraphs (text : string) : list string :=
  List.filter (fun p => negb (String.eqb (trim p) EmptyString)) (split "010" text).

(** The first character of [s] satisfies [f]. *)
Definition head_is (f : ascii -> bool) (s : string) : bool :=
  match s with
  | String c _ => f c
  | EmptyString => false
  end.

Definition is_star (c : ascii) : bool := Ascii.eqb c "*".
Definition is_hash (c : ascii) : bool := Ascii.eqb "#" c.

(** No star, and no line terminator, among the characters of [s]. *)
Definition star_free (s : string) : bool :=
  forallb (fun c => negb (is_star c)) (list_ascii_of_string s).
Definition one_line (s : string) : bool :=
  forallb (fun c => negb (is_line_terminator c)) (list_ascii_of_string s).

(** No [**] begins inside [u] when [u] is followed by [v]. *)
Fixpoint quiet (u v : string) : Prop :=
  match u with
  | EmptyString => True
  | String c u' => after_stars (String c (u' ++ v)) = None /\ quiet u' v
  end.

(** No comma among the characters of [s]. *)
Definition no_comma (s : string) : Prop :=
  forallb (fun c => negb (Ascii.eqb c ",")) (list_ascii_of_string s) = true.

(** The view the page is in: the one section that is not hidden. *)
Inductive View : Type := Upload | Preview | Results | Error.

Definition sections_of (v : View) : Sections :=
  match v with
  | Upload => {| uploadSection := false; previewSection := true;
                 resultsSection := true; errorSection := true |}
  | Preview => {| uploadSection := true; previewSection := false;
                  resultsSection := true; errorSection := true |}
  | Results => {| uploadSection := true; previewSection := true;
                  resultsSection := false; errorSection := true |}
  | Error => {| uploadSection := true; previewSection := true;
                resultsSection := true; errorSection := false |}
  end.

Definition in_view (v : View) (p : Page) : Prop := hidden p = sections_of v.

(** What [fetch] answers for the selected file. *)
Definition sent (b : Browser) (file : File) : fetch_result :=
  fetch b endpoint
        (request_body (base64_of_dataURL (readAsDataURL file)) (type file)).

(** A browser whose requests are handed, parsed, to the handler of
    [server.js] on host [h]: the request has reached the relay and has
    passed [express.json] (see [Deployment] for the port and the body
    limit). *)
Definition relay_browser (h : Host) : Browser :=
  {| read_fails := fun _ => false;
     fetch := fun _ request =>
       match serve h request with
       | (Normal r, _) => HttpResponse (status r) (Json (body r))
       | (Throw message, _) => NetworkError message
       end |}.

(** *** ISO-8601 date-times

    The calendar date-time form with a UTC designator,
    [YYYY-MM-DDThh:mm:ss.sssZ], and its expanded form with a signed
    six-digit year. *)

Definition digit_value (c : ascii) : Z := Z.of_nat (nat_of_ascii c) - 48.

(** The two digits [c1 c2] read as a number between [lo] and [hi]. *)
Definition two_digits (lo hi : Z) (c1 c2 : ascii) : bool :=
  is_digit c1 && is_digit c2 &&
  (lo <=? 10 * digit_value c1 + digit_value c2) &&
  (10 * digit_value c1 + digit_value c2 <=? hi).

(** [-MM-DDThh:mm:ss.sssZ] *)
Definition iso8601_after_year (s : string) : bool :=
  match list_ascii_of_string s with
  | [dash1; m1; m2; dash2; d1; d2; tee; h1; h2; colon1; n1; n2; colon2;
     s1; s2; dot; f1; f2; f3; zed] =>
      Ascii.eqb dash1 "-" && two_digits 1 12 m1 m2 &&
      Ascii.eqb dash2 "-" && two_digits 1 31 d1 d2 &&
      Ascii.eqb tee "T" && two_digits 0 23 h1 h2 &&
      Ascii.eqb colon1 ":" && two_digits 0 59 n1 n2 &&
      Ascii.eqb colon2 ":" && two_digits 0 59 s1 s2 &&
      Ascii.eqb dot "." && is_digit f1 && is_digit f2 && is_digit f3 &&
      Ascii.eqb zed "Z"
  | _ => false
  end.

Definition iso8601 (s : string) : bool :=
  match s with
  | String y1 (String y2 (String y3 (String y4 rest))) =>
      if is_digit y1 then
        is_digit y2 && is_digit y3 && is_digit y4 && iso8601_after_year rest
      else
        (Ascii.eqb y1 "+" || Ascii.eqb y1 "-") &&
        is_digit y2 && is_digit y3 && is_digit y4 &&
        match rest with
        | String y5 (String y6 (String y7 rest')) =>
            is_digit y5 && is_digit y6 && is_digit y7 &&
            iso8601_after_year rest'
        | _ => false
        end
  | _ => false
  end.

End Contract.

(* ================================================================== *)
(** * The relay: the health route and the start-up report              *)
(* ================================================================== *)

Module Routes.
Import JS Server.

(** [app.get('/health', (req, res) => Ellipsis)] *)
Definition get_health : Io Response :=
  t ← Date_now;
  mret (res_json (<[ "status" := JStr "OK" ]>
                  (<[ "message" := JStr "AI Image Analyzer API is running" ]>
                   {[ "timestamp" := JStr (Date.toISOString t) ]}))).

(** One health request against a host, starting from an empty trace. *)
Definition health (h : Host) : completion Response * list event :=
  get_health h [].

(** [const PORT = process.env.PORT || 3000], as the template literal
    prints it. *)
Definition PORT (env_PORT : option string) : string :=
  match env_PORT with
  | Some s => if String.eqb s EmptyString then "3000" else s
  | None => "3000"
  end.

(** [process.env.GEMINI_API_KEY ? ... : ...] *)
Definition key_present (k : option string) : bool :=
  match k with
  | Some s => negb (String.eqb s EmptyString)
  | None => false
  end.

Definition warning_line : string := "⚠️  WARNING: GEMINI_API_KEY not configured!".

(** The callback of [app.listen(PORT, () => { ... })]. *)
Definition listening (env_PORT : option string) : Io unit :=
  emit (console_log EmptyString);;
  emit (console_log "🚀 ============================================");;
  emit (console_log "   AI Image Analyzer Server");;
  emit (console_log "   ============================================");;
  emit (console_log ("   📡 Server running on: http://localhost:" ++ PORT env_PORT));;
  key ← getenv;
  emit (console_log ("   🔑 API Key configured: "
                     ++ (if key_present key then "✅ Yes" else "❌ No")));;
  emit (console_log "   ============================================");;
  emit (console_log EmptyString);;
  if key_not_configured key then
    emit (console_log warning_line);;
    emit (console_log "   Please add your API key to the .env file");;
    emit (console_log EmptyString)
  else mret tt.

(** The lines printed at start-up. *)
Definition startup_log (h : Host) (env_PORT : option string) : list event :=
  snd (listening env_PORT h []).

End Routes.

(* ================================================================== *)
(** * The browser script: sequences of user actions                    *)
(* ================================================================== *)

Module Machine.
Import JS Client Contract.

(** What the user can do: pick or drop a file (or cancel the picker),
    press Analyze, press Try Again, press New Analysis. *)
Inductive action : Type :=
| Select (file : option File)
| Analyze
| Retry
| Reset.

(** The listener that runs for an action. *)
Definition step (b : Browser) (a : action) (p : Page) : Page :=
  match a with
  | Select file => handleImageSelect b file p
  | Analyze => analyzeImage b p
  | Retry => retry p
  | Reset => resetApp p
  end.

Definition run (b : Browser) (actions : list action) (p : Page) : Page :=
  List.fold_left (fun q a => step b a q) actions p.

(** What holds between two actions: the page is in one of the four
    views, the Analyze button is enabled, and a page that shows results
    or an error still has its file. *)
Definition settled (p : Page) : Prop :=
  (exists v, in_view v p) /\
  analyzeBtn_disabled p = false /\
  (in_view Results p \/ in_view Error p -> selectedImageFile p <> None).

End Machine.

(* ================================================================== *)
(** * The relay as the script reaches it                               *)
(* ================================================================== *)

Module Deployment.
Import JS Server Client.

(** [express.json({ limit: '50mb' })]: the largest body, in bytes, that
    the middleware reads; a longer one is refused with status 413 before
    any route runs. *)
Definition body_limit : Z := 50 * 1024 * 1024.

(** The bytes that one code unit of a string takes in the text that
    [JSON.stringify] writes and [fetch] sends as UTF-8: two for the
    escapes of the double quote, the backslash and the control
    characters that have a short escape (backspace, tab, line feed,
    form feed, carriage return), six for the other control characters,
    one for the rest of ASCII and two for a code unit from 128 to 255. *)
Definition json_char_bytes (c : ascii) : Z :=
  let n := nat_of_ascii c in
  if ((n =? 34) || (n =? 92))%nat then 2
  else if ((n =? 8) || (n =? 9) || (n =? 10) || (n =? 12) || (n =? 13))%nat then 2
  else if (n <? 32)%nat then 6
  else if (n <? 128)%nat then 1
  else 2.

(** A string between its two quotes. *)
Fixpoint json_chars_bytes (s : string) : Z :=
  match s with
  | EmptyString => 0
  | String c rest => json_char_bytes c + json_chars_bytes rest
  end.

Definition json_string_bytes (s : string) : Z := 1 + json_chars_bytes s + 1.

(** The length in bytes of
    [JSON.stringify({image: base64Image, mime_type: mime_type})]: the
    braces, each field name and value between quotes, the colons and
    the comma; an [undefined] image is left out with its comma. *)
Definition content_length (base64Image : option string) (mime_type : string) : Z :=
  match base64Image with
  | Some image =>
      1 + json_string_bytes "image" + 1 + json_string_bytes image
      + 1 + json_string_bytes "mime_type" + 1 + json_string_bytes mime_type + 1
  | None =>
      1 + json_string_bytes "mime_type" + 1 + json_string_bytes mime_type + 1
  end.

(** The same length read off the body that the script builds: its
    fields are the strings [image] (if any) and [mime_type]. *)
Definition request_length (request : gmap string jsval) : Z :=
  content_length
    match request !! "image" with
    | Some (JStr image) => Some image
    | _ => None
    end
    match request !! "mime_type" with
    | Some (JStr mime_type) => mime_type
    | _ => EmptyString
    end.

(** A browser whose network holds the relay of [server.js] on host [h],
    listening on [port] of localhost ([app.listen(PORT)]), and nothing
    else.  The script posts to one address, [endpoint], which names port
    8000: the request reaches the relay when the relay listens there,
    and [fetch] rejects (with the engine's message [refused]) when it
    does not.  A body longer than [body_limit] is answered by
    [express.json] with status 413 and an HTML page, on which
    [response.json()] rejects (with the engine's message [not_json]);
    any other body is parsed and handed to the handler. *)
Definition deployed_browser (h : Host) (port : Z) (refused not_json : string)
  : Browser :=
  {| read_fails := fun _ => false;
     fetch := fun url request =>
       if String.eqb url endpoint && (port =? 8000) then
         if body_limit <? request_length request then
           HttpResponse 413 (SyntaxError not_json)
         else
           match serve h request with
           | (Normal r, _) => HttpResponse (status r) (Json (body r))
           | (Throw message, _) => NetworkError message
           end
       else NetworkError refused |}.

End Deployment.

(* ================================================================== *)
(** * Properties                                                       *)
(* ================================================================== *)

Import JS Server Contract.

(** ** Substrings *)

Lemma prefix_app (p s : string) :
  String.prefix p s = true <-> exists post, s = p ++ post.
Proof.
  revert s; induction p as [|a p IH]; intros s.
  - split; [intros _; exists s; reflexivity | intros _; destruct s; reflexivity].
  - destruct s as [|b s]; simpl.
    + split; [discriminate | intros [post H]; discriminate].
    + destruct (Ascii.ascii_dec a b) as [->|Hab].
      * rewrite IH. split; intros [post H]; exists post.
        -- now rewrite H.
        -- now injection H.
      * split; [discriminate | intros [post H]; injection H; congruence].
Qed.

Lemma includes_occurs (s needle : string) :
  includes s needle = true <-> occurs needle s.
Proof.
  induction s as [|a s IH]; cbn [includes].
  - rewrite orb_false_r, prefix_app. split.
    + intros [post H]. exists EmptyString, post. exact H.
    + intros [pre [post H]]. destruct pre; [exists post; exact H | discriminate].
  - rewrite orb_true_iff, prefix_app, IH. split.
    + intros [[post H] | [pre [post H]]].
      * exists EmptyString, post. exact H.
      * exists (String a pre), post. simpl. now rewrite H.
    + intros [pre [post H]]. destruct pre as [|b pre].
      * left. exists post. exact H.
      * right. exists pre, post. simpl in H. now injection H.
Qed.

Lemma includes_absent (s needle : string) :
  includes s needle = false <-> ~ occurs needle s.
Proof.
  rewrite <- includes_occurs. destruct (includes s needle); split; congruence.
Qed.

(** ** The relay *)


Section Relay.

Variable h : Host.
Variable req : gmap string jsval.

Lemma serve_no_image :
  truthy (get req "image") = false ->
  serve h req = (Normal no_image_response, []).
Proof.
  intros H. unfold serve, serve_request, post_analyze, try_catch. rewrite H. reflexivity.
Qed.

Lemma serve_not_configured :
  truthy (get req "image") = true ->
  key_not_configured (GEMINI_API_KEY h) = true ->
  serve h req = (Normal not_configured_response, []).
Proof.
  intros Hi Hk. unfold serve, serve_request, post_analyze, try_catch, mbind, io_bind, getenv.
  rewrite Hi. cbn [negb]. rewrite Hk. reflexivity.
Qed.

Lemma serve_success (t : string) :
  truthy (get req "image") = true ->
  key_not_configured (GEMINI_API_KEY h) = false ->
  upstream_reply h req = Text t ->
  serve h req =
    (Normal {| status := 200;
               body := <[ "success" := JBool true ]>
                       (<[ "description" := JStr t ]>
                        {[ "timestamp" := JStr (Date.toISOString (now h)) ]}) |},
     [console_log "📸 Analyzing image with Gemini AI...";
      upstream_event req;
      console_log "✅ Analysis complete"]).
Proof.
  intros Hi Hk Hu.
  unfold serve, serve_request, post_analyze, try_catch, mbind, io_bind, getenv, emit, generate.
  unfold upstream_reply in Hu.
  rewrite Hi. cbn [negb]. rewrite Hk. cbn [app]. rewrite Hu. reflexivity.
Qed.

Lemma serve_failure (message : string) :
  truthy (get req "image") = true ->
  key_not_configured (GEMINI_API_KEY h) = false ->
  upstream_reply h req = Failure message ->
  serve h req =
    (Normal {| status := 500;
               body := <[ "error" := JStr (errorMessage message) ]>
                       {[ "details" := JStr message ]} |},
     [console_log "📸 Analyzing image with Gemini AI...";
      upstream_event req;
      console_error "❌ Error analyzing image:" message]).
Proof.
  intros Hi Hk Hu.
  unfold serve, serve_request, post_analyze, try_catch, mbind, io_bind, getenv, emit, generate.
  unfold upstream_reply in Hu.
  rewrite Hi. cbn [negb]. rewrite Hk. cbn [app]. rewrite Hu. reflexivity.
Qed.

End Relay.

Lemma Normal_inj (r r' : Response) :
  Normal r = Normal r' -> status r = status r' /\ body r = body r'.
Proof. intros H. injection H as ->. split; reflexivity. Qed.

Lemma serve_without_body (h : Host) :
  serve_request h None =
    (Normal no_body_response,
     [console_error "❌ Error analyzing image:" cannot_destructure]).
Proof. reflexivity. Qed.

Lemma serve_missing_image (h : Host) (req : gmap string jsval) :
  req !! "image" = None \/ req !! "image" = Some (JStr EmptyString) ->
  serve h req = (Normal no_image_response, []).
Proof.
  intros Hi. apply serve_no_image. unfold get.
  destruct Hi as [-> | ->]; reflexivity.
Qed.

(** *** Classification of upstream failures *)

Lemma userMessage_inj (c d : error_class) :
  userMessage c = userMessage d -> c = d.
Proof. destruct c, d; simpl; intros H; try reflexivity; discriminate. Qed.

(** The classifier of the [catch] block on one message: the needles are
    tried in the order "API key", "quota", "SAFETY", and every message
    falls in exactly one class. *)
Lemma errorMessage_first_match (message : string) :
  (occurs "API key" message ->
   errorMessage message = userMessage AuthError) /\
  (~ occurs "API key" message -> occurs "quota" message ->
   errorMessage message = userMessage QuotaExceededError) /\
  (~ occurs "API key" message -> ~ occurs "quota" message ->
   occurs "SAFETY" message ->
   errorMessage message = userMessage ContentSafetyError) /\
  (~ occurs "API key" message -> ~ occurs "quota" message ->
   ~ occurs "SAFETY" message ->
   errorMessage message = userMessage UnknownUpstreamError) /\
  (exists c, errorMessage message = userMessage c /\
             forall d, errorMessage message = userMessage d -> d = c).
Proof.
  unfold errorMessage.
  repeat rewrite <- includes_occurs. repeat rewrite <- includes_absent.
  destruct (includes message "API key") eqn:Ha;
  destruct (includes message "quota") eqn:Hq;
  destruct (includes message "SAFETY") eqn:Hs;
  (repeat split; try congruence;
   match goal with
   | |- exists c, ?m = _ /\ _ =>
       first [ exists AuthError; split; [reflexivity|]
             | exists QuotaExceededError; split; [reflexivity|]
             | exists ContentSafetyError; split; [reflexivity|]
             | exists UnknownUpstreamError; split; [reflexivity|] ];
       intros d Hd; symmetry; apply userMessage_inj; exact Hd
   end).
Qed.

(** C1: the relay's answer to an upstream failure.  When "API key"
    occurs in the failure message the [error] field of the response is
    the auth message, whatever else occurs in the message; the remaining
    classes are tried in the order "quota", "SAFETY", generic, each only
    when the earlier needles are absent; and the response carries the
    message of exactly one class. *)
Theorem C1_first_match_priority
    (h : Host) (req : gmap string jsval) (message : string) :
  truthy (get req "image") = true ->
  key_not_configured (GEMINI_API_KEY h) = false ->
  upstream_reply h req = Failure message ->
  exists r tr,
    serve h req = (Normal r, tr) /\
    (occurs "API key" message ->
     body r !! "error" = Some (JStr (userMessage AuthError))) /\
    (~ occurs "API key" message -> occurs "quota" message ->
     body r !! "error" = Some (JStr (userMessage QuotaExceededError))) /\
    (~ occurs "API key" message -> ~ occurs "quota" message ->
     occurs "SAFETY" message ->
     body r !! "error" = Some (JStr (userMessage ContentSafetyError))) /\
    (~ occurs "API key" message -> ~ occurs "quota" message ->
     ~ occurs "SAFETY" message ->
     body r !! "error" = Some (JStr (userMessage UnknownUpstreamError))) /\
    (exists c, body r !! "error" = Some (JStr (userMessage c)) /\
               forall d, body r !! "error" = Some (JStr (userMessage d)) ->
                         d = c).
Proof.
  intros Hi Hk Hu. eexists _, _. split; [apply serve_failure; eassumption|].
  cbn [body]. rewrite lookup_insert_eq.
  destruct (errorMessage_first_match message)
    as (Ha & Hq & Hs & Hg & c & Hc & Hone).
  split; [intros H; rewrite (Ha H); reflexivity|].
  split; [intros H1 H2; rewrite (Hq H1 H2); reflexivity|].
  split; [intros H1 H2 H3; rewrite (Hs H1 H2 H3); reflexivity|].
  split; [intros H1 H2 H3; rewrite (Hg H1 H2 H3); reflexivity|].
  exists c. split; [rewrite Hc; reflexivity|].
  intros d Hd. apply Hone. congruence.
Qed.

Lemma C1_witness :
  exists r tr,
    serve {| GEMINI_API_KEY := Some "AIzaSy-test";
             gemini := fun _ _ _ _ =>
               Failure "API key not valid: quota and SAFETY also named";
             now := 0 |} {[ "image" := JStr "aGk=" ]} = (Normal r, tr) /\
    body r !! "error" = Some (JStr (userMessage AuthError)).
Proof.
  destruct (C1_first_match_priority
              {| GEMINI_API_KEY := Some "AIzaSy-test";
                 gemini := fun _ _ _ _ =>
                   Failure "API key not valid: quota and SAFETY also named";
                 now := 0 |} {[ "image" := JStr "aGk=" ]}
              "API key not valid: quota and SAFETY also named")
    as (r & tr & Hs & Ha & _); [reflexivity..|].
  exists r, tr. split; [exact Hs|].
  apply Ha.
  exists EmptyString, " not valid: quota and SAFETY also named". reflexivity.
Defined.

(** C2 as worded (the messages of the specification) fails: for an
    upstream failure naming "API key" the relay's [error] field is not
    the documented auth message. *)
Lemma C2_documented_wording_differs :
  ~ (forall (h : Host) (req : gmap string jsval) (message : string)
            (r : Response) (tr : list event),
       truthy (get req "image") = true ->
       key_not_configured (GEMINI_API_KEY h) = false ->
       upstream_reply h req = Failure message ->
       serve h req = (Normal r, tr) ->
       occurs "API key" message ->
       status r = 500 /\
       body r !! "error" = Some (JStr (documented_userMessage AuthError))).
Proof.
  intros H.
  pose (h := {| GEMINI_API_KEY := Some "AIzaSy-test";
                gemini := fun _ _ _ _ => Failure "API key not valid";
                now := 0 |}).
  assert (Hi : truthy (get {[ "image" := JStr "aGk=" ]} "image") = true)
    by reflexivity.
  assert (Hk : key_not_configured (GEMINI_API_KEY h) = false) by reflexivity.
  assert (Hu : upstream_reply h {[ "image" := JStr "aGk=" ]}
               = Failure "API key not valid") by reflexivity.
  destruct (H h _ _ _ _ Hi Hk Hu (serve_failure h _ _ Hi Hk Hu)) as [_ He].
  - exists EmptyString, " not valid". reflexivity.
  - vm_compute in He. discriminate He.
Qed.

(** C2, amended: every upstream failure is answered with status 500 and
    an [error] field holding the relay's own wording of the class. *)
Theorem C2_classified_messages
    (h : Host) (req : gmap string jsval) (message : string) :
  truthy (get req "image") = true ->
  key_not_configured (GEMINI_API_KEY h) = false ->
  upstream_reply h req = Failure message ->
  exists r tr,
    serve h req = (Normal r, tr) /\ status r = 500 /\
    (occurs "API key" message ->
     body r !! "error" = Some (JStr
       "Invalid API key. Please check your GEMINI_API_KEY in the .env file")) /\
    (~ occurs "API key" message -> occurs "quota" message ->
     body r !! "error" = Some (JStr
       "API quota exceeded. Please check your Gemini API usage limits")) /\
    (~ occurs "API key" message -> ~ occurs "quota" message ->
     occurs "SAFETY" message ->
     body r !! "error" = Some (JStr
       "Image content was flagged by safety filters")) /\
    (~ occurs "API key" message -> ~ occurs "quota" message ->
     ~ occurs "SAFETY" message ->
     body r !! "error" = Some (JStr "Failed to analyze image")).
Proof.
  intros Hi Hk Hu. eexists _, _. split; [apply serve_failure; eassumption|].
  split; [reflexivity|]. cbn [body].
  rewrite lookup_insert_eq. unfold errorMessage.
  repeat rewrite <- includes_occurs. repeat rewrite <- includes_absent.
  destruct (includes message "API key"), (includes message "quota"),
           (includes message "SAFETY"); repeat split; congruence.
Qed.

Lemma C2_witness :
  exists r tr,
    serve {| GEMINI_API_KEY := Some "AIzaSy-test";
             gemini := fun _ _ _ _ => Failure "daily quota exhausted";
             now := 0 |} {[ "image" := JStr "aGk=" ]} = (Normal r, tr) /\
    status r = 500 /\
    body r !! "error" = Some (JStr
      "API quota exceeded. Please check your Gemini API usage limits").
Proof.
  destruct (C2_classified_messages
              {| GEMINI_API_KEY := Some "AIzaSy-test";
                 gemini := fun _ _ _ _ => Failure "daily quota exhausted";
                 now := 0 |} {[ "image" := JStr "aGk=" ]}
              "daily quota exhausted")
    as (r & tr & Hs & Hst & _ & Hq & _); [reflexivity..|].
  exists r, tr. split; [exact Hs|]. split; [exact Hst|].
  apply Hq.
  - apply includes_absent. reflexivity.
  - exists "daily ", " exhausted". reflexivity.
Defined.

(** *** Shape of the error bodies *)

(** C3 as worded fails: the validation error carries no [details]. *)
Lemma C3_validation_error_has_no_details :
  ~ (forall (h : Host) (req : gmap string jsval)
            (r : Response) (tr : list event),
       serve h req = (Normal r, tr) -> status r <> 200 ->
       is_Some (body r !! "error") /\ is_Some (body r !! "details")).
Proof.
  intros H.
  pose (h := {| GEMINI_API_KEY := Some "AIzaSy-test";
                gemini := fun _ _ _ _ => Text "a cat";
                now := 0 |}).
  assert (Hi : truthy (get (∅ : gmap string jsval) "image") = false)
    by reflexivity.
  destruct (H h ∅ _ _ (serve_no_image h ∅ Hi)) as [_ [v Hv]].
  - discriminate.
  - vm_compute in Hv. discriminate Hv.
Qed.

(** C3, amended: an error response is either the answer to an upstream
    failure, whose body is exactly [error] (the classified message) and
    [details] (the raw upstream message), or one of the two early
    answers, whose body is the [error] field alone. *)
Theorem C3_error_bodies
    (h : Host) (req : gmap string jsval) (r : Response) (tr : list event) :
  serve h req = (Normal r, tr) -> status r <> 200 ->
  (exists message,
     upstream_reply h req = Failure message /\
     upstream_calls tr = 1%nat /\
     body r = <[ "error" := JStr (errorMessage message) ]>
              {[ "details" := JStr message ]} /\
     body r !! "error" = Some (JStr (errorMessage message)) /\
     body r !! "details" = Some (JStr message))
  \/
  (upstream_calls tr = 0%nat /\
   (r = no_image_response \/ r = not_configured_response) /\
   is_Some (body r !! "error") /\ body r !! "details" = None).
Proof.
  intros Hs Hst.
  destruct (truthy (get req "image")) eqn:Hi.
  2:{ rewrite (serve_no_image h req Hi) in Hs. injection Hs as <- <-.
      right. repeat split; [left; reflexivity | eexists; reflexivity]. }
  destruct (key_not_configured (GEMINI_API_KEY h)) eqn:Hk.
  { rewrite (serve_not_configured h req Hi Hk) in Hs. injection Hs as <- <-.
    right. repeat split; [right; reflexivity | eexists; reflexivity]. }
  destruct (upstream_reply h req) as [t|message] eqn:Hu.
  - rewrite (serve_success h req t Hi Hk Hu) in Hs. injection Hs as <- <-.
    exfalso. apply Hst. reflexivity.
  - rewrite (serve_failure h req message Hi Hk Hu) in Hs. injection Hs as <- <-.
    left. exists message. cbn [body].
    repeat split.
Qed.

Lemma C3_witness :
  exists r tr,
    serve {| GEMINI_API_KEY := Some "AIzaSy-test";
             gemini := fun _ _ _ _ => Failure "SAFETY block";
             now := 0 |} {[ "image" := JStr "aGk=" ]} = (Normal r, tr) /\
    body r !! "error"
      = Some (JStr "Image content was flagged by safety filters") /\
    body r !! "details" = Some (JStr "SAFETY block").
Proof.
  pose (h := {| GEMINI_API_KEY := Some "AIzaSy-test";
                gemini := fun _ _ _ _ => Failure "SAFETY block";
                now := 0 |}).
  pose (req := ({[ "image" := JStr "aGk=" ]} : gmap string jsval)).
  assert (Hs : serve h req =
               (Normal {| status := 500;
                          body := <[ "error" := JStr (errorMessage "SAFETY block") ]>
                                  {[ "details" := JStr "SAFETY block" ]} |},
                [console_log "📸 Analyzing image with Gemini AI...";
                 upstream_event req;
                 console_error "❌ Error analyzing image:" "SAFETY block"]))
    by (apply serve_failure; reflexivity).
  eexists _, _. split; [exact Hs|].
  destruct (C3_error_bodies h req _ _ Hs)
    as [(message & Hu & _ & _ & He & Hd) | (_ & _ & _ & Hd)].
  - cbn [status]. discriminate.
  - injection Hu as <-. split; [exact He | exact Hd].
  - discriminate Hd.
Defined.

(** *** The two early answers *)

(** C4: with an image present and the credential absent or equal to the
    placeholder, the relay answers 500 with the configuration error and
    the trace of the request holds no call to the external model. *)
Theorem C4_not_configured_no_upstream_call
    (h : Host) (req : gmap string jsval) :
  truthy (get req "image") = true ->
  GEMINI_API_KEY h = None \/ GEMINI_API_KEY h = Some placeholder ->
  exists tr,
    serve h req =
      (Normal {| status := 500;
                 body := {[ "error" := JStr "GEMINI_API_KEY not configured. Please add your API key to the .env file" ]} |},
       tr) /\
    upstream_calls tr = 0%nat.
Proof.
  intros Hi Hk. exists []. split; [|reflexivity].
  apply serve_not_configured; [exact Hi|].
  destruct Hk as [-> | ->]; reflexivity.
Qed.

Lemma C4_witness :
  exists tr,
    serve {| GEMINI_API_KEY := Some "your_gemini_api_key_here";
             gemini := fun _ _ _ _ => Text "a cat";
             now := 0 |} {[ "image" := JStr "aGk=" ]} =
      (Normal {| status := 500;
                 body := {[ "error" := JStr "GEMINI_API_KEY not configured. Please add your API key to the .env file" ]} |},
       tr) /\
    upstream_calls tr = 0%nat.
Proof.
  apply (C4_not_configured_no_upstream_call
           {| GEMINI_API_KEY := Some "your_gemini_api_key_here";
              gemini := fun _ _ _ _ => Text "a cat";
              now := 0 |} {[ "image" := JStr "aGk=" ]}).
  - reflexivity.
  - right. reflexivity.
Defined.

(** C5 at a request without a parsed body ([req.body] is [undefined]):
    the destructuring throws before the image test is reached, and the
    answer is 500 "Failed to analyze image" with the message of the
    TypeError as [details], not 400 "No image provided".  No call to the
    external model is made.  Whenever the body was parsed, a missing or
    empty [image] field is answered 400 "No image provided", again
    without a call. *)
Theorem C5_request_without_body (h : Host) :
  exists tr,
    serve_request h None =
      (Normal {| status := 500;
                 body := <[ "error" := JStr "Failed to analyze image" ]>
                         {[ "details" := JStr cannot_destructure ]} |}, tr) /\
    upstream_calls tr = 0%nat /\
    fst (serve_request h None)
    <> Normal {| status := 400;
                 body := {[ "error" := JStr "No image provided" ]} |} /\
    forall req : gmap string jsval,
      req !! "image" = None \/ req !! "image" = Some (JStr EmptyString) ->
      exists tr',
        serve_request h (Some req) =
          (Normal {| status := 400;
                     body := {[ "error" := JStr "No image provided" ]} |}, tr') /\
        upstream_calls tr' = 0%nat.
Proof.
  eexists. split; [apply serve_without_body|].
  split; [reflexivity|]. split.
  - rewrite serve_without_body. cbn [fst]. intros H.
    apply Normal_inj in H as [Hst _]. discriminate Hst.
  - intros req Hi. exists []. split; [|reflexivity].
    apply (serve_missing_image h req Hi).
Qed.

(** C10 at a request without a parsed body and with the credential
    absent or equal to the placeholder: the answer is the 500 of the
    [catch], neither 400 "No image provided" nor the configuration
    error.  Whenever the body was parsed, the image check does come
    first: a missing or empty [image] field is answered 400 "No image
    provided" and never the configuration error. *)
Theorem C10_request_without_body
    (h : Host) :
  GEMINI_API_KEY h = None \/ GEMINI_API_KEY h = Some placeholder ->
  fst (serve_request h None) = Normal no_body_response /\
  status no_body_response = 500 /\
  body no_body_response !! "error" = Some (JStr "Failed to analyze image") /\
  fst (serve_request h None) <> Normal no_image_response /\
  fst (serve_request h None) <> Normal not_configured_response /\
  forall req : gmap string jsval,
    req !! "image" = None \/ req !! "image" = Some (JStr EmptyString) ->
    fst (serve_request h (Some req)) = Normal no_image_response /\
    status no_image_response = 400 /\
    body no_image_response !! "error" = Some (JStr "No image provided") /\
    fst (serve_request h (Some req)) <> Normal not_configured_response.
Proof.
  intros _. rewrite serve_without_body. cbn [fst].
  split; [reflexivity|]. split; [reflexivity|]. split; [reflexivity|].
  split; [intros H; apply Normal_inj in H as [Hst _]; discriminate Hst|].
  split.
  { intros H. apply Normal_inj in H as [_ Hb].
    apply (f_equal (fun o => o !! "details")) in Hb. discriminate Hb. }
  intros req Hi.
  change (serve_request h (Some req)) with (serve h req).
  rewrite (serve_missing_image h req Hi). cbn [fst].
  repeat split. intros H. discriminate H.
Qed.

Lemma C10_witness :
  fst (serve_request {| GEMINI_API_KEY := None;
                        gemini := fun _ _ _ _ => Text "a cat";
                        now := 0 |} None)
  <> Normal no_image_response.
Proof.
  destruct (C10_request_without_body
              {| GEMINI_API_KEY := None;
                 gemini := fun _ _ _ _ => Text "a cat";
                 now := 0 |}) as (_ & _ & _ & H & _).
  - left. reflexivity.
  - exact H.
Defined.

(** ** Time stamps *)

(** The rendering of a few instants, as the language gives it. *)
Example toISOString_epoch :
  Date.toISOString 0 = "1970-01-01T00:00:00.000Z".
Proof. reflexivity. Qed.

Example toISOString_before_epoch :
  Date.toISOString (-1) = "1969-12-31T23:59:59.999Z".
Proof. reflexivity. Qed.

Example toISOString_leap_day :
  Date.toISOString 951782400000 = "2000-02-29T00:00:00.000Z" /\
  Date.toISOString 4107542399999 = "2100-02-28T23:59:59.999Z" /\
  Date.toISOString 4107542400000 = "2100-03-01T00:00:00.000Z".
Proof. repeat split. Qed.

Example toISOString_expanded_years :
  Date.toISOString 253402300800000 = "+010000-01-01T00:00:00.000Z" /\
  Date.toISOString (-62167219200001) = "-000001-12-31T23:59:59.999Z" /\
  Date.toISOString Date.maxTime = "+275760-09-13T00:00:00.000Z" /\
  Date.toISOString (- Date.maxTime) = "-271821-04-20T00:00:00.000Z".
Proof. repeat split. Qed.

Section Digits.

Lemma digit_cases (n : Z) :
  exists k, n mod 10 = k /\
    (k = 0 \/ k = 1 \/ k = 2 \/ k = 3 \/ k = 4 \/
     k = 5 \/ k = 6 \/ k = 7 \/ k = 8 \/ k = 9).
Proof.
  exists (n mod 10). split; [reflexivity|].
  pose proof (Z.mod_pos_bound n 10 ltac:(lia)). lia.
Qed.

Lemma is_digit_digit (n : Z) : is_digit (Date.digit n) = true.
Proof.
  unfold Date.digit. destruct (digit_cases n) as (k & -> & Hk).
  decompose [or] Hk; subst k; reflexivity.
Qed.

Lemma digit_value_digit (n : Z) : digit_value (Date.digit n) = n mod 10.
Proof.
  unfold Date.digit. destruct (digit_cases n) as (k & -> & Hk).
  decompose [or] Hk; subst k; reflexivity.
Qed.

Lemma two_digits_pad (lo hi n : Z) :
  0 <= lo -> hi < 100 -> lo <= n <= hi ->
  two_digits lo hi (Date.digit (n / 10)) (Date.digit n) = true.
Proof.
  intros Hlo Hhi Hn. unfold two_digits.
  rewrite !is_digit_digit, !digit_value_digit.
  assert (E : 10 * ((n / 10) mod 10) + n mod 10 = n).
  { rewrite (Z.mod_small (n / 10) 10).
    - pose proof (Z.div_mod n 10 ltac:(lia)). lia.
    - split; [apply Z.div_pos; lia | apply Z.div_lt_upper_bound; lia]. }
  rewrite E. cbn [andb].
  apply andb_true_intro. split; apply Z.leb_le; lia.
Qed.

End Digits.

Section Calendar.

Variable t : Z.

Lemma dayOfYear_bounds : 0 <= Date.dayOfYear (Date.dayOfCycle (Date.Day t)) <= 365.
Proof.
  unfold Date.dayOfYear, Date.yearOfQuad, Date.dayOfQuad, Date.dayOfCentury,
    Date.centuryOfCycle, Date.dayOfCycle.
  generalize (Date.Day t). intros day.
  Z.div_mod_to_equations. lia.
Qed.

Lemma MonthFromTime_bounds : 1 <= Date.MonthFromTime t <= 12.
Proof.
  unfold Date.MonthFromTime, Date.monthOfCycleDay, Date.monthIndex.
  pose proof dayOfYear_bounds as H. revert H.
  generalize (Date.dayOfYear (Date.dayOfCycle (Date.Day t))). intros doy H.
  destruct (Z.ltb_spec ((5 * doy + 2) / 153) 10);
    Z.div_mod_to_equations; lia.
Qed.

Lemma DateFromTime_bounds : 1 <= Date.DateFromTime t <= 31.
Proof.
  unfold Date.DateFromTime, Date.dateOfCycleDay, Date.monthIndex.
  pose proof dayOfYear_bounds as H. revert H.
  generalize (Date.dayOfYear (Date.dayOfCycle (Date.Day t))). intros doy H.
  Z.div_mod_to_equations. lia.
Qed.

(** The calendar above agrees with the wording of the language
    specification: the year is the one whose days contain [Day t], and
    the month and the day of the month are those of its tables. *)

Lemma monthOfCycleDay_early (doy : Z) :
  0 <= doy <= 365 ->
  ((if (5 * doy + 2) / 153 <? 10
    then (5 * doy + 2) / 153 + 3 else (5 * doy + 2) / 153 - 9) <=? 2)
  = (306 <=? doy).
Proof.
  intros H.
  destruct (Z.ltb_spec ((5 * doy + 2) / 153) 10); destruct (Z.leb_spec 306 doy);
    [exfalso | apply Z.leb_gt | apply Z.leb_le | exfalso];
    Z.div_mod_to_equations; lia.
Qed.

Ltac open_calendar :=
  unfold Date.YearFromTime, Date.MonthFromTime, Date.monthOfCycleDay,
    Date.monthIndex;
  let Hb := fresh "Hb" in
  pose proof dayOfYear_bounds as Hb;
  rewrite (monthOfCycleDay_early _ Hb);
  revert Hb;
  unfold Date.yearOfCycle, Date.dayOfYear, Date.yearOfQuad, Date.dayOfQuad,
    Date.quadOfCentury, Date.dayOfCentury, Date.centuryOfCycle,
    Date.dayOfCycle, Date.cycleOf, Date.DayFromYear;
  generalize (Date.Day t); intros day Hb.

Lemma YearFromTime_spec :
  Date.DayFromYear (Date.YearFromTime t) <= Date.Day t
  < Date.DayFromYear (Date.YearFromTime t + 1).
Proof.
  open_calendar.
  match goal with |- context [if ?b then _ else _] => destruct b eqn:E end.
  - apply Z.leb_le in E. Z.div_mod_to_equations. lia.
  - apply Z.leb_gt in E. Z.div_mod_to_equations. lia.
Qed.

Lemma InLeapYear_cases : Date.InLeapYear t = 0 \/ Date.InLeapYear t = 1.
Proof.
  unfold Date.InLeapYear, Date.DaysInYear.
  destruct (_ =? 0); cbn [negb]; [|lia].
  destruct (_ =? 0); cbn [negb]; [|lia].
  destruct (_ =? 0); cbn [negb]; lia.
Qed.

Ltac leap_cases :=
  repeat match goal with
  | |- context [negb (?a =? 0)] => destruct (Z.eqb_spec a 0)
  end;
  cbn [negb]; Z.div_mod_to_equations; lia.

Lemma DayWithinYear_spec :
  let doy := Date.dayOfYear (Date.dayOfCycle (Date.Day t)) in
  (doy < 306 -> Date.DayWithinYear t = doy + 59 + Date.InLeapYear t) /\
  (306 <= doy -> Date.DayWithinYear t = doy - 306) /\
  (doy = 365 -> Date.InLeapYear t = 1).
Proof.
  cbv zeta. unfold Date.DayWithinYear, Date.InLeapYear, Date.DaysInYear.
  open_calendar.
  match goal with
  | |- context [if (306 <=? ?x) then _ else _] =>
      destruct (Z.leb_spec 306 x) as [E|E]
  end.
  - split; [intros; lia|]. split.
    + intros _. Z.div_mod_to_equations. lia.
    + intros E365. leap_cases.
  - split; [|split; intros; lia]. intros _. leap_cases.
Qed.

End Calendar.

Ltac decide_ltb :=
  repeat match goal with
  | |- context [?a <? ?b] =>
      first [ rewrite (proj2 (Z.ltb_lt a b)) by lia
            | rewrite (proj2 (Z.ltb_ge a b)) by lia ]
  end.

Lemma tables_of_month_index (leap doy mp d : Z) :
  leap = 0 \/ leap = 1 -> doy <= 364 + leap ->
  153 * mp <= 5 * doy + 2 < 153 * mp + 153 -> 0 <= mp <= 11 ->
  (doy < 306 /\ d = doy + 59 + leap) \/ (306 <= doy /\ d = doy - 306) ->
  Date.monthTable leap d = (if mp <? 10 then mp + 2 else mp - 10) /\
  Date.dateTable leap d = doy - (153 * mp + 2) / 5 + 1.
Proof.
  intros Hl Hle Hr Hmp Hd.
  assert (Hcase : mp = 0 \/ mp = 1 \/ mp = 2 \/ mp = 3 \/ mp = 4 \/ mp = 5
                  \/ mp = 6 \/ mp = 7 \/ mp = 8 \/ mp = 9 \/ mp = 10
                  \/ mp = 11) by lia.
  unfold Date.dateTable, Date.monthTable.
  decompose [or] Hcase; subst mp; decide_ltb; (split; [reflexivity|]);
    cbn [Z.ltb Z.compare Pos.compare Pos.compare_cont Z.add Z.sub Z.opp
         Z.pos_sub Pos.add Pos.succ Pos.pred_double Z.succ_double
         Z.pred_double Z.double];
    Z.div_mod_to_equations; lia.
Qed.

Lemma MonthFromTime_DateFromTime_spec (t : Z) :
  Date.MonthFromTime t
  = Date.monthTable (Date.InLeapYear t) (Date.DayWithinYear t) + 1 /\
  Date.DateFromTime t
  = Date.dateTable (Date.InLeapYear t) (Date.DayWithinYear t).
Proof.
  destruct (DayWithinYear_spec t) as (H1 & H2 & H3). cbv zeta in H1, H2, H3.
  pose proof (dayOfYear_bounds t) as Hb.
  unfold Date.MonthFromTime, Date.DateFromTime, Date.monthOfCycleDay,
    Date.dateOfCycleDay, Date.monthIndex. cbv zeta.
  set (doy := Date.dayOfYear (Date.dayOfCycle (Date.Day t))) in *.
  destruct (tables_of_month_index (Date.InLeapYear t) doy
              ((5 * doy + 2) / 153) (Date.DayWithinYear t)) as [Hm Hd].
  - apply InLeapYear_cases.
  - destruct (InLeapYear_cases t) as [E|E]; rewrite E; [|lia].
    destruct (Z.eq_dec doy 365) as [E5|E5];
      [rewrite (H3 E5) in E; discriminate | lia].
  - Z.div_mod_to_equations. lia.
  - Z.div_mod_to_equations. lia.
  - destruct (Z.lt_ge_cases doy 306); [left | right]; auto.
  - rewrite Hm, Hd. split; [|reflexivity].
    destruct ((5 * doy + 2) / 153 <? 10); lia.
Qed.

Section ISOString.

Variable t : Z.

(** Within the range of time values the year has at most six digits, so
    [yearString] loses nothing. *)
Lemma YearFromTime_bounds :
  Date.valid t -> -999999 <= Date.YearFromTime t <= 999999.
Proof.
  unfold Date.valid, Date.maxTime, Date.YearFromTime, Date.yearOfCycle,
    Date.cycleOf, Date.quadOfCentury, Date.yearOfQuad, Date.dayOfQuad,
    Date.dayOfCentury, Date.centuryOfCycle, Date.dayOfCycle, Date.Day,
    Date.msPerDay.
  intros H.
  destruct (Date.MonthFromTime t <=? 2); Z.div_mod_to_equations; lia.
Qed.

Lemma iso8601_after_year_toISOString :
  iso8601_after_year
    ("-" ++ Date.pad2 (Date.MonthFromTime t) ++ "-"
     ++ Date.pad2 (Date.DateFromTime t) ++ "T"
     ++ Date.pad2 (Date.HourFromTime t) ++ ":"
     ++ Date.pad2 (Date.MinFromTime t) ++ ":"
     ++ Date.pad2 (Date.SecFromTime t) ++ "."
     ++ Date.pad3 (Date.msFromTime t) ++ "Z") = true.
Proof.
  unfold iso8601_after_year, Date.pad3, Date.pad2.
  cbv [String.append list_ascii_of_string].
  rewrite !is_digit_digit.
  rewrite (two_digits_pad 1 12) by (try lia; apply MonthFromTime_bounds).
  rewrite (two_digits_pad 1 31) by (try lia; apply DateFromTime_bounds).
  rewrite (two_digits_pad 0 23)
    by (try lia; unfold Date.HourFromTime;
        pose proof (Z.mod_pos_bound (t / 3600000) 24 ltac:(lia)); lia).
  rewrite (two_digits_pad 0 59 (Date.MinFromTime t))
    by (try lia; unfold Date.MinFromTime;
        pose proof (Z.mod_pos_bound (t / 60000) 60 ltac:(lia)); lia).
  rewrite (two_digits_pad 0 59 (Date.SecFromTime t))
    by (try lia; unfold Date.SecFromTime;
        pose proof (Z.mod_pos_bound (t / 1000) 60 ltac:(lia)); lia).
  reflexivity.
Qed.

Lemma toISOString_iso8601 : iso8601 (Date.toISOString t) = true.
Proof.
  unfold Date.toISOString, Date.yearString.
  generalize iso8601_after_year_toISOString.
  generalize ("-" ++ Date.pad2 (Date.MonthFromTime t) ++ "-"
     ++ Date.pad2 (Date.DateFromTime t) ++ "T"
     ++ Date.pad2 (Date.HourFromTime t) ++ ":"
     ++ Date.pad2 (Date.MinFromTime t) ++ ":"
     ++ Date.pad2 (Date.SecFromTime t) ++ "."
     ++ Date.pad3 (Date.msFromTime t) ++ "Z").
  intros rest Hrest.
  generalize (Date.YearFromTime t). intros y.
  destruct ((0 <=? y) && (y <=? 9999)).
  - unfold Date.pad4, Date.pad3, Date.pad2. cbv [String.append iso8601].
    rewrite !is_digit_digit. exact Hrest.
  - destruct (y <? 0);
      unfold Date.pad6, Date.pad4, Date.pad3, Date.pad2;
      cbv [String.append iso8601];
      rewrite !is_digit_digit; exact Hrest.
Qed.

End ISOString.

(** C6: when the image is present, the credential configured and the
    external model returns the text [t], the relay answers 200 with the
    body [{success: true, description: t, timestamp: s}] and nothing
    else, where [s] is the rendering of the clock by [toISOString], an
    ISO-8601 date-time; the model was called once. *)
Theorem C6_success_response
    (h : Host) (req : gmap string jsval) (t : string) :
  truthy (get req "image") = true ->
  key_not_configured (GEMINI_API_KEY h) = false ->
  upstream_reply h req = Text t ->
  exists s tr,
    serve h req =
      (Normal {| status := 200;
                 body := <[ "success" := JBool true ]>
                         (<[ "description" := JStr t ]>
                          {[ "timestamp" := JStr s ]}) |}, tr) /\
    s = Date.toISOString (now h) /\
    iso8601 s = true /\
    upstream_calls tr = 1%nat.
Proof.
  intros Hi Hk Hu. eexists _, _.
  split; [apply serve_success; eassumption|].
  split; [reflexivity|]. split; [apply toISOString_iso8601 | reflexivity].
Qed.

Lemma C6_witness :
  exists tr,
    serve {| GEMINI_API_KEY := Some "AIzaSy-test";
             gemini := fun _ _ _ _ => Text "A tabby cat on a sofa.";
             now := 1700000000000 |} {[ "image" := JStr "aGk=" ]} =
      (Normal {| status := 200;
                 body := <[ "success" := JBool true ]>
                         (<[ "description" := JStr "A tabby cat on a sofa." ]>
                          {[ "timestamp" := JStr "2023-11-14T22:13:20.000Z" ]}) |},
       tr).
Proof.
  destruct (C6_success_response
              {| GEMINI_API_KEY := Some "AIzaSy-test";
                 gemini := fun _ _ _ _ => Text "A tabby cat on a sofa.";
                 now := 1700000000000 |} {[ "image" := JStr "aGk=" ]}
              "A tabby cat on a sofa.")
    as (s & tr & Hs & -> & _ & _).
  - reflexivity.
  - reflexivity.
  - reflexivity.
  - exists tr. exact Hs.
Defined.

(** ** Base64 *)

Example encode_hi : Base64.encode [Byte.x68; Byte.x69] = "aGk=".
Proof. reflexivity. Qed.

Example encode_Man : Base64.encode [Byte.x4d; Byte.x61; Byte.x6e] = "TWFu".
Proof. reflexivity. Qed.

Example decode_rejects_inner_padding : Base64.decode "aG=k" = None.
Proof. reflexivity. Qed.

Section Base64Facts.

Import Base64.

Lemma table_ok : forallb table_row_ok (List.map Z.of_nat (seq 0 64)) = true.
Proof. vm_compute. reflexivity. Qed.

Lemma table_row (n : Z) :
  0 <= n < 64 ->
  sextet_of (char_of n) = Some n /\
  Ascii.eqb (char_of n) pad = false /\
  Ascii.eqb (char_of n) "," = false.
Proof.
  intros Hn.
  assert (Hin : In n (List.map Z.of_nat (seq 0 64))).
  { apply in_map_iff. exists (Z.to_nat n). split; [lia|].
    apply in_seq. lia. }
  pose proof (proj1 (forallb_forall _ _) table_ok n Hin) as H.
  unfold table_row_ok in H.
  apply andb_prop in H as [H Hc]. apply andb_prop in H as [Hs Hp].
  apply negb_true_iff in Hc. apply negb_true_iff in Hp.
  destruct (sextet_of (char_of n)) as [m|]; [|discriminate].
  apply Z.eqb_eq in Hs. subst m. auto.
Qed.

Lemma value_bounds (b : Byte.byte) : 0 <= value b < 256.
Proof.
  unfold value. pose proof (Byte.to_N_bounded b). lia.
Qed.

Lemma byte_of_value (b : Byte.byte) : byte_of (value b) = b.
Proof.
  unfold byte_of, value. rewrite N2Z.id, Byte.of_to_N. reflexivity.
Qed.

Lemma list_ind3 {A : Type} (P : list A -> Prop) :
  P [] -> (forall a, P [a]) -> (forall a b, P [a; b]) ->
  (forall a b c l, P l -> P (a :: b :: c :: l)) ->
  forall l, P l.
Proof.
  intros H0 H1 H2 H3 l.
  enough (H : P l /\ (forall a, P (a :: l)) /\ (forall a b, P (a :: b :: l)))
    by apply H.
  induction l as [|x l (IH0 & IH1 & IH2)].
  - auto.
  - repeat split; auto.
Qed.

Lemma decode_encode (bytes : list Byte.byte) :
  decode (encode bytes) = Some bytes.
Proof.
  induction bytes as [|a|a b|a b c rest IH] using list_ind3.
  - reflexivity.
  - cbn [encode decode].
    pose proof (value_bounds a) as Ha.
    destruct (table_row (value a / 4)) as (-> & _ & _);
      [Z.div_mod_to_equations; lia|].
    destruct (table_row (value a mod 4 * 16)) as (-> & _ & _);
      [Z.div_mod_to_equations; lia|].
    rewrite Ascii.eqb_refl. cbn [andb String.eqb].
    replace (value a / 4 * 4 + value a mod 4 * 16 / 16) with (value a)
      by (Z.div_mod_to_equations; lia).
    rewrite byte_of_value. reflexivity.
  - cbn [encode decode].
    pose proof (value_bounds a) as Ha. pose proof (value_bounds b) as Hb.
    destruct (table_row (value a / 4)) as (-> & _ & _);
      [Z.div_mod_to_equations; lia|].
    destruct (table_row (value a mod 4 * 16 + value b / 16)) as (-> & _ & _);
      [Z.div_mod_to_equations; lia|].
    destruct (table_row (value b mod 16 * 4)) as (-> & -> & _);
      [Z.div_mod_to_equations; lia|].
    rewrite Ascii.eqb_refl. cbn [String.eqb].
    replace (value a / 4 * 4 + (value a mod 4 * 16 + value b / 16) / 16)
      with (value a) by (Z.div_mod_to_equations; lia).
    replace ((value a mod 4 * 16 + value b / 16) mod 16 * 16
             + value b mod 16 * 4 / 4)
      with (value b) by (Z.div_mod_to_equations; lia).
    rewrite !byte_of_value. reflexivity.
  - cbn [encode decode].
    pose proof (value_bounds a) as Ha. pose proof (value_bounds b) as Hb.
    pose proof (value_bounds c) as Hc.
    destruct (table_row (value a / 4)) as (-> & _ & _);
      [Z.div_mod_to_equations; lia|].
    destruct (table_row (value a mod 4 * 16 + value b / 16)) as (-> & _ & _);
      [Z.div_mod_to_equations; lia|].
    destruct (table_row (value b mod 16 * 4 + value c / 64)) as (-> & -> & _);
      [Z.div_mod_to_equations; lia|].
    destruct (table_row (value c mod 64)) as (-> & -> & _);
      [Z.div_mod_to_equations; lia|].
    rewrite IH.
    replace (value a / 4 * 4 + (value a mod 4 * 16 + value b / 16) / 16)
      with (value a) by (Z.div_mod_to_equations; lia).
    replace ((value a mod 4 * 16 + value b / 16) mod 16 * 16
             + (value b mod 16 * 4 + value c / 64) / 4)
      with (value b) by (Z.div_mod_to_equations; lia).
    replace ((value b mod 16 * 4 + value c / 64) mod 4 * 64 + value c mod 64)
      with (value c) by (Z.div_mod_to_equations; lia).
    rewrite !byte_of_value. reflexivity.
Qed.

(** No comma in an encoding. *)
Lemma encode_no_comma (bytes : list Byte.byte) :
  forallb (fun c => negb (Ascii.eqb c ",")) (list_ascii_of_string (encode bytes))
  = true.
Proof.
  induction bytes as [|a|a b|a b c rest IH] using list_ind3.
  - reflexivity.
  - cbn [encode list_ascii_of_string forallb].
    pose proof (value_bounds a) as Ha.
    destruct (table_row (value a / 4)) as (_ & _ & ->);
      [Z.div_mod_to_equations; lia|].
    destruct (table_row (value a mod 4 * 16)) as (_ & _ & ->);
      [Z.div_mod_to_equations; lia|].
    reflexivity.
  - cbn [encode list_ascii_of_string forallb].
    pose proof (value_bounds a) as Ha. pose proof (value_bounds b) as Hb.
    destruct (table_row (value a / 4)) as (_ & _ & ->);
      [Z.div_mod_to_equations; lia|].
    destruct (table_row (value a mod 4 * 16 + value b / 16)) as (_ & _ & ->);
      [Z.div_mod_to_equations; lia|].
    destruct (table_row (value b mod 16 * 4)) as (_ & _ & ->);
      [Z.div_mod_to_equations; lia|].
    reflexivity.
  - cbn [encode list_ascii_of_string forallb].
    pose proof (value_bounds a) as Ha. pose proof (value_bounds b) as Hb.
    pose proof (value_bounds c) as Hc.
    destruct (table_row (value a / 4)) as (_ & _ & ->);
      [Z.div_mod_to_equations; lia|].
    destruct (table_row (value a mod 4 * 16 + value b / 16)) as (_ & _ & ->);
      [Z.div_mod_to_equations; lia|].
    destruct (table_row (value b mod 16 * 4 + value c / 64)) as (_ & _ & ->);
      [Z.div_mod_to_equations; lia|].
    destruct (table_row (value c mod 64)) as (_ & _ & ->);
      [Z.div_mod_to_equations; lia|].
    exact IH.
Qed.

End Base64Facts.

(** ** The client: encoding the image *)

Import Client Markup.

Section Splitting.

Lemma includes_comma (s : string) : includes s "," = false -> no_comma s.
Proof.
  unfold no_comma. induction s as [|a s IH]; [reflexivity|].
  cbn [includes String.prefix list_ascii_of_string forallb].
  destruct (Ascii.ascii_dec "," a) as [<-|Hne].
  - destruct s; discriminate.
  - intros H. cbn [orb] in H. rewrite (IH H), andb_true_r.
    apply negb_true_iff, Ascii.eqb_neq. congruence.
Qed.

Lemma append_cons (a : ascii) (s t : string) :
  String a s ++ t = String a (s ++ t).
Proof. reflexivity. Qed.

Lemma append_assoc (s t u : string) : (s ++ t) ++ u = s ++ t ++ u.
Proof.
  induction s as [|a s IH]; [reflexivity|].
  rewrite !append_cons, IH. reflexivity.
Qed.

Lemma no_comma_app (s1 s2 : string) :
  no_comma s1 -> no_comma s2 -> no_comma (s1 ++ s2).
Proof.
  unfold no_comma. induction s1 as [|a s1 IH]; [auto|].
  rewrite append_cons. cbn [list_ascii_of_string forallb].
  intros H1 H2. apply andb_prop in H1 as [Ha H1].
  rewrite Ha. exact (IH H1 H2).
Qed.

Lemma split_no_comma (s : string) : no_comma s -> split "," s = [s].
Proof.
  unfold no_comma. induction s as [|a s IH]; [reflexivity|].
  cbn [split list_ascii_of_string forallb]. intros H.
  apply andb_prop in H as [Ha H]. apply negb_true_iff in Ha.
  rewrite Ha, (IH H). reflexivity.
Qed.

Lemma split_first_comma (pre post : string) :
  no_comma pre -> split "," (pre ++ "," ++ post) = pre :: split "," post.
Proof.
  unfold no_comma. induction pre as [|a pre IH].
  - reflexivity.
  - rewrite append_cons. cbn [split list_ascii_of_string forallb]. intros H.
    apply andb_prop in H as [Ha H]. apply negb_true_iff in Ha.
    rewrite Ha, (IH H). reflexivity.
Qed.

(** The payload of a data URL whose media type and payload hold no
    comma is the second piece of the split. *)
Lemma base64_of_dataURL_payload (mime payload : string) :
  no_comma mime -> no_comma payload ->
  base64_of_dataURL ("data:" ++ mime ++ ";base64," ++ payload) = Some payload.
Proof.
  intros Hm Hp. unfold base64_of_dataURL.
  change (";base64," ++ payload) with (";base64" ++ "," ++ payload).
  rewrite <- (append_assoc mime), <- (append_assoc "data:").
  rewrite split_first_comma.
  - rewrite (split_no_comma payload Hp). reflexivity.
  - apply (no_comma_app "data:"); [reflexivity|].
    apply no_comma_app; [exact Hm | reflexivity].
Qed.

End Splitting.

(** C7: for a file whose type holds no comma, splitting its data URL at
    the commas and taking the second piece gives exactly the base64
    payload; that is the [image] field the server receives, and decoding
    it gives back the bytes of the file. *)
Theorem C7_image_round_trip (b : Browser) (file : File) :
  includes (type file) "," = false ->
  readAsDataURL file
    = "data:" ++ type file ++ ";base64," ++ Base64.encode (bytes file) /\
  base64_of_dataURL (readAsDataURL file) = Some (Base64.encode (bytes file)) /\
  (read_fails b file = false ->
   fileToBase64 b file = Ok (Some (Base64.encode (bytes file)))) /\
  (exists received,
     get (request_body (base64_of_dataURL (readAsDataURL file)) (type file))
         "image" = JStr received /\
     Base64.decode received = Some (bytes file)).
Proof.
  intros Hty.
  assert (Hp : base64_of_dataURL (readAsDataURL file)
               = Some (Base64.encode (bytes file))).
  { apply base64_of_dataURL_payload.
    - apply includes_comma, Hty.
    - apply encode_no_comma. }
  split; [reflexivity|]. split; [exact Hp|]. split.
  - intros Hr. unfold fileToBase64. rewrite Hr, Hp. reflexivity.
  - exists (Base64.encode (bytes file)). rewrite Hp. split.
    + unfold request_body, get. rewrite lookup_insert_eq. reflexivity.
    + apply decode_encode.
Qed.

Lemma C7_witness :
  base64_of_dataURL
    (readAsDataURL {| type := "image/png";
                      bytes := [Byte.x89; Byte.x50; Byte.x4e; Byte.x47] |})
  = Some "iVBORw==" /\
  Base64.decode "iVBORw==" = Some [Byte.x89; Byte.x50; Byte.x4e; Byte.x47].
Proof.
  destruct (C7_image_round_trip
              {| read_fails := fun _ => false;
                 fetch := fun _ _ => NetworkError "offline" |}
              {| type := "image/png";
                 bytes := [Byte.x89; Byte.x50; Byte.x4e; Byte.x47] |})
    as (_ & Hp & _ & _).
  - reflexivity.
  - split; [exact Hp | reflexivity].
Defined.

(** ** The client: showing a failure *)

Section Failure.

Variable b : Browser.
Variable p : Page.
Variable file : File.
Hypothesis selected : selectedImageFile p = Some file.

Lemma analyzeImage_thrown (message : option string) :
  analyze_attempt b file (set_button true true false p) = Thrown message ->
  in_view Error (analyzeImage b p) /\
  errorMessage_textContent (analyzeImage b p)
  = message_or message
      "Failed to analyze the image. Please make sure the server is running and try again.".
Proof.
  intros H. unfold analyzeImage. rewrite selected, H. split; reflexivity.
Qed.

Lemma attempt_not_ok (status : Z) (errorData : gmap string jsval) :
  read_fails b file = false ->
  sent b file = HttpResponse status (Json errorData) ->
  ok status = false ->
  forall q,
    analyze_attempt b file q =
    Thrown (Some (ToString (or_else (get errorData "detail")
                                    (JStr "Failed to analyze image")))).
Proof.
  intros Hr Hs Hok q. unfold analyze_attempt, fileToBase64.
  rewrite Hr. unfold sent in Hs. rewrite Hs, Hok. reflexivity.
Qed.

Lemma attempt_network_error (message : string) :
  read_fails b file = false ->
  sent b file = NetworkError message ->
  forall q, analyze_attempt b file q = Thrown (Some message).
Proof.
  intros Hr Hs q. unfold analyze_attempt, fileToBase64.
  rewrite Hr. unfold sent in Hs. rewrite Hs. reflexivity.
Qed.

End Failure.

(** The relay always answers, and its error bodies have no [detail]
    field. *)
Lemma serve_answers (h : Host) (req : gmap string jsval) :
  exists r tr, serve h req = (Normal r, tr) /\
               (status r = 200 \/ body r !! "detail" = None).
Proof.
  destruct (truthy (get req "image")) eqn:Hi.
  2:{ eexists _, _. split; [apply serve_no_image; exact Hi|]. right. reflexivity. }
  destruct (key_not_configured (GEMINI_API_KEY h)) eqn:Hk.
  { eexists _, _. split; [apply serve_not_configured; assumption|].
    right. reflexivity. }
  destruct (upstream_reply h req) as [t|message] eqn:Hu.
  - eexists _, _. split; [apply serve_success; eassumption|]. left. reflexivity.
  - eexists _, _. split; [apply serve_failure; eassumption|]. right. reflexivity.
Qed.

(** C8 as worded fails: the client reads the field [detail], the relay
    of [server.js] writes its message under [error]; so a message the
    relay did provide is not the one displayed. *)
Lemma C8_relay_message_not_displayed :
  ~ (forall (b : Browser) (p : Page) (file : File) (status : Z)
            (errorData : gmap string jsval) (message : string),
       selectedImageFile p = Some file ->
       read_fails b file = false ->
       sent b file = HttpResponse status (Json errorData) ->
       ok status = false ->
       errorData !! "error" = Some (JStr message) ->
       in_view Error (analyzeImage b p) /\
       errorMessage_textContent (analyzeImage b p) = message).
Proof.
  intros H.
  pose (h := {| GEMINI_API_KEY := None;
                gemini := fun _ _ _ _ => Text "a cat";
                now := 0 |}).
  pose (file := {| type := "image/png";
                   bytes := [Byte.x89; Byte.x50; Byte.x4e; Byte.x47] |}).
  pose (p := {| selectedImage := Some (readAsDataURL file);
                selectedImageFile := Some file;
                hidden := sections_of Preview;
                previewImage_src := readAsDataURL file;
                errorMessage_textContent := EmptyString;
                descriptionContent_innerHTML := EmptyString;
                imageInput_value := EmptyString;
                analyzeBtn_disabled := false;
                btn_text_hidden := false;
                btn_loader_hidden := true |}).
  destruct (H (relay_browser h) p file 500
              {[ "error" := JStr "GEMINI_API_KEY not configured. Please add your API key to the .env file" ]}
              "GEMINI_API_KEY not configured. Please add your API key to the .env file")
    as [_ Hm]; try reflexivity.
  vm_compute in Hm. discriminate Hm.
Qed.

(** C8, amended: a failed call always ends in the Error view.  After a
    non-2xx response the text shown is the body's [detail] field when
    that is a non-empty string, and the generic "Failed to analyze
    image" when the body has no [detail] field, which is the case for
    every error answer of the relay of [server.js].  After a network
    exception the text shown is the exception's message, or the long
    fallback when that message is empty. *)
Theorem C8_failure_display (b : Browser) (p : Page) (file : File) :
  selectedImageFile p = Some file ->
  read_fails b file = false ->
  (forall status payload,
     sent b file = HttpResponse status payload -> ok status = false ->
     in_view Error (analyzeImage b p)) /\
  (forall status errorData detail,
     sent b file = HttpResponse status (Json errorData) -> ok status = false ->
     errorData !! "detail" = Some (JStr detail) -> detail <> EmptyString ->
     in_view Error (analyzeImage b p) /\
     errorMessage_textContent (analyzeImage b p) = detail) /\
  (forall status errorData,
     sent b file = HttpResponse status (Json errorData) -> ok status = false ->
     errorData !! "detail" = None ->
     in_view Error (analyzeImage b p) /\
     errorMessage_textContent (analyzeImage b p) = "Failed to analyze image") /\
  (forall h,
     fetch b = fetch (relay_browser h) ->
     (exists status errorData,
        sent b file = HttpResponse status (Json errorData)) /\
     (forall status errorData,
        sent b file = HttpResponse status (Json errorData) -> ok status = false ->
        in_view Error (analyzeImage b p) /\
        errorMessage_textContent (analyzeImage b p) = "Failed to analyze image")) /\
  (forall message,
     sent b file = NetworkError message ->
     in_view Error (analyzeImage b p) /\
     errorMessage_textContent (analyzeImage b p)
     = if String.eqb message EmptyString then
         "Failed to analyze the image. Please make sure the server is running and try again."
       else message).
Proof.
  intros Hsel Hr.
  assert (Hdetail : forall status errorData,
            sent b file = HttpResponse status (Json errorData) ->
            ok status = false -> errorData !! "detail" = None ->
            in_view Error (analyzeImage b p) /\
            errorMessage_textContent (analyzeImage b p)
            = "Failed to analyze image").
  { intros status errorData Hs Hok Hd.
    destruct (analyzeImage_thrown b p file Hsel _
                (attempt_not_ok b file status errorData Hr Hs Hok _))
      as [Hv Ht].
    split; [exact Hv|]. rewrite Ht. unfold get. rewrite Hd. reflexivity. }
  split; [|split; [|split; [exact Hdetail|split]]].
  - intros status payload Hs Hok.
    assert (Ht : exists message,
              analyze_attempt b file (set_button true true false p)
              = Thrown message).
    { unfold analyze_attempt, fileToBase64. rewrite Hr.
      unfold sent in Hs. rewrite Hs, Hok.
      destruct payload; eexists; reflexivity. }
    destruct Ht as [message Ht].
    apply (analyzeImage_thrown b p file Hsel message Ht).
  - intros status errorData detail Hs Hok Hd Hne.
    destruct (analyzeImage_thrown b p file Hsel _
                (attempt_not_ok b file status errorData Hr Hs Hok _))
      as [Hv Ht].
    split; [exact Hv|]. rewrite Ht. unfold get, or_else. rewrite Hd.
    apply String.eqb_neq in Hne.
    unfold default, from_option, id, truthy. rewrite Hne.
    cbn [negb ToString message_or]. rewrite Hne. reflexivity.
  - intros h Hf.
    set (request := request_body (base64_of_dataURL (readAsDataURL file))
                                 (type file)).
    destruct (serve_answers h request) as (r & tr & Hserve & Hbody).
    assert (Hsent : sent b file = HttpResponse (status r) (Json (body r))).
    { unfold sent. rewrite Hf. cbn [fetch relay_browser].
      fold request. rewrite Hserve. reflexivity. }
    split; [eauto|].
    intros status errorData Hs Hok. rewrite Hsent in Hs.
    injection Hs as <- <-.
    apply (Hdetail (status r) (body r) Hsent Hok).
    destruct Hbody as [H200 | Hnone]; [|exact Hnone].
    rewrite H200 in Hok. discriminate Hok.
  - intros message Hs.
    destruct (analyzeImage_thrown b p file Hsel _
                (attempt_network_error b file message Hr Hs _)) as [Hv Ht].
    split; [exact Hv|]. rewrite Ht. reflexivity.
Qed.

Lemma C8_witness :
  let file := {| type := "image/png";
                 bytes := [Byte.x89; Byte.x50; Byte.x4e; Byte.x47] |} in
  let p := {| selectedImage := Some (readAsDataURL file);
              selectedImageFile := Some file;
              hidden := sections_of Preview;
              previewImage_src := readAsDataURL file;
              errorMessage_textContent := EmptyString;
              descriptionContent_innerHTML := EmptyString;
              imageInput_value := EmptyString;
              analyzeBtn_disabled := false;
              btn_text_hidden := false;
              btn_loader_hidden := true |} in
  let b := {| read_fails := fun _ => false;
              fetch := fun _ _ =>
                HttpResponse 500 (Json {[ "detail" := JStr "API quota exceeded" ]}) |} in
  in_view Error (analyzeImage b p) /\
  errorMessage_textContent (analyzeImage b p) = "API quota exceeded".
Proof.
  intros file p b.
  destruct (C8_failure_display b p file eq_refl eq_refl) as (_ & Hd & _).
  apply (Hd 500 {[ "detail" := JStr "API quota exceeded" ]}).
  - reflexivity.
  - reflexivity.
  - reflexivity.
  - discriminate.
Defined.

(** ** The client: rendering the description *)

Example formatDescription_sample :
  formatDescription
    ("## Main Subject" ++ String "010"
     ("A **tabby cat** on a sofa" ++ String "010"
      (String "010"
       ("- warm light" ++ String "010"
        ("2. soft focus" ++ String "010" "Calm."))))) =
  h4 "Main Subject" ++ paragraph ("A " ++ strong "tabby cat" ++ " on a sofa")
  ++ li "warm light" ++ li "soft focus" ++ paragraph "Calm.".
Proof. reflexivity. Qed.

Example replace_bold_samples :
  replace_bold "a ** b ** c ** d" = "a " ++ strong " b " ++ " c ** d" /\
  replace_bold "***a**" = strong "*a" /\
  replace_bold "**a***b**" = strong "a" ++ "*b**" /\
  replace_bold "****" = strong EmptyString /\
  replace_bold ("**a" ++ String "013" "b**") = "**a" ++ String "013" "b**".
Proof. repeat split. Qed.

Example formatParagraph_indented_heading :
  formatParagraph "  ## Mood" = h4 "  ## Mood".
Proof. reflexivity. Qed.

Section BoldSpans.

Lemma replace_bold_cons (c : ascii) (r : string) :
  replace_bold (String c r) =
  match match_bold (String c r) with
  | Some (inner, after) => strong inner ++ replace_bold after
  | None => String c (replace_bold r)
  end.
Proof.
  rewrite replace_bold_unfold_eq. unfold replace_bold_unfold.
  simpl. unfold inspect.
  destruct (match_bold (String c r)) as [[i a]|]; reflexivity.
Qed.

Lemma after_stars_spec (s rest : string) :
  after_stars s = Some rest <-> s = String "*" (String "*" rest).
Proof.
  destruct s as [|c1 [|c2 r]]; cbn; try (split; discriminate).
  destruct (Ascii.eqb_spec c1 "*") as [->|H1];
    [destruct (Ascii.eqb_spec c2 "*") as [->|H2]|]; cbn.
  - split; intros [= ->]; reflexivity.
  - split; [discriminate | intros [= ? ?]; congruence].
  - split; [discriminate | intros [= ? ?]; congruence].
Qed.

(** [after_stars] looks at two characters only. *)
Lemma after_stars_head (c : ascii) (s : string) :
  after_stars (String c s) <> None -> is_star c = true /\ head_is is_star s = true.
Proof.
  destruct s as [|d s]; cbn; [congruence|].
  unfold is_star.
  destruct (Ascii.eqb c "*"), (Ascii.eqb d "*"); cbn; intros H; auto; congruence.
Qed.

Lemma after_stars_none (c : ascii) (s : string) :
  is_star c = false \/ head_is is_star s = false ->
  after_stars (String c s) = None.
Proof.
  intros H. destruct (after_stars (String c s)) eqn:E; [|reflexivity].
  destruct (after_stars_head c s) as [H1 H2]; [congruence|].
  destruct H; congruence.
Qed.

(** The rendering of [r] starts with a star only if [r] does. *)
Lemma head_replace_bold (r : string) :
  head_is is_star r = false -> head_is is_star (replace_bold r) = false.
Proof.
  destruct r as [|d r]; [reflexivity|]. intros H.
  rewrite replace_bold_cons.
  destruct (match_bold (String d r)) as [[i a]|]; [reflexivity | exact H].
Qed.

Lemma after_stars_replace_bold (c : ascii) (r : string) :
  after_stars (String c r) = None ->
  after_stars (String c (replace_bold r)) = None.
Proof.
  intros H. apply after_stars_none.
  destruct (is_star c) eqn:Hc; [right | left; reflexivity].
  apply head_replace_bold.
  destruct (head_is is_star r) eqn:Hr; [|reflexivity].
  destruct r as [|d r]; [discriminate|].
  cbn in H. unfold is_star in Hc, Hr. cbn in Hr. rewrite Hc, Hr in H.
  discriminate.
Qed.

Lemma closing_none_inv (c : ascii) (r : string) :
  closing (String c r) = None ->
  after_stars (String c r) = None /\
  (is_line_terminator c = true \/ closing r = None).
Proof.
  cbn [closing]. destruct (after_stars (String c r)); [discriminate|].
  intros H. split; [reflexivity|].
  destruct (is_line_terminator c); [left; reflexivity | right].
  destruct (closing r) as [[i a]|]; [discriminate | reflexivity].
Qed.

Lemma match_bold_of_closing_none (t : string) :
  closing t = None -> match_bold t = None.
Proof.
  unfold match_bold. destruct t as [|c r]; [reflexivity|].
  intros H. apply closing_none_inv in H as [-> _]. reflexivity.
Qed.

(** A search for the closing [**] that fails still fails after the
    replacement. *)
Lemma closing_replace_bold (t : string) :
  closing t = None -> closing (replace_bold t) = None.
Proof.
  induction t as [|c r IH]; intros H.
  - reflexivity.
  - rewrite replace_bold_cons, (match_bold_of_closing_none _ H).
    apply closing_none_inv in H as [Ha Hc].
    cbn [closing]. rewrite (after_stars_replace_bold c r Ha).
    destruct Hc as [-> | Hc]; [reflexivity|].
    rewrite (IH Hc). destruct (is_line_terminator c); reflexivity.
Qed.

(** Where the expression does not match, it does not match the
    rendering either. *)
Lemma match_bold_replace_bold (c : ascii) (r : string) :
  match_bold (String c r) = None ->
  match_bold (String c (replace_bold r)) = None.
Proof.
  unfold match_bold at 1.
  destruct (after_stars (String c r)) as [r2|] eqn:Ha.
  - intros Hc. apply after_stars_spec in Ha. injection Ha as -> ->.
    assert (Hm : match_bold (String "*" r2) = None).
    { unfold match_bold. destruct (after_stars (String "*" r2)) as [r3|] eqn:Hb;
        [|reflexivity].
      apply after_stars_spec in Hb. injection Hb as ->.
      apply closing_none_inv in Hc as [_ [Hlt | Hc]]; [discriminate | exact Hc]. }
    rewrite replace_bold_cons, Hm.
    unfold match_bold. cbn [after_stars Ascii.eqb Bool.eqb andb].
    apply closing_replace_bold, Hc.
  - intros _. unfold match_bold.
    rewrite (after_stars_replace_bold c r Ha). reflexivity.
Qed.

Lemma has_bold_pair_cons (c : ascii) (s : string) :
  has_bold_pair (String c s) =
  match match_bold (String c s) with
  | Some _ => true
  | None => has_bold_pair s
  end.
Proof. reflexivity. Qed.

Lemma has_bold_pair_quiet (u v : string) :
  quiet u v -> has_bold_pair (u ++ v) = has_bold_pair v.
Proof.
  induction u as [|c u IH]; [reflexivity|].
  intros [Ha Hq]. rewrite append_cons, has_bold_pair_cons.
  unfold match_bold. rewrite Ha. exact (IH Hq).
Qed.

Lemma quiet_app (u1 u2 v : string) :
  quiet u1 (u2 ++ v) -> quiet u2 v -> quiet (u1 ++ u2) v.
Proof.
  induction u1 as [|c u1 IH]; [auto|].
  intros [Ha Hq] H2. rewrite append_cons. split.
  - rewrite append_assoc. exact Ha.
  - exact (IH Hq H2).
Qed.

Lemma star_free_quiet (u v : string) : star_free u = true -> quiet u v.
Proof.
  unfold star_free. induction u as [|c u IH]; [constructor|].
  cbn [list_ascii_of_string forallb]. intros H.
  apply andb_prop in H as [Hc H]. apply negb_true_iff in Hc. split.
  - apply after_stars_none. left. exact Hc.
  - exact (IH H).
Qed.

(** What a successful search for the closing [**] has found. *)
Lemma closing_spec (s inner after : string) :
  closing s = Some (inner, after) ->
  s = inner ++ String "*" (String "*" after) /\
  quiet inner (String "*" (String "*" after)) /\
  one_line inner = true.
Proof.
  revert inner after. induction s as [|c r IH]; intros inner after.
  - discriminate.
  - cbn [closing]. destruct (after_stars (String c r)) as [rest|] eqn:Ha.
    + intros [= <- <-]. apply after_stars_spec in Ha.
      repeat split. exact Ha.
    + destruct (is_line_terminator c) eqn:Hlt; [discriminate|].
      destruct (closing r) as [[i a]|]; [|discriminate].
      intros [= <- <-]. destruct (IH i a eq_refl) as (-> & Hq & Hl).
      rewrite append_cons. repeat split; try assumption.
      unfold one_line in *. cbn [list_ascii_of_string forallb].
      rewrite Hlt, Hl. reflexivity.
Qed.

Lemma quiet_before_tag (inner after w : string) (d : ascii) :
  is_star d = false ->
  quiet inner (String "*" (String "*" after)) -> quiet inner (String d w).
Proof.
  intros Hd. induction inner as [|c u IH]; [auto|].
  intros [Ha Hq]. split; [|exact (IH Hq)].
  destruct u as [|e u].
  - apply after_stars_none.
    destruct (is_star c); [right; exact Hd | left; reflexivity].
  - rewrite append_cons in Ha |- *. cbn [after_stars] in Ha |- *.
    destruct (Ascii.eqb c "*" && Ascii.eqb e "*"); [discriminate | reflexivity].
Qed.

Lemma quiet_strong (inner after w : string) :
  quiet inner (String "*" (String "*" after)) -> quiet (strong inner) w.
Proof.
  intros Hq. unfold strong.
  repeat (apply quiet_app; [apply star_free_quiet; reflexivity|]).
  apply quiet_app.
  - apply (quiet_before_tag inner after _ "<"); [reflexivity | exact Hq].
  - apply star_free_quiet. reflexivity.
Qed.

(** After the replacement the expression matches nowhere. *)
Lemma no_bold_pair_bounded (n : nat) (s : string) :
  (String.length s <= n)%nat -> has_bold_pair (replace_bold s) = false.
Proof.
  revert s. induction n as [|n IH]; intros s Hn.
  - destruct s; [reflexivity|].
    change (String.length (String a s)) with (S (String.length s)) in Hn. lia.
  - destruct s as [|c r]; [reflexivity|].
    change (String.length (String c r)) with (S (String.length r)) in Hn.
    rewrite replace_bold_cons.
    destruct (match_bold (String c r)) as [[inner after]|] eqn:Hm.
    + pose proof (match_bold_length _ _ _ Hm) as Hlen.
      unfold match_bold in Hm.
      destruct (after_stars (String c r)) as [r2|]; [|discriminate].
      apply closing_spec in Hm as (_ & Hq & _).
      change (String.length (String c r)) with (S (String.length r)) in Hlen.
      rewrite has_bold_pair_quiet by (apply (quiet_strong inner after), Hq).
      apply IH. lia.
    + rewrite has_bold_pair_cons, (match_bold_replace_bold c r Hm).
      apply IH. lia.
Qed.

Lemma no_bold_pair_left (s : string) : has_bold_pair (replace_bold s) = false.
Proof. apply (no_bold_pair_bounded (String.length s)). lia. Qed.

(** A pair with plain text before and inside it is replaced by a bold
    span, and the scan goes on behind it. *)
Lemma closing_found (inner post : string) :
  star_free inner = true -> one_line inner = true ->
  closing (inner ++ String "*" (String "*" post)) = Some (inner, post).
Proof.
  unfold star_free, one_line. induction inner as [|c i IH].
  - intros _ _. reflexivity.
  - cbn [list_ascii_of_string forallb]. intros Hs Hl.
    apply andb_prop in Hs as [Hc Hs]. apply andb_prop in Hl as [Hlt Hl].
    apply negb_true_iff in Hc, Hlt.
    rewrite append_cons. cbn [closing].
    rewrite after_stars_none by (left; exact Hc).
    rewrite Hlt, (IH Hs Hl). reflexivity.
Qed.

Lemma replace_bold_pair (pre inner post : string) :
  star_free pre = true -> star_free inner = true -> one_line inner = true ->
  replace_bold (pre ++ String "*" (String "*" (inner ++ String "*" (String "*" post))))
  = pre ++ strong inner ++ replace_bold post.
Proof.
  intros Hp Hi Hl. unfold star_free in Hp. induction pre as [|c pre IH].
  - change (EmptyString ++ ?x) with x. rewrite replace_bold_cons.
    unfold match_bold. cbn [after_stars Ascii.eqb Bool.eqb andb].
    rewrite (closing_found inner post Hi Hl). reflexivity.
  - cbn [list_ascii_of_string forallb] in Hp.
    apply andb_prop in Hp as [Hc Hp]. apply negb_true_iff in Hc.
    rewrite !append_cons, replace_bold_cons. unfold match_bold.
    rewrite after_stars_none by (left; exact Hc).
    rewrite (IH Hp). reflexivity.
Qed.

End BoldSpans.

Section Headings.

Lemma startsWith_char (c : ascii) (s : string) :
  startsWith s (String c EmptyString) = head_is (Ascii.eqb c) s.
Proof.
  destruct s as [|d s]; [reflexivity|].
  unfold startsWith. cbn [String.prefix head_is].
  destruct (Ascii.ascii_dec c d) as [->|Hne].
  - rewrite Ascii.eqb_refl. destruct s; reflexivity.
  - symmetry. apply Ascii.eqb_neq. exact Hne.
Qed.

Lemma head_trim (f : ascii -> bool) (c : ascii) (r : string) :
  is_whitespace c = false -> head_is f (trim (String c r)) = f c.
Proof.
  intros Hc. unfold trim, trimStart. cbn [dropWhile]. rewrite Hc.
  cbn [trimEnd]. rewrite Hc. destruct (trimEnd r); reflexivity.
Qed.

Lemma head_dropWhile (f : ascii -> bool) (s : string) :
  head_is f (dropWhile f s) = false.
Proof.
  induction s as [|c s IH]; [reflexivity|].
  cbn [dropWhile]. destruct (f c) eqn:Hc; [exact IH | exact Hc].
Qed.

(** What [dropWhile] removes is a run of characters satisfying [f]. *)
Lemma dropWhile_run (f : ascii -> bool) (s : string) :
  exists run, s = run ++ dropWhile f s /\
              forallb f (list_ascii_of_string run) = true.
Proof.
  induction s as [|c s (run & Hs & Hrun)].
  - exists EmptyString. split; reflexivity.
  - cbn [dropWhile]. destruct (f c) eqn:Hc.
    + exists (String c run). rewrite append_cons, <- Hs. split; [reflexivity|].
      cbn [list_ascii_of_string forallb]. rewrite Hc. exact Hrun.
    + exists EmptyString. split; reflexivity.
Qed.

End Headings.

(** C9 as worded fails: a heading line goes through the heading branch
    only, so bold markers inside it are kept as they are. *)
Lemma C9_heading_keeps_bold_markers :
  ~ (forall text : string,
       has_bold_pair (formatDescription text) = false /\
       (forall p, In p (paragraphs text) ->
          head_is is_hash (trim p) = true ->
          head_is is_hash (strip_heading_marker p) = false)).
Proof.
  intros H. destruct (H "## **Main Subject**") as [Hb _].
  vm_compute in Hb. discriminate Hb.
Qed.

(** C9, amended: the output is the concatenation of the renderings of
    the non-blank lines.  A line whose first character is [#] becomes a
    heading from which the leading run of [#] and the white space after
    it are removed.  A line that is not a heading and contains [**]
    becomes a paragraph in which the bold expression matches nowhere any
    more; scanning from the left, a pair around plain text is replaced
    by a bold span. *)
Theorem C9_rendering (text : string) :
  formatDescription text = join (List.map formatParagraph (paragraphs text)) /\
  (forall p, In p (paragraphs text) -> startsWith p "#" = true ->
     exists hashes spaces heading,
       p = hashes ++ spaces ++ heading /\
       hashes <> EmptyString /\
       forallb is_hash (list_ascii_of_string hashes) = true /\
       forallb is_whitespace (list_ascii_of_string spaces) = true /\
       head_is is_hash (spaces ++ heading) = false /\
       head_is is_whitespace heading = false /\
       formatParagraph p = h4 heading) /\
  (forall p, In p (paragraphs text) ->
     startsWith (trim p) "#" = false -> includes p "**" = true ->
     formatParagraph p = paragraph (replace_bold p) /\
     has_bold_pair (replace_bold p) = false) /\
  (forall pre inner post,
     star_free pre = true -> star_free inner = true -> one_line inner = true ->
     replace_bold (pre ++ "**" ++ inner ++ "**" ++ post)
     = pre ++ strong inner ++ replace_bold post).
Proof.
  split; [reflexivity|]. split; [|split].
  - intros p _ Hp.
    destruct (dropWhile_run is_hash p) as (hashes & Hh & Hhashes).
    destruct (dropWhile_run is_whitespace (dropWhile is_hash p))
      as (spaces & Hs & Hspaces).
    exists hashes, spaces, (dropWhile is_whitespace (dropWhile is_hash p)).
    rewrite <- Hs. repeat split; try assumption.
    + intros ->. rewrite startsWith_char in Hp.
      change (EmptyString ++ dropWhile is_hash p) with (dropWhile is_hash p) in Hh.
      rewrite Hh in Hp.
      change (Ascii.eqb "#") with is_hash in Hp.
      rewrite head_dropWhile in Hp. discriminate Hp.
    + apply head_dropWhile.
    + apply head_dropWhile.
    + unfold formatParagraph, strip_heading_marker. rewrite Hp.
      assert (Ht : startsWith (trim p) "#" = true).
      { rewrite startsWith_char in Hp |- *.
        destruct p as [|c r]; [discriminate|]. cbn [head_is] in Hp.
        apply Ascii.eqb_eq in Hp. subst c.
        rewrite head_trim by reflexivity. reflexivity. }
      rewrite Ht. reflexivity.
  - intros p _ Hh Hb. unfold formatParagraph. rewrite Hh, Hb.
    split; [reflexivity | apply no_bold_pair_left].
  - intros pre inner post. apply replace_bold_pair.
Qed.

Lemma C9_witness :
  formatParagraph "Colors: **warm** tones and **soft** light"
  = paragraph
      ("Colors: " ++ strong "warm" ++ " tones and " ++ strong "soft" ++ " light") /\
  has_bold_pair (replace_bold "Colors: **warm** tones and **soft** light") = false /\
  formatParagraph "## Main Subject" = h4 "Main Subject".
Proof.
  destruct (C9_rendering
              ("## Main Subject" ++ String "010" "Colors: **warm** tones and **soft** light"))
    as (_ & Hheading & Hbold & _).
  destruct (Hbold "Colors: **warm** tones and **soft** light")
    as [Hp Hn].
  - right. left. reflexivity.
  - reflexivity.
  - reflexivity.
  - destruct (Hheading "## Main Subject") as (hashes & spaces & heading & _).
    + left. reflexivity.
    + reflexivity.
    + split; [|split]; [|exact Hn|]; reflexivity.
Defined.

(* ================================================================== *)
(** * Further properties                                               *)
(* ================================================================== *)

Import Deployment.

Import Routes Machine.

(** ** The relay: every request *)

Lemma truthy_false_iff (v : jsval) :
  truthy v = false <->
  v = JUndefined \/ v = JNull \/ v = JBool false \/ v = JNum 0
  \/ v = JStr EmptyString.
Proof.
  destruct v as [| |[|]|n|s|]; cbn [truthy]; split; intros H;
    try discriminate; try tauto;
    try (decompose [or] H; discriminate).
  - apply negb_false_iff, Z.eqb_eq in H. subst n. tauto.
  - decompose [or] H; try discriminate.
    match goal with E : JNum _ = JNum _ |- _ => injection E as -> end.
    reflexivity.
  - apply negb_false_iff, String.eqb_eq in H. subst s. tauto.
  - decompose [or] H; try discriminate.
    match goal with E : JStr _ = JStr _ |- _ => injection E as -> end.
    reflexivity.
Qed.

(** X1: the handler answers every request: no exception leaves it, the
    status is 200, 400 or 500, and the external model is called at most
    once, namely when the image is truthy and the credential is
    configured. *)
Theorem X1_every_request_is_answered (h : Host) (req : gmap string jsval) :
  exists r tr,
    serve h req = (Normal r, tr) /\
    (status r = 200 \/ status r = 400 \/ status r = 500) /\
    (upstream_calls tr <= 1)%nat /\
    (upstream_calls tr = 1%nat <->
     truthy (get req "image") = true /\
     key_not_configured (GEMINI_API_KEY h) = false).
Proof.
  destruct (truthy (get req "image")) eqn:Hi.
  2:{ eexists _, _. split; [apply serve_no_image; exact Hi|].
      cbn. repeat split; try tauto; try lia;
        first [discriminate | intros [? ?]; discriminate]. }
  destruct (key_not_configured (GEMINI_API_KEY h)) eqn:Hk.
  { eexists _, _. split; [apply serve_not_configured; assumption|].
    cbn. repeat split; try tauto; try lia;
      first [discriminate | intros [? ?]; discriminate]. }
  destruct (upstream_reply h req) as [t|message] eqn:Hu.
  - eexists _, _. split; [apply serve_success; eassumption|].
    unfold upstream_calls, upstream_event. cbn. repeat split; auto.
  - eexists _, _. split; [apply serve_failure; eassumption|].
    unfold upstream_calls, upstream_event. cbn. repeat split; auto.
Qed.

(** X2: the status tells what happened, for every request.  400 is
    answered exactly when the body was parsed and its [image] field is
    falsy: missing, [null], [false], [0] or the empty string; 200
    exactly when the body was parsed, the image is truthy, the
    credential configured and the external model returned a text; and a
    request without a parsed body is answered by the [catch], with 500
    and the message of the TypeError as [details]. *)
Theorem X2_status_meaning
    (h : Host) (req_body : option (gmap string jsval))
    (r : Response) (tr : list event) :
  serve_request h req_body = (Normal r, tr) ->
  (status r = 400 <->
   exists req, req_body = Some req /\
     (get req "image" = JUndefined \/ get req "image" = JNull \/
      get req "image" = JBool false \/ get req "image" = JNum 0 \/
      get req "image" = JStr EmptyString)) /\
  (status r = 200 <->
   exists req, req_body = Some req /\
     truthy (get req "image") = true /\
     key_not_configured (GEMINI_API_KEY h) = false /\
     exists t, upstream_reply h req = Text t) /\
  (req_body = None -> r = no_body_response).
Proof.
  intros Hs. destruct req_body as [req|].
  2:{ rewrite serve_without_body in Hs. injection Hs as <- <-.
      cbn [status no_body_response].
      split; [|split]; [split | split | reflexivity];
        first [discriminate | intros (req & Hreq & _); discriminate Hreq]. }
  change (serve_request h (Some req)) with (serve h req) in Hs.
  assert (Hex : forall P : gmap string jsval -> Prop,
            (exists req', Some req = Some req' /\ P req') <-> P req).
  { intros P. split; [intros (req' & Heq & HP); injection Heq as <-; exact HP
                     | intros HP; exists req; split; [reflexivity | exact HP]]. }
  rewrite (Hex (fun q => get q "image" = JUndefined \/ get q "image" = JNull \/
                         get q "image" = JBool false \/ get q "image" = JNum 0 \/
                         get q "image" = JStr EmptyString)).
  rewrite (Hex (fun q => truthy (get q "image") = true /\
                         key_not_configured (GEMINI_API_KEY h) = false /\
                         exists t, upstream_reply h q = Text t)).
  rewrite <- truthy_false_iff.
  split; [|split]; [| |discriminate].
  - destruct (truthy (get req "image")) eqn:Hi.
    2:{ rewrite (serve_no_image h req Hi) in Hs. injection Hs as <- <-.
        cbn. tauto. }
    destruct (key_not_configured (GEMINI_API_KEY h)) eqn:Hk.
    { rewrite (serve_not_configured h req Hi Hk) in Hs. injection Hs as <- <-.
      cbn. split; discriminate. }
    destruct (upstream_reply h req) as [t|message] eqn:Hu.
    + rewrite (serve_success h req t Hi Hk Hu) in Hs. injection Hs as <- <-.
      cbn. split; discriminate.
    + rewrite (serve_failure h req message Hi Hk Hu) in Hs. injection Hs as <- <-.
      cbn. split; discriminate.
  - destruct (truthy (get req "image")) eqn:Hi.
    2:{ rewrite (serve_no_image h req Hi) in Hs. injection Hs as <- <-.
        cbn. split; [discriminate | intros (H & _); discriminate]. }
    destruct (key_not_configured (GEMINI_API_KEY h)) eqn:Hk.
    { rewrite (serve_not_configured h req Hi Hk) in Hs. injection Hs as <- <-.
      cbn. split; [discriminate | intros (_ & H & _); discriminate]. }
    destruct (upstream_reply h req) as [t|message] eqn:Hu.
    + rewrite (serve_success h req t Hi Hk Hu) in Hs. injection Hs as <- <-.
      cbn. split; eauto.
    + rewrite (serve_failure h req message Hi Hk Hu) in Hs. injection Hs as <- <-.
      cbn. split; [discriminate | intros (_ & _ & t & Ht); discriminate].
Qed.

Lemma X2_witness :
  exists r tr,
    serve_request {| GEMINI_API_KEY := Some "AIzaSy-test";
                     gemini := fun _ _ _ _ => Text "a cat";
                     now := 0 |} (Some {[ "image" := JNum 0 ]})
    = (Normal r, tr) /\
    status r = 400.
Proof.
  pose (h := {| GEMINI_API_KEY := Some "AIzaSy-test";
                gemini := fun _ _ _ _ => Text "a cat";
                now := 0 |}).
  pose (req := ({[ "image" := JNum 0 ]} : gmap string jsval)).
  assert (Hs : serve_request h (Some req) = (Normal no_image_response, []))
    by (apply (serve_no_image h req); reflexivity).
  exists no_image_response, []. split; [exact Hs|].
  apply (proj1 (X2_status_meaning h (Some req) _ _ Hs)).
  exists req. split; [reflexivity|].
  right. right. right. left. reflexivity.
Defined.

(** X3: a request that passes both checks produces exactly this trace:
    the start line, one call to the model "gemini-1.5-flash" with the
    fixed prompt, the [image] value as it came (whatever its type) and
    the [mimeType] value if truthy, "image/jpeg" otherwise, and then
    either the completion line or the error line with the raw upstream
    message. *)
Theorem X3_upstream_call_and_log
    (h : Host) (req : gmap string jsval) :
  truthy (get req "image") = true ->
  key_not_configured (GEMINI_API_KEY h) = false ->
  let mime := if truthy (get req "mimeType") then get req "mimeType"
              else JStr "image/jpeg" in
  let call := generateContent "gemini-1.5-flash" prompt (get req "image") mime in
  (forall t, gemini h "gemini-1.5-flash" prompt (get req "image") mime = Text t ->
     snd (serve h req) =
     [console_log "📸 Analyzing image with Gemini AI..."; call;
      console_log "✅ Analysis complete"]) /\
  (forall message,
     gemini h "gemini-1.5-flash" prompt (get req "image") mime = Failure message ->
     snd (serve h req) =
     [console_log "📸 Analyzing image with Gemini AI..."; call;
      console_error "❌ Error analyzing image:" message]) /\
  (req !! "mimeType" = None -> mime = JStr "image/jpeg").
Proof.
  intros Hi Hk mime call. repeat split.
  - intros t Ht. rewrite (serve_success h req t Hi Hk Ht). reflexivity.
  - intros message Hm. rewrite (serve_failure h req message Hi Hk Hm).
    reflexivity.
  - intros Hnone. subst mime. unfold get. rewrite Hnone. reflexivity.
Qed.

Lemma X3_witness :
  snd (serve {| GEMINI_API_KEY := Some "AIzaSy-test";
                gemini := fun _ _ _ _ => Text "a cat";
                now := 0 |} {[ "image" := JNum 7 ]}) =
  [console_log "📸 Analyzing image with Gemini AI...";
   generateContent "gemini-1.5-flash" prompt (JNum 7) (JStr "image/jpeg");
   console_log "✅ Analysis complete"].
Proof.
  destruct (X3_upstream_call_and_log
              {| GEMINI_API_KEY := Some "AIzaSy-test";
                 gemini := fun _ _ _ _ => Text "a cat";
                 now := 0 |} {[ "image" := JNum 7 ]})
    as (H & _ & _); [reflexivity | reflexivity |].
  apply (H "a cat"). reflexivity.
Defined.

Lemma key_not_configured_iff (k : option string) :
  key_not_configured k = true <->
  k = None \/ k = Some EmptyString \/ k = Some placeholder.
Proof.
  destruct k as [s|]; cbn [key_not_configured].
  - rewrite orb_true_iff, !String.eqb_eq. split.
    + intros [-> | ->]; auto.
    + intros [H | [H | H]]; try discriminate; injection H as ->; auto.
  - tauto.
Qed.

Lemma serve_not_configured_iff (h : Host) (req : gmap string jsval) :
  fst (serve h req) = Normal not_configured_response <->
  truthy (get req "image") = true /\
  key_not_configured (GEMINI_API_KEY h) = true.
Proof.
  destruct (truthy (get req "image")) eqn:Hi.
  2:{ rewrite (serve_no_image h req Hi). cbn [fst]. split.
      - intros H. discriminate H.
      - intros [H _]. discriminate H. }
  destruct (key_not_configured (GEMINI_API_KEY h)) eqn:Hk.
  { rewrite (serve_not_configured h req Hi Hk). tauto. }
  destruct (upstream_reply h req) as [t|message] eqn:Hu.
  - rewrite (serve_success h req t Hi Hk Hu). cbn [fst]. split.
    + intros H. discriminate H.
    + intros [_ H]. discriminate H.
  - rewrite (serve_failure h req message Hi Hk Hu). cbn [fst]. split.
    + intros H. discriminate H.
    + intros [_ H]. discriminate H.
Qed.

(** X4: the configuration error is answered exactly when the image is
    truthy and the credential is absent, the empty string or the
    placeholder. *)
Theorem X4_configuration_error_iff (h : Host) (req : gmap string jsval) :
  fst (serve h req) = Normal not_configured_response <->
  truthy (get req "image") = true /\
  (GEMINI_API_KEY h = None \/ GEMINI_API_KEY h = Some EmptyString \/
   GEMINI_API_KEY h = Some placeholder).
Proof.
  rewrite <- key_not_configured_iff. apply serve_not_configured_iff.
Qed.

Lemma X4_witness :
  fst (serve {| GEMINI_API_KEY := Some EmptyString;
                gemini := fun _ _ _ _ => Text "a cat";
                now := 0 |} {[ "image" := JStr "aGk=" ]})
  = Normal not_configured_response.
Proof.
  apply X4_configuration_error_iff. split; [reflexivity|].
  right. left. reflexivity.
Defined.

(** ** The relay: health route and start-up report *)

(** X5: the health route answers 200 with status "OK" and an ISO-8601
    time stamp, writes nothing to the trace, and depends on the clock
    only: it says "OK" also on a host whose credential is not
    configured. *)
Theorem X5_health_ignores_configuration (h : Host) :
  (exists s,
     health h =
       (Normal {| status := 200;
                  body := <[ "status" := JStr "OK" ]>
                          (<[ "message" := JStr "AI Image Analyzer API is running" ]>
                           {[ "timestamp" := JStr s ]}) |}, []) /\
     iso8601 s = true) /\
  (forall h', now h' = now h -> health h' = health h).
Proof.
  split.
  - exists (Date.toISOString (now h)). split; [reflexivity|].
    apply toISOString_iso8601.
  - intros h' Hn. unfold health, get_health, mbind, io_bind, Date_now.
    rewrite Hn. reflexivity.
Qed.

Lemma X5_witness :
  health {| GEMINI_API_KEY := None;
            gemini := fun _ _ _ _ => Failure "API key not valid";
            now := 1700000000000 |}
  = health {| GEMINI_API_KEY := Some "AIzaSy-test";
              gemini := fun _ _ _ _ => Text "a cat";
              now := 1700000000000 |}.
Proof.
  apply (X5_health_ignores_configuration
           {| GEMINI_API_KEY := Some "AIzaSy-test";
              gemini := fun _ _ _ _ => Text "a cat";
              now := 1700000000000 |}).
  reflexivity.
Defined.

Lemma startup_log_eq (h : Host) (env_PORT : option string) :
  startup_log h env_PORT =
  ([console_log EmptyString;
    console_log "🚀 ============================================";
    console_log "   AI Image Analyzer Server";
    console_log "   ============================================";
    console_log ("   📡 Server running on: http://localhost:" ++ PORT env_PORT);
    console_log ("   🔑 API Key configured: "
                 ++ (if key_present (GEMINI_API_KEY h) then "✅ Yes" else "❌ No"));
    console_log "   ============================================";
    console_log EmptyString]
   ++ (if key_not_configured (GEMINI_API_KEY h) then
         [console_log warning_line;
          console_log "   Please add your API key to the .env file";
          console_log EmptyString]
       else []))%list.
Proof.
  unfold startup_log, listening, mbind, io_bind, emit, getenv. cbn [app].
  destruct (key_not_configured (GEMINI_API_KEY h)); reflexivity.
Qed.

(** X6: the start-up report prints the warning exactly when the
    credential is not configured, that is exactly when every request
    with an image would be answered with the configuration error; with
    the placeholder as credential it prints both "Yes" and the
    warning. *)
Theorem X6_startup_warning (h : Host) (env_PORT : option string) :
  (In (console_log warning_line) (startup_log h env_PORT) <->
   key_not_configured (GEMINI_API_KEY h) = true) /\
  (key_not_configured (GEMINI_API_KEY h) = true <->
   forall req, truthy (get req "image") = true ->
               fst (serve h req) = Normal not_configured_response) /\
  (GEMINI_API_KEY h = Some placeholder ->
   In (console_log "   🔑 API Key configured: ✅ Yes") (startup_log h env_PORT) /\
   In (console_log warning_line) (startup_log h env_PORT)).
Proof.
  rewrite startup_log_eq. split; [|split].
  - rewrite in_app_iff. split.
    + intros [H | H].
      * exfalso. cbv [String.append] in H. cbn [In] in H.
        destruct (key_present (GEMINI_API_KEY h));
          decompose [or] H; try discriminate; try contradiction.
      * destruct (key_not_configured (GEMINI_API_KEY h));
          [reflexivity | destruct H].
    + intros ->. right. left. reflexivity.
  - split.
    + intros Hk req Hi. apply serve_not_configured_iff. auto.
    + intros H.
      apply (serve_not_configured_iff h {[ "image" := JStr "x" ]}).
      apply H. reflexivity.
  - intros Hp. rewrite Hp. split.
    + apply in_app_iff. left. cbn. tauto.
    + apply in_app_iff. right. left. reflexivity.
Qed.

Lemma X6_witness :
  In (console_log warning_line)
     (startup_log {| GEMINI_API_KEY := Some "your_gemini_api_key_here";
                     gemini := fun _ _ _ _ => Text "a cat";
                     now := 0 |} None).
Proof.
  apply (X6_startup_warning
           {| GEMINI_API_KEY := Some "your_gemini_api_key_here";
              gemini := fun _ _ _ _ => Text "a cat";
              now := 0 |} None).
  reflexivity.
Defined.

(** ** The client: one analysis *)

Section Analysis.

Variable b : Browser.

(** What an attempt does to the page does not depend on the page: it
    either throws, or shows the same markup in the Results view. *)
Lemma attempt_shape (file : File) :
  (exists message, forall q, analyze_attempt b file q = Thrown message) \/
  (exists html,
     forall q, analyze_attempt b file q
               = Ok (showResults (set_description html q))).
Proof.
  unfold analyze_attempt.
  destruct (fileToBase64 b file) as [base64Image|e]; [|left; eauto].
  destruct (fetch b endpoint (request_body base64Image (type file)))
    as [message|status payload]; [left; eauto|].
  destruct (negb (ok status)).
  - destruct payload; left; eauto.
  - destruct payload as [message|data]; [left; eauto|].
    unfold displayResults.
    destruct (get data "description"); try solve [left; eauto].
    right. eauto.
Qed.

Lemma analyzeImage_shape (p : Page) (file : File) :
  selectedImageFile p = Some file ->
  (exists text,
     analyzeImage b p =
     set_button false false true
       (showError text (set_button true true false p))) \/
  (exists html,
     analyzeImage b p =
     set_button false false true
       (showResults (set_description html (set_button true true false p)))).
Proof.
  intros Hsel. unfold analyzeImage. rewrite Hsel.
  destruct (attempt_shape file) as [[message H] | [html H]]; rewrite H.
  - left. eauto.
  - right. eauto.
Qed.

End Analysis.

(** X7: pressing Analyze with a file selected always ends in the
    Results or the Error view with the button enabled again, its text
    back and its loader hidden, and leaves the selection, the preview
    and the file input as they were; with no file selected it changes
    nothing. *)
Theorem X7_analyze_restores_button (b : Browser) (p : Page) :
  (forall file, selectedImageFile p = Some file ->
     (in_view Results (analyzeImage b p) \/ in_view Error (analyzeImage b p)) /\
     analyzeBtn_disabled (analyzeImage b p) = false /\
     btn_text_hidden (analyzeImage b p) = false /\
     btn_loader_hidden (analyzeImage b p) = true /\
     selectedImageFile (analyzeImage b p) = Some file /\
     selectedImage (analyzeImage b p) = selectedImage p /\
     previewImage_src (analyzeImage b p) = previewImage_src p /\
     imageInput_value (analyzeImage b p) = imageInput_value p) /\
  (selectedImageFile p = None -> analyzeImage b p = p).
Proof.
  split.
  - intros file Hsel.
    destruct (analyzeImage_shape b p file Hsel) as [[text ->] | [html ->]];
      cbn; rewrite Hsel; repeat split; auto;
      [right | left]; reflexivity.
  - intros Hnone. unfold analyzeImage. rewrite Hnone. reflexivity.
Qed.

Lemma X7_witness :
  let file := {| type := "image/png";
                 bytes := [Byte.x89; Byte.x50; Byte.x4e; Byte.x47] |} in
  let p := {| selectedImage := Some (readAsDataURL file);
              selectedImageFile := Some file;
              hidden := sections_of Preview;
              previewImage_src := readAsDataURL file;
              errorMessage_textContent := EmptyString;
              descriptionContent_innerHTML := EmptyString;
              imageInput_value := EmptyString;
              analyzeBtn_disabled := false;
              btn_text_hidden := false;
              btn_loader_hidden := true |} in
  let b := {| read_fails := fun _ => false;
              fetch := fun _ _ => NetworkError "Failed to fetch" |} in
  analyzeBtn_disabled (analyzeImage b p) = false.
Proof.
  intros file p b.
  destruct (X7_analyze_restores_button b p) as [H _].
  destruct (H file eq_refl) as (_ & Hd & _). exact Hd.
Defined.

Lemma analyzeImage_thrown_eq
    (b : Browser) (q : Page) (file : File) (message : option string) :
  selectedImageFile q = Some file ->
  (forall q', analyze_attempt b file q' = Thrown message) ->
  analyzeImage b q =
  set_button false false true
    (showError
       (message_or message
          "Failed to analyze the image. Please make sure the server is running and try again.")
       (set_button true true false q)).
Proof.
  intros Hsel H. unfold analyzeImage. rewrite Hsel, H. reflexivity.
Qed.

Lemma analyzeImage_ok_eq
    (b : Browser) (q : Page) (file : File) (html : string) :
  selectedImageFile q = Some file ->
  (forall q', analyze_attempt b file q'
              = Ok (showResults (set_description html q'))) ->
  analyzeImage b q =
  set_button false false true
    (showResults (set_description html (set_button true true false q))).
Proof.
  intros Hsel H. unfold analyzeImage. rewrite Hsel, H. reflexivity.
Qed.

(** X8: an analysis leaves nothing behind that changes the next one:
    analysing again, directly or after Try Again, gives the same page,
    and Try Again leads back to the Preview view. *)
Theorem X8_analyze_again (b : Browser) (p : Page) :
  analyzeImage b (analyzeImage b p) = analyzeImage b p /\
  (selectedImageFile p <> None ->
   in_view Preview (retry (analyzeImage b p)) /\
   analyzeImage b (retry (analyzeImage b p)) = analyzeImage b p).
Proof.
  destruct (selectedImageFile p) as [file|] eqn:Hsel.
  2:{ assert (H : analyzeImage b p = p)
        by (unfold analyzeImage; rewrite Hsel; reflexivity).
      rewrite !H. split; [reflexivity | congruence]. }
  destruct (attempt_shape b file) as [[message H] | [html H]].
  - rewrite (analyzeImage_thrown_eq b p file message Hsel H).
    split; [|intros _; split; [reflexivity|]].
    + rewrite (analyzeImage_thrown_eq b _ file message) by (exact Hsel || exact H).
      reflexivity.
    + rewrite (analyzeImage_thrown_eq b _ file message) by (exact Hsel || exact H).
      reflexivity.
  - rewrite (analyzeImage_ok_eq b p file html Hsel H).
    split; [|intros _; split; [reflexivity|]].
    + rewrite (analyzeImage_ok_eq b _ file html) by (exact Hsel || exact H).
      reflexivity.
    + rewrite (analyzeImage_ok_eq b _ file html) by (exact Hsel || exact H).
      reflexivity.
Qed.

Lemma X8_witness :
  let file := {| type := "image/png";
                 bytes := [Byte.x89; Byte.x50; Byte.x4e; Byte.x47] |} in
  let p := {| selectedImage := Some (readAsDataURL file);
              selectedImageFile := Some file;
              hidden := sections_of Preview;
              previewImage_src := readAsDataURL file;
              errorMessage_textContent := EmptyString;
              descriptionContent_innerHTML := EmptyString;
              imageInput_value := EmptyString;
              analyzeBtn_disabled := false;
              btn_text_hidden := false;
              btn_loader_hidden := true |} in
  let b := {| read_fails := fun _ => false;
              fetch := fun _ _ => NetworkError "Failed to fetch" |} in
  in_view Preview (retry (analyzeImage b p)).
Proof.
  intros file p b.
  destruct (X8_analyze_again b p) as [_ H].
  destruct H as [Hv _]; [discriminate | exact Hv].
Defined.

(** ** The client: picking a file *)

(** X9: a cancelled picker and a file whose type does not start with
    "image/" change nothing.  An image file that can be read is stored,
    its data URL becomes the selected image and the preview source, and
    the Preview view is shown.  An image file that cannot be read is
    stored as the selected file while the view, the selected image and
    the preview stay those of before. *)
Theorem X9_selecting_a_file (b : Browser) (p : Page) :
  handleImageSelect b None p = p /\
  (forall file, startsWith (type file) "image/" = false ->
     handleImageSelect b (Some file) p = p) /\
  (forall file, startsWith (type file) "image/" = true ->
     read_fails b file = false ->
     let p' := handleImageSelect b (Some file) p in
     in_view Preview p' /\
     selectedImageFile p' = Some file /\
     selectedImage p' = Some (readAsDataURL file) /\
     previewImage_src p'
     = "data:" ++ type file ++ ";base64," ++ Base64.encode (bytes file) /\
     analyzeBtn_disabled p' = analyzeBtn_disabled p /\
     errorMessage_textContent p' = errorMessage_textContent p /\
     descriptionContent_innerHTML p' = descriptionContent_innerHTML p) /\
  (forall file, startsWith (type file) "image/" = true ->
     read_fails b file = true ->
     let p' := handleImageSelect b (Some file) p in
     selectedImageFile p' = Some file /\
     hidden p' = hidden p /\
     selectedImage p' = selectedImage p /\
     previewImage_src p' = previewImage_src p).
Proof.
  split; [reflexivity|]. split; [|split].
  - intros file Hty. unfold handleImageSelect. rewrite Hty. reflexivity.
  - intros file Hty Hr. cbv zeta. unfold handleImageSelect, handleImageFile.
    rewrite Hty, Hr. repeat split.
  - intros file Hty Hr. cbv zeta. unfold handleImageSelect, handleImageFile.
    rewrite Hty, Hr. repeat split.
Qed.

Lemma X9_witness :
  let file := {| type := "image/png";
                 bytes := [Byte.x89; Byte.x50; Byte.x4e; Byte.x47] |} in
  let p := {| selectedImage := None;
              selectedImageFile := None;
              hidden := sections_of Upload;
              previewImage_src := EmptyString;
              errorMessage_textContent := EmptyString;
              descriptionContent_innerHTML := EmptyString;
              imageInput_value := EmptyString;
              analyzeBtn_disabled := false;
              btn_text_hidden := false;
              btn_loader_hidden := true |} in
  let b := {| read_fails := fun _ => false;
              fetch := fun _ _ => NetworkError "Failed to fetch" |} in
  in_view Preview (handleImageSelect b (Some file) p) /\
  previewImage_src (handleImageSelect b (Some file) p)
  = "data:image/png;base64,iVBORw==".
Proof.
  intros file p b.
  destruct (X9_selecting_a_file b p) as (_ & _ & H & _).
  destruct (H file eq_refl eq_refl) as (Hv & _ & _ & Hsrc & _).
  split; [exact Hv | exact Hsrc].
Defined.

(** ** The client: sequences of actions *)

Lemma settled_step (b : Browser) (a : action) (p : Page) :
  settled p -> settled (step b a p).
Proof.
  intros Hp. pose proof Hp as (Hview & Hbtn & Hfile).
  destruct a as [[file|]| | |]; cbn [step].
  - unfold handleImageSelect.
    destruct (startsWith (type file) "image/"); [|exact Hp].
    unfold handleImageFile. destruct (read_fails b file).
    + split; [exact Hview|]. split; [exact Hbtn|]. cbn. discriminate.
    + repeat split.
      * exists Preview. reflexivity.
      * exact Hbtn.
      * cbn. discriminate.
  - exact Hp.
  - destruct (selectedImageFile p) as [file|] eqn:Hsel.
    + destruct (analyzeImage_shape b p file Hsel) as [[text ->] | [html ->]].
      * repeat split; [exists Error; reflexivity | cbn; rewrite Hsel; discriminate].
      * repeat split; [exists Results; reflexivity | cbn; rewrite Hsel; discriminate].
    + unfold analyzeImage. rewrite Hsel. exact Hp.
  - repeat split.
    + exists Preview. reflexivity.
    + exact Hbtn.
    + intros [H | H]; discriminate H.
  - repeat split.
    + exists Upload. reflexivity.
    + exact Hbtn.
    + intros [H | H]; discriminate H.
Qed.

(** X10: whatever the user does and in whatever order, and whatever
    the network answers, the page stays in exactly one of the four
    views with the Analyze button enabled, and a page showing results
    or an error still has its file selected. *)
Theorem X10_views_stay_exclusive
    (b : Browser) (actions : list action) (p : Page) :
  settled p ->
  settled (run b actions p) /\
  (forall v w, in_view v (run b actions p) -> in_view w (run b actions p) ->
               v = w).
Proof.
  intros Hp.
  assert (Hs : settled (run b actions p)).
  { unfold run. revert p Hp. induction actions as [|a actions IH]; intros p Hp.
    - exact Hp.
    - cbn [fold_left]. apply IH, settled_step, Hp. }
  split; [exact Hs|].
  intros v w Hv Hw. unfold in_view in Hv, Hw. rewrite Hv in Hw.
  destruct v, w; try reflexivity; discriminate Hw.
Qed.

Lemma X10_witness :
  let file := {| type := "image/png";
                 bytes := [Byte.x89; Byte.x50; Byte.x4e; Byte.x47] |} in
  let p := {| selectedImage := None;
              selectedImageFile := None;
              hidden := sections_of Upload;
              previewImage_src := EmptyString;
              errorMessage_textContent := EmptyString;
              descriptionContent_innerHTML := EmptyString;
              imageInput_value := EmptyString;
              analyzeBtn_disabled := false;
              btn_text_hidden := false;
              btn_loader_hidden := true |} in
  let b := {| read_fails := fun _ => false;
              fetch := fun _ _ => NetworkError "Failed to fetch" |} in
  settled (run b [Select (Some file); Analyze; Retry; Analyze; Reset] p).
Proof.
  intros file p b.
  apply (X10_views_stay_exclusive b).
  repeat split.
  - exists Upload. reflexivity.
  - intros [H | H]; discriminate H.
Defined.

(** ** The client: showing a result *)

Section Display.

Variable b : Browser.
Variable p : Page.
Variable file : File.
Hypothesis selected : selectedImageFile p = Some file.
Hypothesis readable : read_fails b file = false.

Lemma attempt_ok (status : Z) (data : gmap string jsval) :
  sent b file = HttpResponse status (Json data) -> ok status = true ->
  forall q, analyze_attempt b file q
            = displayResults (get data "description") (get data "agent_used") q.
Proof.
  intros Hs Hok q. unfold analyze_attempt, fileToBase64.
  rewrite readable. unfold sent in Hs. rewrite Hs, Hok. reflexivity.
Qed.

Lemma analyzeImage_displayed (q : Page) :
  analyze_attempt b file (set_button true true false p) = Ok q ->
  analyzeImage b p = set_button false false true q.
Proof.
  intros H. unfold analyzeImage. rewrite selected, H. reflexivity.
Qed.

End Display.

(** X11: after a 2xx answer whose [description] is a string, the
    Results view shows the agent badge followed by the formatted
    description; the badge reads "LangChain + Gemini" when the answer
    has no [agent_used] field and the field's text when it is a string;
    the error text is not touched. *)
Theorem X11_result_display
    (b : Browser) (p : Page) (file : File)
    (status : Z) (data : gmap string jsval) (text : string) :
  selectedImageFile p = Some file ->
  read_fails b file = false ->
  sent b file = HttpResponse status (Json data) -> ok status = true ->
  data !! "description" = Some (JStr text) ->
  in_view Results (analyzeImage b p) /\
  errorMessage_textContent (analyzeImage b p) = errorMessage_textContent p /\
  (data !! "agent_used" = None ->
   descriptionContent_innerHTML (analyzeImage b p)
   = agentBadge "LangChain + Gemini" ++ formatDescription text) /\
  (forall agent, data !! "agent_used" = Some (JStr agent) ->
   descriptionContent_innerHTML (analyzeImage b p)
   = agentBadge agent ++ formatDescription text).
Proof.
  intros Hsel Hr Hs Hok Hd.
  pose proof (attempt_ok b file Hr status data Hs Hok
                (set_button true true false p)) as Ha.
  unfold get in Ha. rewrite Hd in Ha. cbn [default from_option id] in Ha.
  unfold displayResults in Ha.
  rewrite (analyzeImage_displayed b p file Hsel _ Ha).
  repeat split.
  - intros Hn. rewrite Hn. reflexivity.
  - intros agent Hag. rewrite Hag. reflexivity.
Qed.

Lemma X11_witness :
  let file := {| type := "image/png";
                 bytes := [Byte.x89; Byte.x50; Byte.x4e; Byte.x47] |} in
  let p := {| selectedImage := Some (readAsDataURL file);
              selectedImageFile := Some file;
              hidden := sections_of Preview;
              previewImage_src := readAsDataURL file;
              errorMessage_textContent := EmptyString;
              descriptionContent_innerHTML := EmptyString;
              imageInput_value := EmptyString;
              analyzeBtn_disabled := false;
              btn_text_hidden := false;
              btn_loader_hidden := true |} in
  let b := {| read_fails := fun _ => false;
              fetch := fun _ _ =>
                HttpResponse 200
                  (Json (<[ "description" := JStr "A cat." ]>
                         {[ "agent_used" := JStr "Demo" ]})) |} in
  descriptionContent_innerHTML (analyzeImage b p)
  = agentBadge "Demo" ++ paragraph "A cat.".
Proof.
  intros file p b.
  destruct (X11_result_display b p file 200
              (<[ "description" := JStr "A cat." ]>
               {[ "agent_used" := JStr "Demo" ]}) "A cat.")
    as (_ & _ & _ & H); [reflexivity .. |].
  apply (H "Demo"). reflexivity.
Defined.

(** X12: a 2xx answer whose [description] is missing or not a string
    never reaches the Results view: the page ends in the Error view and
    the description shown before is kept. *)
Theorem X12_result_without_description
    (b : Browser) (p : Page) (file : File)
    (status : Z) (data : gmap string jsval) :
  selectedImageFile p = Some file ->
  read_fails b file = false ->
  sent b file = HttpResponse status (Json data) -> ok status = true ->
  (forall text, get data "description" <> JStr text) ->
  in_view Error (analyzeImage b p) /\
  errorMessage_textContent (analyzeImage b p) <> EmptyString /\
  descriptionContent_innerHTML (analyzeImage b p)
  = descriptionContent_innerHTML p.
Proof.
  intros Hsel Hr Hs Hok Hd.
  assert (Ht : exists message,
            message <> EmptyString /\
            analyze_attempt b file (set_button true true false p)
            = Thrown (Some message)).
  { rewrite (attempt_ok b file Hr status data Hs Hok). unfold displayResults.
    destruct (get data "description") as [| |ok|n|text|] eqn:E;
      try (eexists; split; [|reflexivity]; discriminate).
    exfalso. apply (Hd text). reflexivity. }
  destruct Ht as (message & Hne & Ht).
  unfold analyzeImage. rewrite Hsel, Ht. cbn.
  apply String.eqb_neq in Hne. rewrite Hne.
  apply String.eqb_neq in Hne. repeat split. exact Hne.
Qed.

Lemma X12_witness :
  let file := {| type := "image/png";
                 bytes := [Byte.x89; Byte.x50; Byte.x4e; Byte.x47] |} in
  let p := {| selectedImage := Some (readAsDataURL file);
              selectedImageFile := Some file;
              hidden := sections_of Preview;
              previewImage_src := readAsDataURL file;
              errorMessage_textContent := EmptyString;
              descriptionContent_innerHTML := EmptyString;
              imageInput_value := EmptyString;
              analyzeBtn_disabled := false;
              btn_text_hidden := false;
              btn_loader_hidden := true |} in
  let b := {| read_fails := fun _ => false;
              fetch := fun _ _ =>
                HttpResponse 200 (Json {[ "success" := JBool true ]}) |} in
  in_view Error (analyzeImage b p).
Proof.
  intros file p b.
  destruct (X12_result_without_description b p file 200
              {[ "success" := JBool true ]}) as (H & _);
    [reflexivity | reflexivity | reflexivity | reflexivity | | exact H].
  intros text. discriminate.
Defined.

(** ** The client against the relay of [server.js] *)

Section EndToEnd.

Variable h : Host.
Variable file : File.

Lemma encode_nonempty :
  bytes file <> [] -> truthy (JStr (Base64.encode (bytes file))) = true.
Proof.
  destruct (bytes file) as [|x [|y [|z rest]]]; [congruence | reflexivity ..].
Qed.

Lemma request_image (payload ty : string) :
  get (request_body (Some payload) ty) "image" = JStr payload.
Proof. unfold get, request_body. rewrite lookup_insert_eq. reflexivity. Qed.

Lemma request_mimeType (payload : option string) (ty : string) :
  get (request_body payload ty) "mimeType" = JUndefined.
Proof.
  unfold get, request_body. destruct payload.
  - rewrite lookup_insert_ne by discriminate.
    rewrite lookup_singleton_ne by discriminate. reflexivity.
  - rewrite lookup_singleton_ne by discriminate. reflexivity.
Qed.

Lemma relay_sent :
  sent (relay_browser h) file =
  match serve h (request_body (base64_of_dataURL (readAsDataURL file))
                              (type file)) with
  | (Normal r, _) => HttpResponse (status r) (Json (body r))
  | (Throw message, _) => NetworkError message
  end.
Proof. reflexivity. Qed.

End EndToEnd.

(** X13: the client names the type field [mime_type], the relay reads
    [mimeType]: whatever the declared type of the file, the relay calls
    the external model with the file's base64 payload and the type
    "image/jpeg". *)
Theorem X13_declared_type_is_not_forwarded (h : Host) (file : File) :
  includes (type file) "," = false -> bytes file <> [] ->
  key_not_configured (GEMINI_API_KEY h) = false ->
  exists last,
    snd (serve h (request_body (base64_of_dataURL (readAsDataURL file))
                               (type file))) =
    [console_log "📸 Analyzing image with Gemini AI...";
     generateContent "gemini-1.5-flash" prompt
                     (JStr (Base64.encode (bytes file))) (JStr "image/jpeg");
     last].
Proof.
  intros Hty Hb Hk. unfold readAsDataURL.
  rewrite (base64_of_dataURL_payload (type file) (Base64.encode (bytes file)))
    by (apply includes_comma, Hty || apply encode_no_comma).
  set (req := request_body (Some (Base64.encode (bytes file))) (type file)).
  assert (Hi : truthy (get req "image") = true).
  { unfold req. rewrite request_image. apply encode_nonempty, Hb. }
  assert (He : upstream_event req =
               generateContent "gemini-1.5-flash" prompt
                 (JStr (Base64.encode (bytes file))) (JStr "image/jpeg")).
  { unfold upstream_event, req. rewrite request_image, request_mimeType.
    reflexivity. }
  destruct (upstream_reply h req) as [t|message] eqn:Hu.
  - rewrite (serve_success h req t Hi Hk Hu), He. eexists. reflexivity.
  - rewrite (serve_failure h req message Hi Hk Hu), He. eexists. reflexivity.
Qed.

Lemma X13_witness :
  exists last,
    snd (serve {| GEMINI_API_KEY := Some "AIzaSy-test";
                  gemini := fun _ _ _ _ => Text "a cat";
                  now := 0 |}
               (request_body
                  (base64_of_dataURL
                     (readAsDataURL
                        {| type := "image/png";
                           bytes := [Byte.x89; Byte.x50; Byte.x4e; Byte.x47] |}))
                  "image/png")) =
    [console_log "📸 Analyzing image with Gemini AI...";
     generateContent "gemini-1.5-flash" prompt (JStr "iVBORw==")
                     (JStr "image/jpeg");
     last].
Proof.
  apply (X13_declared_type_is_not_forwarded
           {| GEMINI_API_KEY := Some "AIzaSy-test";
              gemini := fun _ _ _ _ => Text "a cat";
              now := 0 |}
           {| type := "image/png";
              bytes := [Byte.x89; Byte.x50; Byte.x4e; Byte.x47] |}).
  - reflexivity.
  - discriminate.
  - reflexivity.
Defined.

Lemma analyzeImage_result_eq
    (b : Browser) (p : Page) (file : File)
    (status : Z) (data : gmap string jsval) (text : string) :
  selectedImageFile p = Some file ->
  read_fails b file = false ->
  sent b file = HttpResponse status (Json data) -> ok status = true ->
  get data "description" = JStr text ->
  analyzeImage b p =
  set_button false false true
    (showResults
       (set_description
          (agentBadge match get data "agent_used" with
                      | JUndefined => "LangChain + Gemini"
                      | _ => ToString (get data "agent_used")
                      end ++ formatDescription text)
          (set_button true true false p))).
Proof.
  intros Hsel Hr Hs Hok Hd.
  apply (analyzeImage_displayed b p file Hsel).
  rewrite (attempt_ok b file Hr status data Hs Hok).
  unfold displayResults. rewrite Hd. reflexivity.
Qed.

Lemma attempt_not_json
    (b : Browser) (file : File) (status : Z) (message : string) :
  read_fails b file = false ->
  sent b file = HttpResponse status (SyntaxError message) ->
  forall q, analyze_attempt b file q = Thrown (Some message).
Proof.
  intros Hr Hs q. unfold analyze_attempt, fileToBase64.
  rewrite Hr. unfold sent in Hs. rewrite Hs.
  destruct (negb (ok status)); reflexivity.
Qed.

Lemma request_length_body (payload : option string) (ty : string) :
  request_length (request_body payload ty) = content_length payload ty.
Proof.
  unfold request_length, request_body. destruct payload as [image|].
  - rewrite lookup_insert_eq, lookup_insert_ne by discriminate.
    rewrite lookup_singleton_eq. reflexivity.
  - rewrite lookup_singleton_ne by discriminate.
    rewrite lookup_singleton_eq. reflexivity.
Qed.

Lemma deployed_sent
    (h : Host) (port : Z) (refused not_json : string) (file : File) :
  let request := request_body (base64_of_dataURL (readAsDataURL file))
                              (type file) in
  sent (deployed_browser h port refused not_json) file =
  if port =? 8000 then
    if body_limit <? content_length (base64_of_dataURL (readAsDataURL file))
                                    (type file) then
      HttpResponse 413 (SyntaxError not_json)
    else
      match serve h request with
      | (Normal r, _) => HttpResponse (status r) (Json (body r))
      | (Throw message, _) => NetworkError message
      end
  else NetworkError refused.
Proof.
  intros request. unfold sent. cbn [fetch deployed_browser].
  rewrite String.eqb_refl. cbn [andb].
  fold request. unfold request at 1. rewrite request_length_body.
  reflexivity.
Qed.

(** X14: end to end on success.  The file is a non-empty image, the
    credential is configured and the model returns the text [t] for the
    payload and the type "image/jpeg".  When the relay listens on port
    8000 and the request body is within the limit of [express.json],
    the page ends in the Results view showing the badge "LangChain +
    Gemini" and the formatted [t]; when the body is over the limit, or
    the relay listens on another port (3000 unless [PORT] is set), the
    page ends in the Error view. *)
Theorem X14_end_to_end_success
    (h : Host) (p : Page) (file : File) (t : string)
    (port : Z) (refused not_json : string) :
  selectedImageFile p = Some file ->
  includes (type file) "," = false -> bytes file <> [] ->
  key_not_configured (GEMINI_API_KEY h) = false ->
  gemini h "gemini-1.5-flash" prompt
         (JStr (Base64.encode (bytes file))) (JStr "image/jpeg") = Text t ->
  let b := deployed_browser h port refused not_json in
  let length := content_length (Some (Base64.encode (bytes file))) (type file) in
  (port = 8000 -> length <= body_limit ->
   in_view Results (analyzeImage b p) /\
   descriptionContent_innerHTML (analyzeImage b p)
   = agentBadge "LangChain + Gemini" ++ formatDescription t) /\
  (port = 8000 -> body_limit < length -> in_view Error (analyzeImage b p)) /\
  (port <> 8000 -> in_view Error (analyzeImage b p)).
Proof.
  intros Hsel Hty Hb Hk Hg b length.
  assert (Hp : base64_of_dataURL (readAsDataURL file)
               = Some (Base64.encode (bytes file))).
  { apply base64_of_dataURL_payload;
      [apply includes_comma, Hty | apply encode_no_comma]. }
  set (req := request_body (Some (Base64.encode (bytes file))) (type file)).
  assert (Hi : truthy (get req "image") = true).
  { unfold req. rewrite request_image. apply encode_nonempty, Hb. }
  assert (Hu : upstream_reply h req = Text t).
  { unfold upstream_reply, req. rewrite request_image, request_mimeType.
    exact Hg. }
  pose proof (deployed_sent h port refused not_json file) as Hsent.
  cbv zeta in Hsent. rewrite Hp in Hsent. fold req length b in Hsent.
  split; [|split].
  - intros Hport Hfit.
    assert (Hs : sent b file =
                 HttpResponse 200
                   (Json (<[ "success" := JBool true ]>
                          (<[ "description" := JStr t ]>
                           {[ "timestamp" := JStr (Date.toISOString (now h)) ]})))).
    { rewrite Hsent.
      rewrite (proj2 (Z.eqb_eq port 8000) Hport).
      rewrite (proj2 (Z.ltb_ge body_limit length) Hfit).
      rewrite (serve_success h req t Hi Hk Hu). reflexivity. }
    rewrite (analyzeImage_result_eq b p file 200 _ t
               Hsel eq_refl Hs eq_refl eq_refl).
    split; reflexivity.
  - intros Hport Hover.
    assert (Hs : sent b file = HttpResponse 413 (SyntaxError not_json)).
    { rewrite Hsent.
      rewrite (proj2 (Z.eqb_eq port 8000) Hport).
      rewrite (proj2 (Z.ltb_lt body_limit length) Hover). reflexivity. }
    apply (analyzeImage_thrown b p file Hsel (Some not_json)).
    apply (attempt_not_json b file 413 not_json eq_refl Hs).
  - intros Hport.
    assert (Hs : sent b file = NetworkError refused).
    { rewrite Hsent.
      rewrite (proj2 (Z.eqb_neq port 8000) Hport). reflexivity. }
    apply (analyzeImage_thrown b p file Hsel (Some refused)).
    apply (attempt_network_error b file refused eq_refl Hs).
Qed.

Lemma X14_witness :
  let file := {| type := "image/png";
                 bytes := [Byte.x89; Byte.x50; Byte.x4e; Byte.x47] |} in
  let p := {| selectedImage := Some (readAsDataURL file);
              selectedImageFile := Some file;
              hidden := sections_of Preview;
              previewImage_src := readAsDataURL file;
              errorMessage_textContent := EmptyString;
              descriptionContent_innerHTML := EmptyString;
              imageInput_value := EmptyString;
              analyzeBtn_disabled := false;
              btn_text_hidden := false;
              btn_loader_hidden := true |} in
  let h := {| GEMINI_API_KEY := Some "AIzaSy-test";
              gemini := fun _ _ _ _ => Text "A cat.";
              now := 0 |} in
  let b := deployed_browser h 8000 "Failed to fetch" "Unexpected token" in
  in_view Results (analyzeImage b p) /\
  descriptionContent_innerHTML (analyzeImage b p)
  = agentBadge "LangChain + Gemini" ++ formatDescription "A cat.".
Proof.
  intros file p h b.
  destruct (X14_end_to_end_success h p file "A cat." 8000
              "Failed to fetch" "Unexpected token") as (H & _).
  - reflexivity.
  - reflexivity.
  - discriminate.
  - reflexivity.
  - reflexivity.
  - apply H; [reflexivity | vm_compute; discriminate].
Defined.

(** X15: end to end with an empty file.  Its payload is the empty
    string, the relay answers 400 without calling the model, and the
    page ends in the Error view with "Failed to analyze image". *)
Theorem X15_end_to_end_empty_file (h : Host) (p : Page) (file : File) :
  selectedImageFile p = Some file ->
  includes (type file) "," = false -> bytes file = [] ->
  serve h (request_body (base64_of_dataURL (readAsDataURL file)) (type file))
  = (Normal no_image_response, []) /\
  in_view Error (analyzeImage (relay_browser h) p) /\
  errorMessage_textContent (analyzeImage (relay_browser h) p)
  = "Failed to analyze image".
Proof.
  intros Hsel Hty Hb.
  assert (Hp : base64_of_dataURL (readAsDataURL file) = Some EmptyString).
  { unfold readAsDataURL. rewrite Hb.
    apply (base64_of_dataURL_payload (type file) EmptyString);
      [apply includes_comma, Hty | reflexivity]. }
  assert (Hserve : serve h (request_body (Some EmptyString) (type file))
                   = (Normal no_image_response, [])).
  { apply serve_no_image. rewrite request_image. reflexivity. }
  rewrite Hp. split; [exact Hserve|].
  assert (Hs : sent (relay_browser h) file =
               HttpResponse 400 (Json (body no_image_response))).
  { rewrite relay_sent, Hp, Hserve. reflexivity. }
  destruct (analyzeImage_thrown (relay_browser h) p file Hsel _
              (attempt_not_ok (relay_browser h) file 400 _ eq_refl Hs eq_refl _))
    as [Hv Ht].
  split; [exact Hv|]. rewrite Ht. reflexivity.
Qed.

Lemma X15_witness :
  let file := {| type := "image/png"; bytes := [] |} in
  let p := {| selectedImage := Some (readAsDataURL file);
              selectedImageFile := Some file;
              hidden := sections_of Preview;
              previewImage_src := readAsDataURL file;
              errorMessage_textContent := EmptyString;
              descriptionContent_innerHTML := EmptyString;
              imageInput_value := EmptyString;
              analyzeBtn_disabled := false;
              btn_text_hidden := false;
              btn_loader_hidden := true |} in
  let h := {| GEMINI_API_KEY := Some "AIzaSy-test";
              gemini := fun _ _ _ _ => Text "A cat.";
              now := 0 |} in
  errorMessage_textContent (analyzeImage (relay_browser h) p)
  = "Failed to analyze image".
Proof.
  intros file p h.
  destruct (X15_end_to_end_empty_file h p file) as (_ & _ & H);
    [reflexivity | reflexivity | reflexivity | exact H].
Defined.

(** X16: a reader result without a comma yields [undefined]; the
    [image] field is then left out of the request and the relay answers
    400 "No image provided". *)
Theorem X16_result_without_comma (h : Host) (result ty : string) :
  no_comma result ->
  base64_of_dataURL result = None /\
  request_body (base64_of_dataURL result) ty !! "image" = None /\
  serve h (request_body (base64_of_dataURL result) ty)
  = (Normal no_image_response, []).
Proof.
  intros Hn.
  assert (Hb : base64_of_dataURL result = None).
  { unfold base64_of_dataURL. rewrite (split_no_comma result Hn). reflexivity. }
  rewrite Hb. split; [reflexivity|].
  assert (Hl : request_body None ty !! "image" = None).
  { unfold request_body. apply lookup_singleton_ne. discriminate. }
  split; [exact Hl|].
  apply serve_no_image. unfold get. rewrite Hl. reflexivity.
Qed.

Lemma X16_witness :
  base64_of_dataURL "data:" = None.
Proof.
  apply (X16_result_without_comma
           {| GEMINI_API_KEY := None;
              gemini := fun _ _ _ _ => Text "a cat";
              now := 0 |} "data:" "image/png").
  reflexivity.
Defined.

(** ** Rendering: lines *)

Section Lines.

Lemma split_nonempty (sep : ascii) (s : string) : split sep s <> [].
Proof.
  destruct s as [|c s]; cbn [split]; [discriminate|].
  destruct (Ascii.eqb c sep); [discriminate|].
  destruct (split sep s); discriminate.
Qed.

Lemma split_app (sep : ascii) (a b : string) :
  split sep (a ++ String sep b) = (split sep a ++ split sep b)%list.
Proof.
  induction a as [|c a IH].
  - cbn [split]. change (EmptyString ++ String sep b) with (String sep b).
    cbn [split]. rewrite Ascii.eqb_refl. reflexivity.
  - rewrite append_cons. cbn [split]. destruct (Ascii.eqb c sep).
    + rewrite IH. reflexivity.
    + rewrite IH. pose proof (split_nonempty sep a) as Hne.
      destruct (split sep a) as [|piece pieces]; [congruence | reflexivity].
Qed.

Lemma join_app (l1 l2 : list string) : join (l1 ++ l2) = join l1 ++ join l2.
Proof.
  unfold join. induction l1 as [|x l1 IH]; [reflexivity|].
  cbn [app fold_right]. rewrite IH, append_assoc. reflexivity.
Qed.

Lemma dropWhile_all (f : ascii -> bool) (s : string) :
  forallb f (list_ascii_of_string s) = true -> dropWhile f s = EmptyString.
Proof.
  induction s as [|c s IH]; [reflexivity|].
  cbn [list_ascii_of_string forallb dropWhile]. intros H.
  apply andb_prop in H as [-> H]. exact (IH H).
Qed.

Lemma split_pieces_all (f : ascii -> bool) (sep : ascii) (s : string) :
  forallb f (list_ascii_of_string s) = true ->
  Forall (fun piece => forallb f (list_ascii_of_string piece) = true)
         (split sep s).
Proof.
  induction s as [|c s IH]; cbn [split list_ascii_of_string forallb].
  - intros _. repeat constructor.
  - intros H. apply andb_prop in H as [Hc H]. specialize (IH H).
    destruct (Ascii.eqb c sep).
    + constructor; [reflexivity | exact IH].
    + destruct (split sep s) as [|piece pieces].
      * repeat constructor. cbn. rewrite Hc. reflexivity.
      * inversion IH as [|? ? Hp Hps]; subst. constructor; [|exact Hps].
        cbn [list_ascii_of_string forallb]. rewrite Hc. exact Hp.
Qed.

End Lines.

Lemma formatDescription_newline (a b : string) :
  formatDescription (a ++ String "010" b)
  = formatDescription a ++ formatDescription b.
Proof.
  unfold formatDescription.
  rewrite split_app, List.filter_app, List.map_app, join_app. reflexivity.
Qed.

(** X17: the rendering works line by line: the output for two texts
    joined by a newline is the output for the first followed by the
    output for the second. *)
Theorem X17_rendering_is_line_by_line (a b : string) :
  formatDescription (a ++ String "010" b)
  = formatDescription a ++ formatDescription b.
Proof. exact (formatDescription_newline a b). Qed.

(** X18: a text made of white space only (blanks, tabs, newlines)
    renders as nothing, so blank lines between paragraphs leave no
    trace in the output. *)
Theorem X18_blank_text_renders_nothing (text : string) :
  forallb is_whitespace (list_ascii_of_string text) = true ->
  formatDescription text = EmptyString /\
  (forall a b,
     formatDescription (a ++ String "010" (text ++ String "010" b))
     = formatDescription a ++ formatDescription b).
Proof.
  intros Hw.
  assert (Hblank : formatDescription text = EmptyString).
  { unfold formatDescription.
    pose proof (split_pieces_all is_whitespace "010" text Hw) as Hall.
    induction Hall as [|piece pieces Hp Hps IH]; [reflexivity|].
    cbn [List.filter]. unfold trim at 1, trimStart.
    rewrite (dropWhile_all is_whitespace piece Hp). cbn [trimEnd String.eqb negb].
    exact IH. }
  split; [exact Hblank|].
  intros a b.
  rewrite (formatDescription_newline a), (formatDescription_newline text).
  rewrite Hblank. reflexivity.
Qed.

Lemma X18_witness :
  formatDescription (String "009" (String " " (String "010" " "))) = EmptyString.
Proof.
  destruct (X18_blank_text_renders_nothing
              (String "009" (String " " (String "010" " ")))) as [H _];
    [reflexivity | exact H].
Defined.

(** ** Rendering: bold spans and list items *)

Section MoreBold.

Lemma has_bold_pair_false_inv (c : ascii) (r : string) :
  has_bold_pair (String c r) = false ->
  match_bold (String c r) = None /\ has_bold_pair r = false.
Proof.
  rewrite has_bold_pair_cons.
  destruct (match_bold (String c r)); [discriminate | auto].
Qed.

Lemma replace_bold_without_pair (s : string) :
  has_bold_pair s = false -> replace_bold s = s.
Proof.
  induction s as [|c r IH]; [reflexivity|].
  intros H. apply has_bold_pair_false_inv in H as [Hm Hr].
  rewrite replace_bold_cons, Hm, (IH Hr). reflexivity.
Qed.

Lemma prefix_stars (s : string) :
  after_stars s <> None -> String.prefix "**" s = true.
Proof.
  destruct s as [|c1 [|c2 r]]; cbn [after_stars]; try congruence.
  destruct (Ascii.eqb_spec c1 "*") as [->|]; [|cbn; congruence].
  destruct (Ascii.eqb_spec c2 "*") as [->|]; [|cbn; congruence].
  intros _. destruct r; reflexivity.
Qed.

Lemma has_bold_pair_includes (s : string) :
  has_bold_pair s = true -> includes s "**" = true.
Proof.
  induction s as [|c r IH].
  - discriminate.
  - rewrite has_bold_pair_cons. cbn [includes].
    destruct (match_bold (String c r)) as [m|] eqn:Hm.
    + intros _. unfold match_bold in Hm.
      rewrite prefix_stars; [reflexivity|].
      destruct (after_stars (String c r)); [discriminate | discriminate Hm].
    + intros H. rewrite (IH H). apply orb_true_r.
Qed.

End MoreBold.

(** X19: the bold replacement changes nothing in a line that has no
    complete pair (in particular in a line without [**]), and running
    it twice is the same as running it once. *)
Theorem X19_bold_replacement_fixed_points (s : string) :
  (has_bold_pair s = false -> replace_bold s = s) /\
  (includes s "**" = false -> replace_bold s = s) /\
  replace_bold (replace_bold s) = replace_bold s.
Proof.
  split; [apply replace_bold_without_pair|]. split.
  - intros Hi. apply replace_bold_without_pair.
    destruct (has_bold_pair s) eqn:Hp; [|reflexivity].
    apply has_bold_pair_includes in Hp. congruence.
  - apply replace_bold_without_pair, no_bold_pair_left.
Qed.

Lemma X19_witness :
  replace_bold "2 * 3 ** 2 = 18" = "2 * 3 ** 2 = 18".
Proof.
  destruct (X19_bold_replacement_fixed_points "2 * 3 ** 2 = 18")
    as (H & _ & _).
  apply H. reflexivity.
Defined.

Section ListItems.

Lemma trimEnd_keeps (c : ascii) (s : string) :
  is_whitespace c = false -> trimEnd (String c s) = String c (trimEnd s).
Proof.
  intros Hc. cbn [trimEnd]. rewrite Hc. destruct (trimEnd s); reflexivity.
Qed.

Lemma digit_not_whitespace (c : ascii) :
  is_digit c = true -> is_whitespace c = false.
Proof.
  unfold is_digit, is_whitespace. cbv zeta. intros H.
  apply andb_prop in H as [H1 H2].
  apply Nat.leb_le in H1. apply Nat.leb_le in H2.
  rewrite (proj2 (Nat.leb_gt _ 13)) by lia.
  rewrite (proj2 (Nat.eqb_neq _ 32)) by lia.
  rewrite (proj2 (Nat.eqb_neq _ 160)) by lia.
  rewrite andb_false_r. reflexivity.
Qed.

Lemma digit_not_marker (c : ascii) :
  is_digit c = true ->
  Ascii.eqb "#" c = false /\ Ascii.eqb "-" c = false /\
  Ascii.eqb "*" c = false /\ Ascii.eqb c "-" = false /\
  Ascii.eqb c "*" = false /\ Ascii.eqb c "." = false.
Proof.
  intros H. repeat split; apply Ascii.eqb_neq; intros E; subst c;
    discriminate H.
Qed.

Lemma trimEnd_digits (digits s : string) :
  forallb is_digit (list_ascii_of_string digits) = true ->
  trimEnd (digits ++ String "." s) = digits ++ String "." (trimEnd s).
Proof.
  induction digits as [|c digits IH].
  - intros _. change (EmptyString ++ ?x) with x.
    apply trimEnd_keeps. reflexivity.
  - cbn [list_ascii_of_string forallb]. intros H.
    apply andb_prop in H as [Hc H]. rewrite !append_cons.
    rewrite trimEnd_keeps by (apply digit_not_whitespace, Hc).
    rewrite (IH H). reflexivity.
Qed.

Lemma dropWhile_digits (digits s : string) :
  forallb is_digit (list_ascii_of_string digits) = true ->
  dropWhile is_digit (digits ++ String "." s) = String "." s.
Proof.
  induction digits as [|c digits IH].
  - intros _. reflexivity.
  - cbn [list_ascii_of_string forallb]. intros H.
    apply andb_prop in H as [Hc H]. rewrite append_cons.
    cbn [dropWhile]. rewrite Hc. exact (IH H).
Qed.

Lemma after_number_dot_digits (digits s : string) :
  digits <> EmptyString ->
  forallb is_digit (list_ascii_of_string digits) = true ->
  after_number_dot (digits ++ String "." s) = Some s.
Proof.
  intros Hne Hd. destruct digits as [|c digits]; [congruence|].
  pose proof (dropWhile_digits (String c digits) s Hd) as Hdrop.
  cbn [list_ascii_of_string forallb] in Hd. apply andb_prop in Hd as [Hc _].
  rewrite append_cons in Hdrop |- *. unfold after_number_dot.
  rewrite Hc, Hdrop. reflexivity.
Qed.

End ListItems.

(** X20: list items, for a line without [**].  A line that begins with
    [-] or [*] becomes a list item without the marker and the white
    space after it (and without a number marker that may follow); a
    line that begins with digits and a dot becomes a list item without
    them and the white space after the dot.  When the marker comes
    after leading white space the line is still a list item, but
    nothing is removed from it. *)
Theorem X20_list_items (p : string) :
  includes p "**" = false ->
  (forall c rest, p = String c rest -> c = "-"%char \/ c = "*"%char ->
     formatParagraph p = li (strip_number (dropWhile is_whitespace rest)) /\
     (after_number_dot (dropWhile is_whitespace rest) = None ->
      formatParagraph p = li (dropWhile is_whitespace rest))) /\
  (forall digits rest, p = digits ++ String "." rest ->
     digits <> EmptyString ->
     forallb is_digit (list_ascii_of_string digits) = true ->
     formatParagraph p = li (dropWhile is_whitespace rest)) /\
  (head_is is_whitespace p = true ->
   head_is (fun c => Ascii.eqb "-" c || Ascii.eqb "*" c) (trim p) = true ->
   formatParagraph p = li p).
Proof.
  intros Hb. split; [|split].
  - intros c rest -> Hc.
    assert (Hf : formatParagraph (String c rest)
                 = li (strip_number (dropWhile is_whitespace rest))).
    { unfold formatParagraph. rewrite Hb, !startsWith_char.
      rewrite !head_trim by (destruct Hc as [-> | ->]; reflexivity).
      destruct Hc as [-> | ->]; reflexivity. }
    split; [exact Hf|]. intros Hn. rewrite Hf. unfold strip_number.
    rewrite Hn. reflexivity.
  - intros digits rest -> Hne Hd.
    pose proof (after_number_dot_digits digits rest Hne Hd) as Hnum.
    destruct digits as [|c digits]; [congruence|].
    pose proof Hd as Hd'.
    cbn [list_ascii_of_string forallb] in Hd'. apply andb_prop in Hd' as [Hc _].
    destruct (digit_not_marker c Hc) as (H1 & H2 & H3 & H4 & H5 & _).
    unfold formatParagraph. rewrite Hb, !startsWith_char.
    assert (Ht : trim (String c digits ++ String "." rest)
                 = String c digits ++ String "." (trimEnd rest)).
    { unfold trim, trimStart. rewrite append_cons. cbn [dropWhile].
      rewrite (digit_not_whitespace c Hc). rewrite <- append_cons.
      apply trimEnd_digits, Hd. }
    rewrite Ht.
    rewrite (after_number_dot_digits (String c digits) (trimEnd rest) Hne Hd).
    rewrite append_cons. cbn [head_is]. rewrite H1, H2, H3.
    cbn [orb]. rewrite bool_decide_eq_true_2 by (eexists; reflexivity).
    unfold strip_bullet. rewrite append_cons in Hnum |- *. rewrite H4, H5.
    cbn [orb]. unfold strip_number. rewrite Hnum. reflexivity.
  - intros Hw Hm. destruct p as [|c rest]; [discriminate|].
    cbn [head_is] in Hw. unfold formatParagraph. rewrite Hb, !startsWith_char.
    assert (Hh : head_is (Ascii.eqb "#") (trim (String c rest)) = false).
    { destruct (trim (String c rest)) as [|d t]; [reflexivity|].
      cbn [head_is] in Hm |- *. apply orb_prop in Hm.
      apply Ascii.eqb_neq. intros <-.
      destruct Hm as [Hm | Hm]; discriminate Hm. }
    rewrite Hh.
    assert (Hor : head_is (Ascii.eqb "-") (trim (String c rest))
                  || head_is (Ascii.eqb "*") (trim (String c rest)) = true).
    { destruct (trim (String c rest)); [discriminate | exact Hm]. }
    rewrite Hor. cbn [orb].
    assert (Hc1 : Ascii.eqb c "-" = false /\ Ascii.eqb c "*" = false
                  /\ is_digit c = false).
    { repeat split; [apply Ascii.eqb_neq; intros -> ..|]; try discriminate Hw.
      destruct (is_digit c) eqn:Hd; [|reflexivity].
      rewrite (digit_not_whitespace c Hd) in Hw. discriminate Hw. }
    destruct Hc1 as (Hc1 & Hc2 & Hc3).
    unfold strip_bullet. rewrite Hc1, Hc2. cbn [orb].
    unfold strip_number, after_number_dot. rewrite Hc3. reflexivity.
Qed.

Lemma X20_witness :
  formatParagraph "-   Warm light" = li "Warm light" /\
  formatParagraph "12. Soft focus" = li "Soft focus" /\
  formatParagraph "  - indented" = li "  - indented".
Proof.
  destruct (X20_list_items "-   Warm light" eq_refl) as (Ha & _ & _).
  destruct (X20_list_items "12. Soft focus" eq_refl) as (_ & Hb & _).
  destruct (X20_list_items "  - indented" eq_refl) as (_ & _ & Hc).
  split; [|split].
  - destruct (Ha "-"%char "   Warm light" eq_refl) as [_ H];
      [left; reflexivity | apply H; reflexivity].
  - apply (Hb "12" " Soft focus" eq_refl); [discriminate | reflexivity].
  - apply Hc; reflexivity.
Defined.

(** X21: a heading marker after leading white space.  The line is
    still classified as a heading, but the expression that removes the
    marker is anchored at the start of the untrimmed line, so the whole
    line, white space and [#] included, becomes the heading text. *)
Theorem X21_indented_heading_keeps_marker (p : string) :
  head_is is_whitespace p = true ->
  startsWith (trim p) "#" = true ->
  formatParagraph p = h4 p.
Proof.
  intros Hw Ht. unfold formatParagraph, strip_heading_marker. rewrite Ht.
  rewrite startsWith_char. destruct p as [|c rest]; [discriminate|].
  cbn [head_is] in Hw |- *.
  destruct (Ascii.eqb_spec "#" c) as [<-|_]; [discriminate Hw | reflexivity].
Qed.

Lemma X21_witness : formatParagraph "  ## Mood" = h4 "  ## Mood".
Proof.
  apply (X21_indented_heading_keeps_marker "  ## Mood"); reflexivity.
Defined.

(** ** The client: New Analysis *)

(** X22: New Analysis shows the Upload view, forgets the selected file
    and empties the file input, after which Analyze does nothing
    whatever the network would answer; the preview source, the last
    description and the last error text are not cleared. *)
Theorem X22_reset (b : Browser) (p : Page) :
  in_view Upload (resetApp p) /\
  selectedImage (resetApp p) = None /\
  selectedImageFile (resetApp p) = None /\
  imageInput_value (resetApp p) = EmptyString /\
  analyzeImage b (resetApp p) = resetApp p /\
  previewImage_src (resetApp p) = previewImage_src p /\
  descriptionContent_innerHTML (resetApp p) = descriptionContent_innerHTML p /\
  errorMessage_textContent (resetApp p) = errorMessage_textContent p.
Proof.
  repeat split.
Qed.

(** ** The relay: requests with and without a body *)

Lemma serve_parsed_body (h : Host) (req : gmap string jsval) :
  exists r tr,
    serve h req = (Normal r, tr) /\
    (status r = 200 \/ status r = 400 \/ status r = 500) /\
    (status r <> 200 -> is_Some (body r !! "error")) /\
    (upstream_calls tr <= 1)%nat /\
    (upstream_calls tr = 1%nat <->
     truthy (get req "image") = true /\
     key_not_configured (GEMINI_API_KEY h) = false).
Proof.
  destruct (truthy (get req "image")) eqn:Hi.
  2:{ eexists _, _. split; [apply serve_no_image; exact Hi|].
      cbn. repeat split; try tauto; try lia; try (eexists; reflexivity);
        first [discriminate | intros [? ?]; discriminate]. }
  destruct (key_not_configured (GEMINI_API_KEY h)) eqn:Hk.
  { eexists _, _. split; [apply serve_not_configured; assumption|].
    cbn. repeat split; try tauto; try lia; try (eexists; reflexivity);
      first [discriminate | intros [? ?]; discriminate]. }
  destruct (upstream_reply h req) as [t|message] eqn:Hu.
  - eexists _, _. split; [apply serve_success; eassumption|].
    unfold upstream_calls, upstream_event. cbn.
    repeat split; auto. intros H. exfalso. apply H. reflexivity.
  - eexists _, _. split; [apply serve_failure; eassumption|].
    unfold upstream_calls, upstream_event. cbn.
    repeat split; auto.
Qed.

(** X23: every request is answered, whether or not a body was parsed:
    no exception leaves the handler, the status is 200, 400 or 500,
    every answer other than 200 has an [error] field, and the external
    model is called at most once, namely when a body was parsed, its
    image is truthy and the credential is configured. *)
Theorem X23_every_request_with_or_without_body
    (h : Host) (req_body : option (gmap string jsval)) :
  exists r tr,
    serve_request h req_body = (Normal r, tr) /\
    (status r = 200 \/ status r = 400 \/ status r = 500) /\
    (status r <> 200 -> is_Some (body r !! "error")) /\
    (upstream_calls tr <= 1)%nat /\
    (upstream_calls tr = 1%nat <->
     exists req, req_body = Some req /\
       truthy (get req "image") = true /\
       key_not_configured (GEMINI_API_KEY h) = false).
Proof.
  destruct req_body as [req|].
  - destruct (serve_parsed_body h req) as (r & tr & Hs & Hst & He & Hle & Hone).
    exists r, tr. split; [exact Hs|]. split; [exact Hst|].
    split; [exact He|]. split; [exact Hle|].
    rewrite Hone. split.
    + intros H. exists req. split; [reflexivity | exact H].
    + intros (req' & Heq & H). injection Heq as <-. exact H.
  - eexists _, _. split; [apply serve_without_body|].
    split; [right; right; reflexivity|].
    split; [intros _; eexists; reflexivity|].
    split; [cbn; lia|].
    split; [intros H; discriminate H
           | intros (req & Hreq & _); discriminate Hreq].
Qed.

(** ** The body limit in bytes of the file *)

Section Limit.

Import Base64.

Lemma plain_table :
  forallb (fun n => json_char_bytes (char_of n) =? 1)
          (List.map Z.of_nat (seq 0 64)) = true.
Proof. vm_compute. reflexivity. Qed.

Lemma char_of_plain (n : Z) : 0 <= n < 64 -> json_char_bytes (char_of n) = 1.
Proof.
  intros Hn.
  assert (Hin : In n (List.map Z.of_nat (seq 0 64))).
  { apply in_map_iff. exists (Z.to_nat n). split; [lia|].
    apply in_seq. lia. }
  apply Z.eqb_eq.
  exact (proj1 (forallb_forall _ _) plain_table n Hin).
Qed.

Lemma pad_plain : json_char_bytes pad = 1.
Proof. reflexivity. Qed.

(** An encoding has no character that [JSON.stringify] escapes, and four
    characters for every three bytes, the last group filled up. *)
Lemma encode_bytes (bytes : list Byte.byte) :
  json_chars_bytes (encode bytes) = 4 * ((Z.of_nat (List.length bytes) + 2) / 3).
Proof.
  induction bytes as [|a|a b|a b c rest IH] using list_ind3.
  - reflexivity.
  - cbn [encode json_chars_bytes].
    pose proof (value_bounds a) as Ha.
    rewrite !char_of_plain, !pad_plain by (Z.div_mod_to_equations; lia).
    reflexivity.
  - cbn [encode json_chars_bytes].
    pose proof (value_bounds a) as Ha. pose proof (value_bounds b) as Hb.
    rewrite !char_of_plain, !pad_plain by (Z.div_mod_to_equations; lia).
    reflexivity.
  - cbn [encode json_chars_bytes].
    pose proof (value_bounds a) as Ha. pose proof (value_bounds b) as Hb.
    pose proof (value_bounds c) as Hc.
    rewrite !char_of_plain by (Z.div_mod_to_equations; lia).
    rewrite IH. cbn [List.length].
    Z.div_mod_to_equations. lia.
Qed.

End Limit.

(** X24: the request of a file of [n] bytes whose declared type is
    "image/jpeg" is 37 bytes of framing and four bytes for every three
    of the file; [express.json] reads it exactly when the file has at
    most 39321570 bytes. *)
Theorem X24_largest_accepted_file (file : File) :
  type file = "image/jpeg" ->
  let n := Z.of_nat (List.length (bytes file)) in
  content_length (Some (Base64.encode (bytes file))) (type file)
  = 37 + 4 * ((n + 2) / 3) /\
  (content_length (Some (Base64.encode (bytes file))) (type file) <= body_limit
   <-> n <= 39321570).
Proof.
  intros Hty n.
  assert (Hlen : content_length (Some (Base64.encode (bytes file))) (type file)
                 = 37 + 4 * ((n + 2) / 3)).
  { rewrite Hty. unfold content_length, json_string_bytes.
    rewrite encode_bytes. fold n.
    change (json_chars_bytes "image") with 5.
    change (json_chars_bytes "mime_type") with 9.
    change (json_chars_bytes "image/jpeg") with 10.
    lia. }
  split; [exact Hlen|].
  rewrite Hlen. unfold body_limit.
  assert (0 <= n) by (unfold n; lia).
  split; intros Hle; Z.div_mod_to_equations; lia.
Qed.

Lemma X24_witness :
  content_length (Some "iVBORw==") "image/jpeg" = 45 /\
  content_length (Some "iVBORw==") "image/jpeg" <= body_limit.
Proof.
  destruct (X24_largest_accepted_file
              {| type := "image/jpeg";
                 bytes := [Byte.x89; Byte.x50; Byte.x4e; Byte.x47] |} eq_refl)
    as [Hlen Hfit].
  split; [exact Hlen|]. apply Hfit. vm_compute. discriminate.
Defined.
